(** * SmartERP UI: anchored overlays (Dropdown, Menu, Tooltip, DatePicker)

    A shallow embedding of the positioning and open/close logic of the
    popover-family components under [src/components/ui], and the properties
    the specification states about them; then of the dates of [DatePicker],
    of [TimeInput] and of the [ThemeProvider] behind the theme dropdown,
    with further properties of all of them.

    - JavaScript [number]s are IEEE 754 binary64 values: Rocq's primitive
      floats, whose operations are the ones the JavaScript engine performs.
    - A React component is a record of props, a record of state cells
      ([useState]) and handlers that map a state to the next state together
      with the calls made to the caller's callbacks.
    - Refs ([useRef]) are [option]s: [None] is a [current] that is [null].
    - [useEffect] is an effect slot: the dependencies of its last run and the
      cleanup that run returned.
    - The fields of dates and times are integers or [NaN]; texts are
      [string]s; a [Date] is a time value or an Invalid Date, read in a
      time zone at a fixed offset from UTC, with the day and year
      arithmetic of the ECMAScript specification. *)

From Stdlib Require Import Floats.PrimFloat.
From Stdlib Require Import ZArith NArith List Bool String Ascii Lia.
From Stdlib Require Import DecimalString DecimalZ DecimalPos.
Import ListNotations.

(* ================================================================== *)
(** ** JavaScript values                                               *)
(* ================================================================== *)

Definition number := float.
Bind Scope float_scope with number.

(** [ToBoolean] on a number: [+0], [-0] and [NaN] are falsy. *)
Definition falsy (x : number) : bool :=
  (PrimFloat.eqb x 0%float || negb (PrimFloat.eqb x x))%bool.

(** [a || b] on numbers. *)
Definition js_or (a b : number) : number := if falsy a then b else a.

(** Reading through a [null] reference throws a [TypeError]. *)
Inductive Exn := TypeError.

Inductive Result (A : Type) : Type :=
| Ok (a : A)
| Throw (e : Exn).
Arguments Ok {A} a.
Arguments Throw {A} e.

Definition bind {A B} (r : Result A) (k : A -> Result B) : Result B :=
  match r with
  | Ok a => k a
  | Throw e => Throw e
  end.

Notation "x <- r ;; k" := (bind r (fun x => k))
  (at level 61, r at next level, right associativity).

(* ================================================================== *)
(** ** The DOM as the components read it                               *)
(* ================================================================== *)

(** The rectangle [getBoundingClientRect()] returns, in viewport
    coordinates. Its width and height are never negative, so [bottom] and
    [right] are [top + height] and [left + width]. *)
Module DOMRect.
Record t := mk { top : number; left : number; width : number; height : number }.
Definition bottom (r : t) : number := (top r + height r)%float.
Definition right (r : t) : number := (left r + width r)%float.
End DOMRect.

(** [elem.getBoundingClientRect()] through a ref's [current]. *)
Definition getBoundingClientRect (current : option DOMRect.t) : Result DOMRect.t :=
  match current with
  | Some r => Ok r
  | None => Throw TypeError
  end.

(** [!ref.current] *)
Definition isNull {A} (current : option A) : bool :=
  match current with Some _ => false | None => true end.

(** The scroll offsets [updatePosition] reads from [window] and
    [document.documentElement]. *)
Record Scroll := {
  pageYOffset : number;
  pageXOffset : number;
  documentElement_scrollTop : number;
  documentElement_scrollLeft : number
}.

(* ================================================================== *)
(** ** Placement                                                       *)
(* ================================================================== *)

(** ['top' | 'bottom' | 'left' | 'right'] *)
Inductive Side := side_top | side_bottom | side_left | side_right.

(** ['start' | 'center' | 'end'] *)
Inductive Align := align_start | align_center | align_end.

(** [placement === 'left' || placement === 'right'] *)
Definition isHorizontal (s : Side) : bool :=
  match s with
  | side_left | side_right => true
  | side_top | side_bottom => false
  end.

Record Position := { top : number; left : number }.

Definition origin : Position := {| top := 0; left := 0 |}.

Definition scrollTop (w : Scroll) : number :=
  js_or (pageYOffset w) (documentElement_scrollTop w).

Definition scrollLeft (w : Scroll) : number :=
  js_or (pageXOffset w) (documentElement_scrollLeft w).

(* ================================================================== *)
(** ** The resolver of the specification                               *)
(* ================================================================== *)

(** The specification's bounds are in document coordinates: each edge of
    the viewport rectangle moved by the current scroll offsets. *)
Module Bounds.
Record t := mk {
  top : number; left : number; bottom : number; right : number;
  width : number; height : number
}.

Definition ofRect (w : Scroll) (r : DOMRect.t) : t :=
  {| top := DOMRect.top r + scrollTop w;
     left := DOMRect.left r + scrollLeft w;
     bottom := DOMRect.bottom r + scrollTop w;
     right := DOMRect.right r + scrollLeft w;
     width := DOMRect.width r;
     height := DOMRect.height r |}%float.
End Bounds.

(** [resolvePosition] written from the specification's formulas: the side
    fixes the primary axis, the alignment the cross axis. *)
Definition spec_primary (trigger floating : Bounds.t) (side : Side) (offset : number) : number :=
  match side with
  | side_bottom => Bounds.bottom trigger + offset
  | side_top => Bounds.top trigger - Bounds.height floating - offset
  | side_left => Bounds.left trigger - Bounds.width floating - offset
  | side_right => Bounds.right trigger + offset
  end%float.

Definition spec_cross (trigger floating : Bounds.t) (side : Side) (align : Align) : number :=
  if isHorizontal side then
    match align with
    | align_start => Bounds.top trigger
    | align_center => Bounds.top trigger + Bounds.height trigger / 2 - Bounds.height floating / 2
    | align_end => Bounds.bottom trigger - Bounds.height floating
    end%float
  else
    match align with
    | align_start => Bounds.left trigger
    | align_center => Bounds.left trigger + Bounds.width trigger / 2 - Bounds.width floating / 2
    | align_end => Bounds.right trigger - Bounds.width floating
    end%float.

Definition spec_resolvePosition (trigger floating : Bounds.t)
    (side : Side) (align : Align) (offset : number) : Position :=
  if isHorizontal side then
    {| top := spec_cross trigger floating side align;
       left := spec_primary trigger floating side offset |}
  else
    {| top := spec_primary trigger floating side offset;
       left := spec_cross trigger floating side align |}.

(* ================================================================== *)
(** ** Event targets and their listener lists                          *)
(* ================================================================== *)

Inductive EventTarget := window | document.

Inductive EventType := ev_resize | ev_scroll | ev_keydown | ev_mousedown.

(** A function value is known by the allocation that created it: two
    closures are the same listener only if they are the same allocation. *)
Definition Closure := nat.

Record Listener := {
  target : EventTarget;
  type : EventType;
  callback : Closure;
  capture : bool
}.

Definition EventTarget_eqb (a b : EventTarget) : bool :=
  match a, b with
  | window, window | document, document => true
  | _, _ => false
  end.

Definition EventType_eqb (a b : EventType) : bool :=
  match a, b with
  | ev_resize, ev_resize | ev_scroll, ev_scroll
  | ev_keydown, ev_keydown | ev_mousedown, ev_mousedown => true
  | _, _ => false
  end.

Definition Listener_eqb (a b : Listener) : bool :=
  EventTarget_eqb (target a) (target b)
  && EventType_eqb (type a) (type b)
  && Nat.eqb (callback a) (callback b)
  && Bool.eqb (capture a) (capture b).

(** [target.addEventListener(type, callback, capture)]: a listener already
    in the list is not added a second time. *)
Definition addEventListener (l : Listener) (ls : list Listener) : list Listener :=
  if existsb (Listener_eqb l) ls then ls else ls ++ [l].

(** [target.removeEventListener(type, callback, capture)]: the listener
    with that type, callback and capture flag leaves the list. *)
Fixpoint removeEventListener (l : Listener) (ls : list Listener) : list Listener :=
  match ls with
  | [] => []
  | x :: rest => if Listener_eqb l x then rest else x :: removeEventListener l rest
  end.

(** The page around a component: the listeners registered on [window] and
    [document] by anyone, and the next closure to be allocated. *)
Record World := {
  listeners : list Listener;
  nextClosure : Closure
}.

(** Every registered listener is a closure that has been allocated. *)
Definition wfWorld (w : World) : Prop :=
  Forall (fun l => callback l < nextClosure w) (listeners w).

(** The cleanup function an effect returns, as the listeners it removes,
    in order. *)
Definition Cleanup := list Listener.

Definition runCleanup (c : Cleanup) (ls : list Listener) : list Listener :=
  fold_left (fun acc l => removeEventListener l acc) c ls.

(** The number of listeners of one type on [window]. *)
Definition countListeners (ty : EventType) (ls : list Listener) : nat :=
  List.length (filter (fun l => EventTarget_eqb (target l) window && EventType_eqb (type l) ty) ls).

(** Where a DOM node sits relative to an overlay's elements. *)
Inductive Node := in_trigger | in_floating | in_root | outside.

(* ================================================================== *)
(** ** Dropdown.tsx                                                    *)
(* ================================================================== *)

Module Dropdown.

Record Props := {
  controlledOpen : option bool;     (* open?: boolean *)
  onOpenChange : bool;              (* whether the callback is supplied *)
  placement : Side;
  align : Align;
  offset : number;
  showArrow : bool;
  closeOnClick : bool;
  closeOnEscape : bool;
  closeOnBlur : bool
}.

(** The defaults of the destructured props. *)
Definition defaultProps : Props :=
  {| controlledOpen := None; onOpenChange := false;
     placement := side_bottom; align := align_start; offset := 8;
     showArrow := true; closeOnClick := true; closeOnEscape := true;
     closeOnBlur := true |}.

(** What an instance reaches of the page: [triggerRef.current],
    [contentRef.current] (a mounted element is known by the rectangle it
    measures) and the scroll offsets. *)
Record Dom := {
  triggerRef : option DOMRect.t;
  contentRef : option DOMRect.t;
  scroll : Scroll
}.

(** [useState(false)] and [useState({ top: 0, left: 0 })]. *)
Record State := { isOpen : bool; position : Position }.

Definition init : State := {| isOpen := false; position := origin |}.

Definition setIsOpen (b : bool) (s : State) : State :=
  {| isOpen := b; position := position s |}.

Definition setPosition (p : Position) (s : State) : State :=
  {| isOpen := isOpen s; position := p |}.

Definition isControlled (p : Props) : bool :=
  match controlledOpen p with Some _ => true | None => false end.

(** [const open = isControlled ? controlledOpen : isOpen] *)
Definition open (p : Props) (s : State) : bool :=
  match controlledOpen p with Some b => b | None => isOpen s end.

(** The two [switch] statements of [updatePosition], from the measured
    rectangles to the [{ top, left }] handed to [setPosition]. *)
Definition computePosition (placement : Side) (align : Align) (offset : number)
    (triggerRect contentRect : DOMRect.t) (w : Scroll) : Position :=
  let scrollTop := scrollTop w in
  let scrollLeft := scrollLeft w in
  let top : number := 0%float in
  let left : number := 0%float in
  let '(top, left) :=
    match placement with
    | side_bottom =>
        (DOMRect.bottom triggerRect + scrollTop + offset, left)
    | side_top =>
        (DOMRect.top triggerRect + scrollTop - DOMRect.height contentRect - offset, left)
    | side_left =>
        (DOMRect.top triggerRect + scrollTop,
         DOMRect.left triggerRect + scrollLeft - DOMRect.width contentRect - offset)
    | side_right =>
        (DOMRect.top triggerRect + scrollTop,
         DOMRect.right triggerRect + scrollLeft + offset)
    end%float in
  let '(top, left) :=
    match align with
    | align_start =>
        if isHorizontal placement
        then (DOMRect.top triggerRect + scrollTop, left)
        else (top, DOMRect.left triggerRect + scrollLeft)
    | align_center =>
        if isHorizontal placement
        then (DOMRect.top triggerRect + scrollTop
                + (DOMRect.height triggerRect / 2) - (DOMRect.height contentRect / 2), left)
        else (top, DOMRect.left triggerRect + scrollLeft
                + (DOMRect.width triggerRect / 2) - (DOMRect.width contentRect / 2))
    | align_end =>
        if isHorizontal placement
        then (DOMRect.bottom triggerRect + scrollTop - DOMRect.height contentRect, left)
        else (top, DOMRect.right triggerRect + scrollLeft - DOMRect.width contentRect)
    end%float in
  {| top := top; left := left |}.

Definition updatePosition (p : Props) (dom : Dom) (s : State) : Result State :=
  if (isNull (triggerRef dom) || isNull (contentRef dom))%bool then Ok s
  else
    triggerRect <- getBoundingClientRect (triggerRef dom) ;;
    contentRect <- getBoundingClientRect (contentRef dom) ;;
    Ok (setPosition
          (computePosition (placement p) (align p) (offset p)
             triggerRect contentRect (scroll dom)) s).

(** A handler returns the next state and the arguments of the calls it
    made to [onOpenChange], in order. *)
Definition Handler := State -> State * list bool.

(** [onOpenChange?.(b)] *)
Definition emit (p : Props) (b : bool) : list bool :=
  if onOpenChange p then [b] else [].

Definition handleToggle (p : Props) : Handler := fun s =>
  (if negb (isControlled p) then setIsOpen (negb (isOpen s)) s else s,
   emit p (negb (open p s))).

Definition handleClose (p : Props) : Handler := fun s =>
  (if negb (isControlled p) then setIsOpen false s else s,
   emit p false).

(** [dropdownRef.current.contains(node)]: the root [div] holds the trigger
    and the content. *)
Definition contains (n : Node) : bool :=
  match n with
  | outside => false
  | in_trigger | in_floating | in_root => true
  end.

(** [onBlur] of the root [div]; [relatedTarget] is [None] when no element
    receives the focus. The handler runs on the mounted root, so
    [dropdownRef.current] is set. *)
Definition handleBlur (p : Props) (relatedTarget : option Node) : Handler := fun s =>
  if (closeOnBlur p
      && negb (match relatedTarget with Some n => contains n | None => false end))%bool
  then handleClose p s
  else (s, []).

(** The [keydown] listener of the second effect. *)
Definition handleEscape (p : Props) (key : string) : Handler := fun s =>
  if (closeOnEscape p && String.eqb key "Escape"%string && open p s)%bool
  then handleClose p s
  else (s, []).

(** The content [div] as rendered: absent, or placed at a [{ top, left }]
    style. *)
Definition render (p : Props) (s : State) : option Position :=
  if open p s then Some (position s) else None.

(** An exception thrown by a listener is reported by the browser and
    leaves the state as it was. *)
Definition recompute (p : Props) (dom : Dom) (s : State) : State :=
  match updatePosition p dom s with
  | Ok s' => s'
  | Throw _ => s
  end.

(** The events the page can deliver. *)
Inductive Event :=
| click (target : Node)
| blur (relatedTarget : option Node)
| keydown (key : string)
| resize
| scrolled.

(** Which handler an event reaches: [onClick] sits on the trigger [div],
    [onBlur] on the root; the [keydown], [resize] and [scroll] listeners
    are registered by the effects while [open] holds. No listener
    receives a click outside the trigger. *)
Definition dispatch (p : Props) (dom : Dom) (ev : Event) : Handler := fun s =>
  match ev with
  | click in_trigger => handleToggle p s
  | click _ => (s, [])
  | blur relatedTarget => handleBlur p relatedTarget s
  | keydown key => if open p s then handleEscape p key s else (s, [])
  | resize | scrolled => if open p s then (recompute p dom s, []) else (s, [])
  end.

(** *** Effects *)

(** The two [useEffect] slots. *)
Record Instance := {
  state : State;
  positionDeps : option bool;             (* [open] *)
  positionCleanup : Cleanup;
  escapeDeps : option (bool * bool);      (* [open, closeOnEscape] *)
  escapeCleanup : Cleanup
}.

Definition unmounted : Instance :=
  {| state := init; positionDeps := None; positionCleanup := [];
     escapeDeps := None; escapeCleanup := [] |}.

Definition changed1 (old : option bool) (new : bool) : bool :=
  match old with
  | Some b => negb (Bool.eqb b new)
  | None => true
  end.

Definition changed2 (old : option (bool * bool)) (new : bool * bool) : bool :=
  match old with
  | Some (a, b) => negb (Bool.eqb a (fst new) && Bool.eqb b (snd new))
  | None => true
  end.

Definition onResize (h : Closure) : Listener :=
  {| target := window; type := ev_resize; callback := h; capture := false |}.
Definition onScroll (h : Closure) : Listener :=
  {| target := window; type := ev_scroll; callback := h; capture := false |}.
Definition onKeydown (h : Closure) : Listener :=
  {| target := document; type := ev_keydown; callback := h; capture := false |}.

(** One render followed by its effects. The render allocates this
    render's [updatePosition]; the second effect, when it runs, allocates
    its [handleEscape]. An effect whose dependencies changed first runs
    the cleanup of its previous run. *)
Definition commit (p : Props) (dom : Dom) (i : Instance) (w : World) : Instance * World :=
  let updatePosition_ := nextClosure w in
  let handleEscape_ := S (nextClosure w) in
  let o := open p (state i) in
  let run1 := changed1 (positionDeps i) o in
  let run2 := changed2 (escapeDeps i) (o, closeOnEscape p) in
  let ls := listeners w in
  let ls := if run1 then runCleanup (positionCleanup i) ls else ls in
  let ls := if run2 then runCleanup (escapeCleanup i) ls else ls in
  let '(s, ls, c1) :=
    if run1 then
      if o then
        (recompute p dom (state i),
         addEventListener (onScroll updatePosition_)
           (addEventListener (onResize updatePosition_) ls),
         [onResize updatePosition_; onScroll updatePosition_])
      else (state i, ls, [])
    else (state i, ls, positionCleanup i) in
  let '(ls, c2) :=
    if run2 then
      if o then (addEventListener (onKeydown handleEscape_) ls, [onKeydown handleEscape_])
      else (ls, [])
    else (ls, escapeCleanup i) in
  ({| state := s;
      positionDeps := if run1 then Some o else positionDeps i;
      positionCleanup := c1;
      escapeDeps := if run2 then Some (o, closeOnEscape p) else escapeDeps i;
      escapeCleanup := c2 |},
   {| listeners := ls; nextClosure := S (S (nextClosure w)) |}).

Definition mount (p : Props) (dom : Dom) (w : World) : Instance * World :=
  commit p dom unmounted w.

(** An event: its handler, then the render the state change causes. The
    props stay as they are: what the handler reports through
    [onOpenChange] goes to the caller, who may or may not change the
    [open] prop. *)
Definition step (p : Props) (dom : Dom) (ev : Event) (iw : Instance * World)
    : Instance * World :=
  let '(i, w) := iw in
  let s := fst (dispatch p dom ev (state i)) in
  commit p dom
    {| state := s;
       positionDeps := positionDeps i; positionCleanup := positionCleanup i;
       escapeDeps := escapeDeps i; escapeCleanup := escapeCleanup i |} w.

(** A run: each event comes with the page as it is when it arrives. *)
Definition run (p : Props) (evs : list (Dom * Event)) (iw : Instance * World)
    : Instance * World :=
  fold_left (fun acc de => step p (fst de) (snd de) acc) evs iw.

(** Unmounting runs the cleanup of every effect. *)
Definition unmount (i : Instance) (w : World) : World :=
  {| listeners := runCleanup (escapeCleanup i) (runCleanup (positionCleanup i) (listeners w));
     nextClosure := nextClosure w |}.

End Dropdown.

(* ================================================================== *)
(** ** Menu.tsx                                                        *)
(* ================================================================== *)

(** [Menu] carries the same props, state cells and handlers as [Dropdown];
    its root ref is [menuRef]. *)
Module Menu.

Record Props := {
  controlledOpen : option bool;
  onOpenChange : bool;
  placement : Side;
  align : Align;
  offset : number;
  showArrow : bool;
  closeOnClick : bool;
  closeOnEscape : bool;
  closeOnBlur : bool
}.

Record Dom := {
  triggerRef : option DOMRect.t;
  contentRef : option DOMRect.t;
  scroll : Scroll
}.

Record State := { isOpen : bool; position : Position }.

Definition init : State := {| isOpen := false; position := origin |}.

Definition setIsOpen (b : bool) (s : State) : State :=
  {| isOpen := b; position := position s |}.

Definition setPosition (p : Position) (s : State) : State :=
  {| isOpen := isOpen s; position := p |}.

Definition isControlled (p : Props) : bool :=
  match controlledOpen p with Some _ => true | None => false end.

Definition open (p : Props) (s : State) : bool :=
  match controlledOpen p with Some b => b | None => isOpen s end.

Definition computePosition (placement : Side) (align : Align) (offset : number)
    (triggerRect contentRect : DOMRect.t) (w : Scroll) : Position :=
  let scrollTop := scrollTop w in
  let scrollLeft := scrollLeft w in
  let top : number := 0%float in
  let left : number := 0%float in
  let '(top, left) :=
    match placement with
    | side_bottom =>
        (DOMRect.bottom triggerRect + scrollTop + offset, left)
    | side_top =>
        (DOMRect.top triggerRect + scrollTop - DOMRect.height contentRect - offset, left)
    | side_left =>
        (DOMRect.top triggerRect + scrollTop,
         DOMRect.left triggerRect + scrollLeft - DOMRect.width contentRect - offset)
    | side_right =>
        (DOMRect.top triggerRect + scrollTop,
         DOMRect.right triggerRect + scrollLeft + offset)
    end%float in
  let '(top, left) :=
    match align with
    | align_start =>
        if isHorizontal placement
        then (DOMRect.top triggerRect + scrollTop, left)
        else (top, DOMRect.left triggerRect + scrollLeft)
    | align_center =>
        if isHorizontal placement
        then (DOMRect.top triggerRect + scrollTop
                + (DOMRect.height triggerRect / 2) - (DOMRect.height contentRect / 2), left)
        else (top, DOMRect.left triggerRect + scrollLeft
                + (DOMRect.width triggerRect / 2) - (DOMRect.width contentRect / 2))
    | align_end =>
        if isHorizontal placement
        then (DOMRect.bottom triggerRect + scrollTop - DOMRect.height contentRect, left)
        else (top, DOMRect.right triggerRect + scrollLeft - DOMRect.width contentRect)
    end%float in
  {| top := top; left := left |}.

Definition updatePosition (p : Props) (dom : Dom) (s : State) : Result State :=
  if (isNull (triggerRef dom) || isNull (contentRef dom))%bool then Ok s
  else
    triggerRect <- getBoundingClientRect (triggerRef dom) ;;
    contentRect <- getBoundingClientRect (contentRef dom) ;;
    Ok (setPosition
          (computePosition (placement p) (align p) (offset p)
             triggerRect contentRect (scroll dom)) s).

Definition Handler := State -> State * list bool.

Definition emit (p : Props) (b : bool) : list bool :=
  if onOpenChange p then [b] else [].

Definition handleToggle (p : Props) : Handler := fun s =>
  (if negb (isControlled p) then setIsOpen (negb (isOpen s)) s else s,
   emit p (negb (open p s))).

Definition handleClose (p : Props) : Handler := fun s =>
  (if negb (isControlled p) then setIsOpen false s else s,
   emit p false).

Definition contains (n : Node) : bool :=
  match n with
  | outside => false
  | in_trigger | in_floating | in_root => true
  end.

Definition handleBlur (p : Props) (relatedTarget : option Node) : Handler := fun s =>
  if (closeOnBlur p
      && negb (match relatedTarget with Some n => contains n | None => false end))%bool
  then handleClose p s
  else (s, []).

Definition handleEscape (p : Props) (key : string) : Handler := fun s =>
  if (closeOnEscape p && String.eqb key "Escape"%string && open p s)%bool
  then handleClose p s
  else (s, []).

Definition render (p : Props) (s : State) : option Position :=
  if open p s then Some (position s) else None.

Definition recompute (p : Props) (dom : Dom) (s : State) : State :=
  match updatePosition p dom s with
  | Ok s' => s'
  | Throw _ => s
  end.

Inductive Event :=
| click (target : Node)
| blur (relatedTarget : option Node)
| keydown (key : string)
| resize
| scrolled.

Definition dispatch (p : Props) (dom : Dom) (ev : Event) : Handler := fun s =>
  match ev with
  | click in_trigger => handleToggle p s
  | click _ => (s, [])
  | blur relatedTarget => handleBlur p relatedTarget s
  | keydown key => if open p s then handleEscape p key s else (s, [])
  | resize | scrolled => if open p s then (recompute p dom s, []) else (s, [])
  end.

End Menu.

(* ================================================================== *)
(** ** Tooltip.tsx                                                     *)
(* ================================================================== *)

Module Tooltip.

(** ['hover' | 'click' | 'focus'] *)
Inductive Trigger := hover | click | focus.

(** [delay] is the number of milliseconds handed to [setTimeout]. *)
Record Props := {
  positionProp : Side;
  align : Align;
  offset : number;
  delay : Z;
  showArrow : bool;
  disabled : bool;
  trigger : Trigger;
  maxWidth : number
}.

Definition defaultProps : Props :=
  {| positionProp := side_top; align := align_center; offset := 8;
     delay := 200; showArrow := true; disabled := false;
     trigger := hover; maxWidth := 200 |}.

Record Dom := {
  triggerRef : option DOMRect.t;
  tooltipRef : option DOMRect.t;
  scroll : Scroll
}.

(** A timer id is an integer greater than zero, so a stored id is truthy. *)
Definition TimerId := positive.

(** [isVisible], [tooltipPos] and [timeoutRef.current]. *)
Record State := {
  isVisible : bool;
  tooltipPos : Position;
  timeoutRef : option TimerId
}.

Definition init : State :=
  {| isVisible := false; tooltipPos := origin; timeoutRef := None |}.

Definition setIsVisible (b : bool) (s : State) : State :=
  {| isVisible := b; tooltipPos := tooltipPos s; timeoutRef := timeoutRef s |}.

Definition setTooltipPos (p : Position) (s : State) : State :=
  {| isVisible := isVisible s; tooltipPos := p; timeoutRef := timeoutRef s |}.

Definition setTimeoutRef (r : option TimerId) (s : State) : State :=
  {| isVisible := isVisible s; tooltipPos := tooltipPos s; timeoutRef := r |}.

(** The timers of the event loop: the clock in milliseconds, the next id
    and the pending timers with the time each is due. Every timer this
    component sets has the callback [() => setIsVisible(true)]. *)
Record Timers := {
  now : Z;
  nextTimer : TimerId;
  pending : list (TimerId * Z)
}.

Definition setTimeout (ms : Z) (t : Timers) : TimerId * Timers :=
  (nextTimer t,
   {| now := now t;
      nextTimer := Pos.succ (nextTimer t);
      pending := pending t ++ [(nextTimer t, (now t + ms)%Z)] |}).

Definition clearTimeout (id : TimerId) (t : Timers) : Timers :=
  {| now := now t;
     nextTimer := nextTimer t;
     pending := filter (fun e => negb (Pos.eqb (fst e) id)) (pending t) |}.

Definition computePosition (positionProp : Side) (align : Align) (offset : number)
    (triggerRect tooltipRect : DOMRect.t) (w : Scroll) : Position :=
  let scrollTop := scrollTop w in
  let scrollLeft := scrollLeft w in
  let top : number := 0%float in
  let left : number := 0%float in
  let '(top, left) :=
    match positionProp with
    | side_top =>
        (DOMRect.top triggerRect + scrollTop - DOMRect.height tooltipRect - offset,
         DOMRect.left triggerRect + scrollLeft)
    | side_bottom =>
        (DOMRect.bottom triggerRect + scrollTop + offset,
         DOMRect.left triggerRect + scrollLeft)
    | side_left =>
        (DOMRect.top triggerRect + scrollTop,
         DOMRect.left triggerRect + scrollLeft - DOMRect.width tooltipRect - offset)
    | side_right =>
        (DOMRect.top triggerRect + scrollTop,
         DOMRect.right triggerRect + scrollLeft + offset)
    end%float in
  let '(top, left) :=
    match align with
    | align_start => (top, left)
    | align_center =>
        if isHorizontal positionProp
        then (DOMRect.top triggerRect + scrollTop
                + DOMRect.height triggerRect / 2 - DOMRect.height tooltipRect / 2, left)
        else (top, DOMRect.left triggerRect + scrollLeft
                + DOMRect.width triggerRect / 2 - DOMRect.width tooltipRect / 2)
    | align_end =>
        if isHorizontal positionProp
        then (DOMRect.bottom triggerRect + scrollTop - DOMRect.height tooltipRect, left)
        else (top, DOMRect.right triggerRect + scrollLeft - DOMRect.width tooltipRect)
    end%float in
  {| top := top; left := left |}.

Definition updatePosition (p : Props) (dom : Dom) (s : State) : Result State :=
  if (isNull (triggerRef dom) || isNull (tooltipRef dom))%bool then Ok s
  else
    triggerRect <- getBoundingClientRect (triggerRef dom) ;;
    tooltipRect <- getBoundingClientRect (tooltipRef dom) ;;
    Ok (setTooltipPos
          (computePosition (positionProp p) (align p) (offset p)
             triggerRect tooltipRect (scroll dom)) s).

Definition recompute (p : Props) (dom : Dom) (s : State) : State :=
  match updatePosition p dom s with
  | Ok s' => s'
  | Throw _ => s
  end.

(** A handler acts on the state cells and on the timers. *)
Definition Handler := State * Timers -> State * Timers.

Definition showTooltip (p : Props) : Handler := fun '(s, t) =>
  if disabled p then (s, t)
  else if (0 <? delay p)%Z then
    let '(id, t') := setTimeout (delay p) t in
    (setTimeoutRef (Some id) s, t')
  else (setIsVisible true s, t).

Definition hideTooltip : Handler := fun '(s, t) =>
  let '(s, t) :=
    match timeoutRef s with
    | Some id => (setTimeoutRef None s, clearTimeout id t)
    | None => (s, t)
    end in
  (setIsVisible false s, t).

Definition handleMouseEnter (p : Props) : Handler := fun st =>
  match trigger p with hover => showTooltip p st | _ => st end.

Definition handleMouseLeave (p : Props) : Handler := fun st =>
  match trigger p with hover => hideTooltip st | _ => st end.

Definition handleClick (p : Props) : Handler := fun '(s, t) =>
  match trigger p with
  | click => (setIsVisible (negb (isVisible s)) s, t)
  | _ => (s, t)
  end.

Definition handleFocus (p : Props) : Handler := fun st =>
  match trigger p with focus => showTooltip p st | _ => st end.

Definition handleBlur (p : Props) : Handler := fun st =>
  match trigger p with focus => hideTooltip st | _ => st end.

(** The clock moves on by [ms] milliseconds: every pending timer that is
    due by then runs its callback and leaves the list. *)
Definition isDue (at_ : Z) (e : TimerId * Z) : bool := (snd e <=? at_)%Z.

Definition advance (ms : N) : Handler := fun '(s, t) =>
  let now' := (now t + Z.of_N ms)%Z in
  let due := filter (isDue now') (pending t) in
  let s' := fold_left (fun acc _ => setIsVisible true acc) due s in
  (s',
   {| now := now'; nextTimer := nextTimer t;
      pending := filter (fun e => negb (isDue now' e)) (pending t) |}).

(** The tooltip [div] as rendered. *)
Definition render (s : State) : option Position :=
  if isVisible s then Some (tooltipPos s) else None.

Inductive Event :=
| mouseenter
| mouseleave
| clicked (target : Node)
| focusin
| focusout
| tick (ms : N).

(** The handlers sit on the trigger [div], which wraps the children and
    the tooltip; a click elsewhere reaches none of them. *)
Definition dispatch (p : Props) (ev : Event) : Handler := fun st =>
  match ev with
  | mouseenter => handleMouseEnter p st
  | mouseleave => handleMouseLeave p st
  | clicked outside => st
  | clicked _ => handleClick p st
  | focusin => handleFocus p st
  | focusout => handleBlur p st
  | tick ms => advance ms st
  end.

Definition run (p : Props) (evs : list Event) (st : State * Timers) : State * Timers :=
  fold_left (fun acc ev => dispatch p ev acc) evs st.

(** The states a run goes through, one after each event. *)
Fixpoint trace (p : Props) (evs : list Event) (st : State * Timers)
    : list (State * Timers) :=
  match evs with
  | [] => []
  | ev :: rest => dispatch p ev st :: trace p rest (dispatch p ev st)
  end.

(** *** Effects *)

(** The positioning [useEffect]. Of its dependencies
    [isVisible, positionProp, align, offset, maxWidth, content] only
    [isVisible] varies while the props stay as they are. *)
Record Instance := {
  state : State;
  positionDeps : option bool;
  positionCleanup : Cleanup
}.

Definition unmounted : Instance :=
  {| state := init; positionDeps := None; positionCleanup := [] |}.

Definition changed (old : option bool) (new : bool) : bool :=
  match old with
  | Some b => negb (Bool.eqb b new)
  | None => true
  end.

Definition onResize (h : Closure) : Listener :=
  {| target := window; type := ev_resize; callback := h; capture := false |}.
Definition onScroll (h : Closure) : Listener :=
  {| target := window; type := ev_scroll; callback := h; capture := true |}.

Definition commit (p : Props) (dom : Dom) (i : Instance) (w : World) : Instance * World :=
  let updatePosition_ := nextClosure w in
  let v := isVisible (state i) in
  let run1 := changed (positionDeps i) v in
  let ls := listeners w in
  let ls := if run1 then runCleanup (positionCleanup i) ls else ls in
  let '(s, ls, c1) :=
    if run1 then
      if v then
        (recompute p dom (state i),
         addEventListener (onScroll updatePosition_)
           (addEventListener (onResize updatePosition_) ls),
         [onResize updatePosition_; onScroll updatePosition_])
      else (state i, ls, [])
    else (state i, ls, positionCleanup i) in
  ({| state := s;
      positionDeps := if run1 then Some v else positionDeps i;
      positionCleanup := c1 |},
   {| listeners := ls; nextClosure := S (nextClosure w) |}).

Definition mount (p : Props) (dom : Dom) (w : World) : Instance * World :=
  commit p dom unmounted w.

Definition step (p : Props) (dom : Dom) (ev : Event)
    (x : Instance * Timers * World) : Instance * Timers * World :=
  let '(i, t, w) := x in
  let '(s, t') := dispatch p ev (state i, t) in
  let '(i', w') :=
    commit p dom
      {| state := s; positionDeps := positionDeps i;
         positionCleanup := positionCleanup i |} w in
  (i', t', w').

Definition runAll (p : Props) (evs : list (Dom * Event))
    (x : Instance * Timers * World) : Instance * Timers * World :=
  fold_left (fun acc de => step p (fst de) (snd de) acc) evs x.

Definition unmount (i : Instance) (w : World) : World :=
  {| listeners := runCleanup (positionCleanup i) (listeners w);
     nextClosure := nextClosure w |}.

End Tooltip.

(* ================================================================== *)
(** ** DatePicker.tsx                                                  *)
(* ================================================================== *)

(** The open flag of [DatePicker] and its click-outside listener; the
    cells that hold the date play no part in opening and closing. The
    floating element is the calendar [div] that [calendarRef] points to. *)
Module DatePicker.

Record Props := { disabled : bool }.

Record State := { isOpen : bool }.

Definition init : State := {| isOpen := false |}.

Definition setIsOpen (b : bool) (s : State) : State := {| isOpen := b |}.

(** [calendarRef.current.contains(node)] *)
Definition contains (n : Node) : bool :=
  match n with
  | in_floating => true
  | in_trigger | in_root | outside => false
  end.

(** [calendarRef] is [Some tt] while the calendar [div] is mounted. *)
Definition handleClickOutside (calendarRef : option unit) (target : Node)
    (s : State) : State :=
  if (negb (isNull calendarRef) && negb (contains target))%bool
  then setIsOpen false s
  else s.

Definition handleInputClick (p : Props) (s : State) : State :=
  if negb (disabled p) then setIsOpen (negb (isOpen s)) s else s.

Inductive Event :=
| mousedown (target : Node)
| inputClick.

(** The [mousedown] listener is on [document] while [isOpen] holds. *)
Definition dispatch (p : Props) (calendarRef : option unit) (ev : Event)
    (s : State) : State :=
  match ev with
  | mousedown target => if isOpen s then handleClickOutside calendarRef target s else s
  | inputClick => handleInputClick p s
  end.

End DatePicker.

(* ================================================================== *)
(** ** Dropdown.tsx and Menu.tsx: items, and the log of a run          *)
(* ================================================================== *)

(** What a click on an item can call: the component's [onOpenChange] or the
    item's own [onClick]. *)
Inductive ItemCall := OpenChange (b : bool) | ItemClick.

Module DropdownItems.

(** [handleItemClick(onClick)] of [Dropdown]; [onClick] tells whether the
    item's callback is supplied. *)
Definition handleItemClick (p : Dropdown.Props) (onClick : bool)
    (s : Dropdown.State) : Dropdown.State * list ItemCall :=
  let '(s, calls) :=
    if Dropdown.closeOnClick p then Dropdown.handleClose p s else (s, []) in
  (s, map OpenChange calls ++ (if onClick then [ItemClick] else [])).

(** The [onClick] that [DropdownItem] puts on its [div]:
    [() => !disabled && onClick?.()]. *)
Definition itemOnClick (disabled onClick : bool) : list ItemCall :=
  if (negb disabled && onClick)%bool then [ItemClick] else [].

(** A click on an item inside the content: the item's own handler runs, and
    then the event bubbles through the content [div] and the root [div] of
    [Dropdown], neither of which has an [onClick]. *)
Definition clickItem (p : Dropdown.Props) (dom : Dropdown.Dom) (disabled onClick : bool)
    (s : Dropdown.State) : Dropdown.State * list ItemCall :=
  let '(s', calls) := Dropdown.dispatch p dom (Dropdown.click in_floating) s in
  (s', itemOnClick disabled onClick ++ map OpenChange calls).

Definition withCloseOnClick (b : bool) (p : Dropdown.Props) : Dropdown.Props :=
  {| Dropdown.controlledOpen := Dropdown.controlledOpen p;
     Dropdown.onOpenChange := Dropdown.onOpenChange p;
     Dropdown.placement := Dropdown.placement p;
     Dropdown.align := Dropdown.align p;
     Dropdown.offset := Dropdown.offset p;
     Dropdown.showArrow := Dropdown.showArrow p;
     Dropdown.closeOnClick := b;
     Dropdown.closeOnEscape := Dropdown.closeOnEscape p;
     Dropdown.closeOnBlur := Dropdown.closeOnBlur p |}.

(** The handlers of a list of events, one after the other, with all the
    calls they make to [onOpenChange]. *)
Fixpoint log (p : Dropdown.Props) (evs : list (Dropdown.Dom * Dropdown.Event))
    (s : Dropdown.State) : Dropdown.State * list bool :=
  match evs with
  | [] => (s, [])
  | (dom, ev) :: rest =>
      let '(s1, c1) := Dropdown.dispatch p dom ev s in
      let '(s2, c2) := log p rest s1 in
      (s2, c1 ++ c2)
  end.

End DropdownItems.

Module MenuItems.

Definition withCloseOnClick (b : bool) (p : Menu.Props) : Menu.Props :=
  {| Menu.controlledOpen := Menu.controlledOpen p;
     Menu.onOpenChange := Menu.onOpenChange p;
     Menu.placement := Menu.placement p;
     Menu.align := Menu.align p;
     Menu.offset := Menu.offset p;
     Menu.showArrow := Menu.showArrow p;
     Menu.closeOnClick := b;
     Menu.closeOnEscape := Menu.closeOnEscape p;
     Menu.closeOnBlur := Menu.closeOnBlur p |}.

Fixpoint log (p : Menu.Props) (evs : list (Menu.Dom * Menu.Event))
    (s : Menu.State) : Menu.State * list bool :=
  match evs with
  | [] => (s, [])
  | (dom, ev) :: rest =>
      let '(s1, c1) := Menu.dispatch p dom ev s in
      let '(s2, c2) := log p rest s1 in
      (s2, c1 ++ c2)
  end.

End MenuItems.

(* ================================================================== *)
(** ** JavaScript integers and strings                                 *)
(* ================================================================== *)

(** The numbers in the date and time fields are integers or [NaN]: [None]
    is [NaN]. *)
Definition jsint := option Z.

Module JSInt.
Local Open Scope Z_scope.

Definition isNaN (x : jsint) : bool :=
  match x with
  | None => true
  | Some _ => false
  end.

(** [x + k] and [x - k] for an integer constant [k]. *)
Definition add (x : jsint) (k : Z) : jsint := option_map (fun z => z + k) x.

Definition sub (x : jsint) (k : Z) : jsint := option_map (fun z => z - k) x.

(** [x === k], [x > k], [x >= k] and [i <= x]: false on [NaN]. *)
Definition eqb (x : jsint) (k : Z) : bool :=
  match x with
  | Some z => z =? k
  | None => false
  end.

Definition gtb (x : jsint) (k : Z) : bool :=
  match x with
  | Some z => k <? z
  | None => false
  end.

Definition geb (x : jsint) (k : Z) : bool :=
  match x with
  | Some z => k <=? z
  | None => false
  end.

(** [x === y] *)
Definition strictEq (x y : jsint) : bool :=
  match x, y with
  | Some a, Some b => a =? b
  | _, _ => false
  end.

(** [Math.min(k, x)] and [Math.max(k, x)]: [NaN] if [x] is. *)
Definition min (k : Z) (x : jsint) : jsint := option_map (Z.min k) x.

Definition max (k : Z) (x : jsint) : jsint := option_map (Z.max k) x.

(** [x || 0] *)
Definition orZero (x : option jsint) : jsint :=
  match x with
  | Some (Some z) => Some z
  | _ => Some 0
  end.

(** How often [for (let i = 0; i < x; i++)] runs. *)
Definition iterations (x : jsint) : nat :=
  match x with
  | Some z => Z.to_nat z
  | None => O
  end.

End JSInt.

Module JSString.
Local Open Scope string_scope.
Local Open Scope Z_scope.

(** [Number.prototype.toString()] of an integer (of fewer than 22 digits:
    no exponent is printed) or of [NaN]. *)
Definition toString (n : jsint) : string :=
  match n with
  | None => "NaN"
  | Some z => NilEmpty.string_of_int (Z.to_int z)
  end.

Fixpoint replicate (n : nat) (c : ascii) : string :=
  match n with
  | O => ""
  | S n => String c (replicate n c)
  end.

(** [s.padStart(targetLength, c)] for a one-character pad string. *)
Definition padStart (targetLength : nat) (c : ascii) (s : string) : string :=
  replicate (targetLength - String.length s) c ++ s.

(** [s.split(sep)] for a one-character separator. *)
Fixpoint split (sep : ascii) (s : string) : list string :=
  match s with
  | "" => [""]
  | String c rest =>
      if Ascii.eqb c sep then "" :: split sep rest
      else match split sep rest with
           | piece :: pieces => String c piece :: pieces
           | [] => [String c ""]
           end
  end.

(** The ASCII members of [\d] and of [\s]. *)
Definition isDigit (c : ascii) : bool :=
  (48 <=? nat_of_ascii c)%nat && (nat_of_ascii c <=? 57)%nat.

Definition isSpace (c : ascii) : bool :=
  ((9 <=? nat_of_ascii c)%nat && (nat_of_ascii c <=? 13)%nat)
  || (nat_of_ascii c =? 32)%nat.

Fixpoint trimStart (s : string) : string :=
  match s with
  | String c rest => if isSpace c then trimStart rest else s
  | "" => ""
  end.

(** The longest prefix of decimal digits. *)
Fixpoint digits (s : string) : string :=
  match s with
  | String c rest => if isDigit c then String c (digits rest) else ""
  | "" => ""
  end.

Definition decimalValue (s : string) : jsint :=
  match digits s with
  | "" => None
  | ds => option_map Z.of_uint (NilEmpty.uint_of_string ds)
  end.

Definition hexDigit (c : ascii) : option Z :=
  let n := Z.of_nat (nat_of_ascii c) in
  if (48 <=? n) && (n <=? 57) then Some (n - 48)
  else if (65 <=? n) && (n <=? 70) then Some (n - 55)
  else if (97 <=? n) && (n <=? 102) then Some (n - 87)
  else None.

(** The value of the longest prefix of hexadecimal digits, [NaN] if it is
    empty. *)
Fixpoint hexValue (s : string) (acc : jsint) : jsint :=
  match s with
  | String c rest =>
      match hexDigit c with
      | Some d =>
          hexValue rest (Some (16 * match acc with Some a => a | None => 0 end + d))
      | None => acc
      end
  | "" => acc
  end.

(** [parseInt(s)] with no radix: leading white space and one sign are
    skipped, [0x] or [0X] selects radix 16, and the longest prefix of
    digits is the value; [NaN] when there is no digit. The value is the
    exact integer (beyond 2^53 the engine rounds it to a double). *)
Definition parseInt (s : string) : jsint :=
  let s := trimStart s in
  let sign :=
    match s with
    | String c _ => if Ascii.eqb c "-" then -1 else 1
    | "" => 1
    end in
  let s :=
    match s with
    | String c rest => if Ascii.eqb c "-" || Ascii.eqb c "+" then rest else s
    | "" => s
    end in
  let magnitude :=
    match s with
    | String c0 (String c1 rest) =>
        if Ascii.eqb c0 "0" && (Ascii.eqb c1 "x" || Ascii.eqb c1 "X")
        then hexValue rest None
        else decimalValue s
    | _ => decimalValue s
    end in
  option_map (Z.mul sign) magnitude.

(** [n.toString().padStart(2, '0')] *)
Definition pad2 (n : jsint) : string := padStart 2 "0" (toString n).

End JSString.

(* ================================================================== *)
(** ** JavaScript dates                                                *)
(* ================================================================== *)

(** A [Date] holds a time value, the milliseconds since the epoch in UTC,
    or is an Invalid Date. Local time is UTC plus the offset [tz] of the
    time zone in milliseconds, taken as fixed. The functions are those of
    the ECMAScript specification, written on day numbers. *)
Module Date.
Local Open Scope Z_scope.

Inductive t := Invalid | Time (tv : Z).

Definition msPerDay : Z := 86400000.

Definition Day (t : Z) : Z := t / msPerDay.

Definition DayFromYear (y : Z) : Z :=
  365 * (y - 1970) + (y - 1969) / 4 - (y - 1901) / 100 + (y - 1601) / 400.

Definition InLeapYear (y : Z) : bool :=
  if negb (y mod 4 =? 0) then false
  else if negb (y mod 100 =? 0) then true
  else if negb (y mod 400 =? 0) then false
  else true.

Definition DaysInYear (y : Z) : Z := if InLeapYear y then 366 else 365.

(** [YearFromTime]: the largest year whose first day is not after day
    [d]; it is one of the three years around the mean-year estimate. *)
Definition YearFromDay (d : Z) : Z :=
  let y0 := 1970 + (400 * d) / 146097 in
  if DayFromYear (y0 + 1) <=? d then y0 + 1
  else if DayFromYear y0 <=? d then y0
  else y0 - 1.

Definition DayWithinYear (d : Z) : Z := d - DayFromYear (YearFromDay d).

(** The day within the year on which month [m] (0 to 11) begins; at 12,
    the length of the year. *)
Definition monthStart (leap : bool) (m : Z) : Z :=
  let l := if leap then 1 else 0 in
  match m with
  | 0 => 0
  | 1 => 31
  | 2 => 59 + l
  | 3 => 90 + l
  | 4 => 120 + l
  | 5 => 151 + l
  | 6 => 181 + l
  | 7 => 212 + l
  | 8 => 243 + l
  | 9 => 273 + l
  | 10 => 304 + l
  | 11 => 334 + l
  | _ => 365 + l
  end.

Definition MonthFromDay (d : Z) : Z :=
  let leap := InLeapYear (YearFromDay d) in
  let w := DayWithinYear d in
  if w <? monthStart leap 1 then 0
  else if w <? monthStart leap 2 then 1
  else if w <? monthStart leap 3 then 2
  else if w <? monthStart leap 4 then 3
  else if w <? monthStart leap 5 then 4
  else if w <? monthStart leap 6 then 5
  else if w <? monthStart leap 7 then 6
  else if w <? monthStart leap 8 then 7
  else if w <? monthStart leap 9 then 8
  else if w <? monthStart leap 10 then 9
  else if w <? monthStart leap 11 then 10
  else 11.

Definition DateFromDay (d : Z) : Z :=
  DayWithinYear d - monthStart (InLeapYear (YearFromDay d)) (MonthFromDay d) + 1.

Definition WeekDay (d : Z) : Z := (d + 4) mod 7.

Definition HourFromTime (t : Z) : Z := (t / 3600000) mod 24.

Definition MinFromTime (t : Z) : Z := (t / 60000) mod 60.

Definition SecFromTime (t : Z) : Z := (t / 1000) mod 60.

(** [MakeDay(year, month, date)]: the day number of the first of month
    [month mod 12] of year [year + floor(month / 12)], plus [date - 1]. *)
Definition MakeDay (year month date : Z) : Z :=
  let ym := year + month / 12 in
  let mn := month mod 12 in
  DayFromYear ym + monthStart (InLeapYear ym) mn + date - 1.

Definition TimeClip (tv : Z) : t :=
  if Z.abs tv <=? 8640000000000000 then Time tv else Invalid.

Definition LocalTime (tz tv : Z) : Z := tv + tz.

Definition UTC (tz t : Z) : Z := t - tz.

(** [new Date(year, month, date)]: local midnight of that day; a year from
    0 to 99 stands for 1900 to 1999. *)
Definition make (tz : Z) (year month date : jsint) : t :=
  match year, month, date with
  | Some y, Some m, Some dt =>
      let yr := if (0 <=? y) && (y <=? 99) then 1900 + y else y in
      TimeClip (UTC tz (MakeDay yr m dt * msPerDay))
  | _, _, _ => Invalid
  end.

Definition getTime (d : t) : jsint :=
  match d with
  | Invalid => None
  | Time tv => Some tv
  end.

Definition localField (f : Z -> Z) (tz : Z) (d : t) : jsint :=
  match d with
  | Invalid => None
  | Time tv => Some (f (LocalTime tz tv))
  end.

Definition getFullYear : Z -> t -> jsint := localField (fun t => YearFromDay (Day t)).

Definition getMonth : Z -> t -> jsint := localField (fun t => MonthFromDay (Day t)).

Definition getDate : Z -> t -> jsint := localField (fun t => DateFromDay (Day t)).

Definition getDay : Z -> t -> jsint := localField (fun t => WeekDay (Day t)).

Definition getHours : Z -> t -> jsint := localField HourFromTime.

Definition getMinutes : Z -> t -> jsint := localField MinFromTime.

Definition getSeconds : Z -> t -> jsint := localField SecFromTime.

(** [a < b] on dates compares the time values; it is false when one of
    them is [NaN]. *)
Definition lt (a b : t) : bool :=
  match a, b with
  | Time x, Time y => x <? y
  | _, _ => false
  end.

(** The number of days of month [m] of year [y]. *)
Definition daysInMonth (y m : Z) : Z :=
  monthStart (InLeapYear y) (m + 1) - monthStart (InLeapYear y) m.

End Date.

(* ================================================================== *)
(** ** DatePicker.tsx: the TimeInput component                         *)
(* ================================================================== *)

(** The time field: its text, the time it holds and the picker with the
    spinner buttons. *)
Module TimeInput.
Import JSString.
Local Open Scope string_scope.
Local Open Scope Z_scope.

Inductive Format := h12 | h24.

Inductive AmPm := AM | PM.

(** [seconds] and [ampm] are optional: [None] is [undefined]. *)
Record Time := {
  hours : jsint;
  minutes : jsint;
  seconds : option jsint;
  ampm : option AmPm
}.

(** [onChange] and [onTimeChange] tell whether the callback is supplied. *)
Record Props := {
  format : Format;
  showSeconds : bool;
  showAmPm : bool;
  disabled : bool;
  onChange : bool;
  onTimeChange : bool
}.

Definition defaultProps : Props :=
  {| format := h24; showSeconds := false; showAmPm := false;
     disabled := false; onChange := false; onTimeChange := false |}.

Record State := {
  isOpen : bool;
  selectedTime : Time;
  inputValue : string
}.

Definition init : State :=
  {| isOpen := false;
     selectedTime := {| hours := Some 0; minutes := Some 0; seconds := None; ampm := None |};
     inputValue := "" |}.

Definition setIsOpen (b : bool) (s : State) : State :=
  {| isOpen := b; selectedTime := selectedTime s; inputValue := inputValue s |}.

Definition setSelectedTime (t : Time) (s : State) : State :=
  {| isOpen := isOpen s; selectedTime := t; inputValue := inputValue s |}.

Definition setInputValue (v : string) (s : State) : State :=
  {| isOpen := isOpen s; selectedTime := selectedTime s; inputValue := v |}.

(** The calls made to the caller's callbacks. *)
Inductive Call := OnChange (time : string) | OnTimeChange (time : Time).

Definition report (p : Props) (text : string) (time : Time) : list Call :=
  (if onChange p then [OnChange text] else [])
  ++ (if onTimeChange p then [OnTimeChange time] else []).

(** *** The regular expression
    [/^(\d{1,2}):(\d{2})(?::(\d{2}))?\s*(AM|PM)?$/i] *)

(** At most [n] digits, as many as there are. *)
Fixpoint takeDigits (n : nat) (s : string) : string * string :=
  match n, s with
  | S k, String c rest =>
      if isDigit c
      then let '(ds, r) := takeDigits k rest in (String c ds, r)
      else ("", s)
  | _, _ => ("", s)
  end.

Definition toUpperCase (c : ascii) : ascii :=
  if (97 <=? nat_of_ascii c)%nat && (nat_of_ascii c <=? 122)%nat
  then ascii_of_nat (nat_of_ascii c - 32)
  else c.

(** [(AM|PM)?$] under the [i] flag, with the captured text in upper case. *)
Definition marker (s : string) : option (option AmPm) :=
  match s with
  | "" => Some None
  | String a (String m "") =>
      if Ascii.eqb (toUpperCase m) "M" then
        if Ascii.eqb (toUpperCase a) "A" then Some (Some AM)
        else if Ascii.eqb (toUpperCase a) "P" then Some (Some PM)
        else None
      else None
  | _ => None
  end.

(** The four groups of a match; the fourth in upper case. *)
Record Match := {
  group1 : string;
  group2 : string;
  group3 : option string;
  group4 : option AmPm
}.

(** [\s*(AM|PM)?$] after the groups [g1], [g2] and [g3]. *)
Definition matchTail (g1 g2 : string) (g3 : option string) (s : string) : option Match :=
  match marker (trimStart s) with
  | Some g4 => Some {| group1 := g1; group2 := g2; group3 := g3; group4 := g4 |}
  | None => None
  end.

(** The match of the whole expression. No part of it can match in two
    ways: one or two digits must be followed by a colon, a colon after the
    minutes must start the seconds, and the white space is followed by a
    letter or by the end. *)
Definition timeRegex (s : string) : option Match :=
  let '(g1, r1) := takeDigits 2 s in
  if (String.length g1 =? 0)%nat then None else
  match r1 with
  | String c r2 =>
      if negb (Ascii.eqb c ":") then None else
      let '(g2, r3) := takeDigits 2 r2 in
      if negb (String.length g2 =? 2)%nat then None else
      match r3 with
      | String c' r4 =>
          if Ascii.eqb c' ":" then
            let '(g3, r5) := takeDigits 2 r4 in
            if (String.length g3 =? 2)%nat then matchTail g1 g2 (Some g3) r5 else None
          else matchTail g1 g2 None r3
      | "" => matchTail g1 g2 None r3
      end
  | "" => None
  end.

(** *** The functions of the component *)

Definition parseTimeString (p : Props) (timeString : string) : option Time :=
  match timeRegex timeString with
  | None => None
  | Some m =>
      let hours := parseInt (group1 m) in
      let minutes := parseInt (group2 m) in
      let seconds :=
        match group3 m with
        | Some g3 => parseInt g3
        | None => Some 0
        end in
      let ampm := group4 m in
      let hours :=
        match format p, ampm with
        | h12, Some PM => if negb (JSInt.eqb hours 12) then JSInt.add hours 12 else hours
        | h12, Some AM => if JSInt.eqb hours 12 then Some 0 else hours
        | _, _ => hours
        end in
      Some {| hours := hours; minutes := minutes; seconds := Some seconds; ampm := ampm |}
  end.

Definition AmPm_text (x : AmPm) : string :=
  match x with
  | AM => "AM"
  | PM => "PM"
  end.

Definition formatTimeString (p : Props) (time : Time) : string :=
  let '(hours, ampm) :=
    match format p with
    | h12 =>
        let hours := if JSInt.eqb (hours time) 0 then Some 12 else hours time in
        if JSInt.gtb hours 12 then (JSInt.sub hours 12, Some PM)
        else if JSInt.eqb hours 12 then (hours, Some PM)
        else (hours, Some AM)
    | h24 => (hours time, ampm time)
    end in
  let timeStr := pad2 hours ++ ":" ++ pad2 (minutes time) in
  let suffix :=
    match ampm with
    | Some x => if showAmPm p then " " ++ AmPm_text x else ""
    | None => ""
    end in
  match seconds time with
  | Some sec => if showSeconds p then timeStr ++ ":" ++ pad2 sec ++ suffix else timeStr ++ suffix
  | None => timeStr ++ suffix
  end.

Definition handleInputChange (p : Props) (value : string) (s : State) : State * list Call :=
  let s := setInputValue value s in
  match parseTimeString p value with
  | Some parsedTime => (setSelectedTime parsedTime s, report p value parsedTime)
  | None => (s, [])
  end.

Definition handleInputClick (p : Props) (s : State) : State :=
  if negb (disabled p) then setIsOpen (negb (isOpen s)) s else s.

Definition handleInputKeyDown (p : Props) (key : string) (s : State) : State :=
  if String.eqb key "Enter" || String.eqb key " " then handleInputClick p s else s.

(** [timePickerRef.current.contains(node)]: the picker is the floating
    element. *)
Definition contains (n : Node) : bool :=
  match n with
  | in_floating => true
  | in_trigger | in_root | outside => false
  end.

Definition handleClickOutside (timePickerRef : option unit) (target : Node)
    (s : State) : State :=
  if negb (isNull timePickerRef) && negb (contains target)
  then setIsOpen false s
  else s.

Inductive Field := Hours | Minutes | Seconds.

Definition handleTimeChange (p : Props) (type : Field) (value : jsint) (s : State)
    : State * list Call :=
  let t := selectedTime s in
  let newTime :=
    match type with
    | Hours =>
        {| hours := match format p with
                    | h24 => JSInt.max 0 (JSInt.min 23 value)
                    | h12 => JSInt.max 1 (JSInt.min 12 value)
                    end;
           minutes := minutes t; seconds := seconds t; ampm := ampm t |}
    | Minutes =>
        {| hours := hours t; minutes := JSInt.max 0 (JSInt.min 59 value);
           seconds := seconds t; ampm := ampm t |}
    | Seconds =>
        {| hours := hours t; minutes := minutes t;
           seconds := Some (JSInt.max 0 (JSInt.min 59 value)); ampm := ampm t |}
    end in
  let formattedTime := formatTimeString p newTime in
  (setInputValue formattedTime (setSelectedTime newTime s),
   report p formattedTime newTime).

Definition handleAmPmChange (p : Props) (x : AmPm) (s : State) : State * list Call :=
  let t := selectedTime s in
  let newTime :=
    {| hours := hours t; minutes := minutes t; seconds := seconds t; ampm := Some x |} in
  let formattedTime := formatTimeString p newTime in
  (setInputValue formattedTime (setSelectedTime newTime s),
   report p formattedTime newTime).

(** The [onClick] of the Now button; [now] is the time value of
    [new Date()]. *)
Definition handleNow (p : Props) (tz now : Z) (s : State) : State * list Call :=
  let d := Date.Time now in
  let newTime :=
    {| hours := Date.getHours tz d;
       minutes := Date.getMinutes tz d;
       seconds := Some (Date.getSeconds tz d);
       ampm := match format p with
               | h12 => Some (if JSInt.geb (Date.getHours tz d) 12 then PM else AM)
               | h24 => None
               end |} in
  let formattedTime := formatTimeString p newTime in
  (setInputValue formattedTime (setSelectedTime newTime s),
   report p formattedTime newTime).

(** The value a spinner button passes to [handleTimeChange]. *)
Definition shown (type : Field) (t : Time) : jsint :=
  match type with
  | Hours => hours t
  | Minutes => minutes t
  | Seconds => JSInt.orZero (seconds t)
  end.

(** Which elements of the picker are rendered. *)
Definition spinnerRendered (p : Props) (type : Field) (s : State) : bool :=
  isOpen s && match type with Seconds => showSeconds p | _ => true end.

Definition amPmRendered (p : Props) (s : State) : bool :=
  isOpen s && showAmPm p && match format p with h12 => true | h24 => false end.

Inductive Event :=
| inputClick
| buttonClick
| keydown (key : string)
| change (value : string)
| mousedown (target : Node)
| up (type : Field)
| down (type : Field)
| amPmClick (x : AmPm)
| nowClick (now : Z)
| doneClick.

(** One event and the handler that receives it. A disabled [input] or
    [button] receives no event, an element that is not rendered none
    either, and the [mousedown] listener is on [document] while the picker
    is open, when [timePickerRef] points to it. *)
Definition dispatch (p : Props) (tz : Z) (ev : Event) (s : State) : State * list Call :=
  match ev with
  | inputClick | buttonClick =>
      if disabled p then (s, []) else (handleInputClick p s, [])
  | keydown key =>
      if disabled p then (s, []) else (handleInputKeyDown p key s, [])
  | change value =>
      if disabled p then (s, []) else handleInputChange p value s
  | mousedown target =>
      if isOpen s then (handleClickOutside (Some tt) target s, []) else (s, [])
  | up type =>
      if spinnerRendered p type s
      then handleTimeChange p type (JSInt.add (shown type (selectedTime s)) 1) s
      else (s, [])
  | down type =>
      if spinnerRendered p type s
      then handleTimeChange p type (JSInt.sub (shown type (selectedTime s)) 1) s
      else (s, [])
  | amPmClick x =>
      if amPmRendered p s then handleAmPmChange p x s else (s, [])
  | nowClick now =>
      if isOpen s then handleNow p tz now s else (s, [])
  | doneClick =>
      if isOpen s then (setIsOpen false s, []) else (s, [])
  end.

Fixpoint run (p : Props) (tz : Z) (evs : list Event) (s : State) : State :=
  match evs with
  | [] => s
  | ev :: rest => run p tz rest (fst (dispatch p tz ev s))
  end.

End TimeInput.

(* ================================================================== *)
(** ** DatePicker.tsx: the dates                                       *)
(* ================================================================== *)

(** [DatePicker] with all its state cells: the open flag of the module
    above, the selected date, the month the calendar shows and the text of
    the input. *)
Module DatePickerDates.
Import JSString.
Local Open Scope string_scope.
Local Open Scope Z_scope.

(** ['MM/DD/YYYY'], ['DD/MM/YYYY'], ['YYYY-MM-DD'] and ['MM-DD-YYYY'] *)
Inductive Format := MM_DD_YYYY | DD_MM_YYYY | YYYY_MM_DD | MM_DD_YYYY_dashes.

(** [value] and [defaultValue] are [Some] when they are [Date]s;
    [onChange] and [onDateChange] tell whether the callback is supplied. *)
Record Props := {
  format : Format;
  minDate : option Date.t;
  maxDate : option Date.t;
  disabled : bool;
  onChange : bool;
  onDateChange : bool;
  value : option Date.t;
  defaultValue : option Date.t
}.

Definition defaultProps : Props :=
  {| format := MM_DD_YYYY; minDate := None; maxDate := None; disabled := false;
     onChange := false; onDateChange := false; value := None; defaultValue := None |}.

Record State := {
  openState : DatePicker.State;
  selectedDate : option Date.t;
  currentMonth : Date.t;
  inputValue : string
}.

Definition isOpen (s : State) : bool := DatePicker.isOpen (openState s).

(** [now] is the time value of the [new Date()] of the first render. *)
Definition init (now : Z) : State :=
  {| openState := DatePicker.init;
     selectedDate := None;
     currentMonth := Date.Time now;
     inputValue := "" |}.

Definition setOpenState (o : DatePicker.State) (s : State) : State :=
  {| openState := o; selectedDate := selectedDate s;
     currentMonth := currentMonth s; inputValue := inputValue s |}.

Definition setSelectedDate (d : option Date.t) (s : State) : State :=
  {| openState := openState s; selectedDate := d;
     currentMonth := currentMonth s; inputValue := inputValue s |}.

Definition setCurrentMonth (d : Date.t) (s : State) : State :=
  {| openState := openState s; selectedDate := selectedDate s;
     currentMonth := d; inputValue := inputValue s |}.

Definition setInputValue (v : string) (s : State) : State :=
  {| openState := openState s; selectedDate := selectedDate s;
     currentMonth := currentMonth s; inputValue := v |}.

Inductive Call := OnChange (date : Date.t) | OnDateChange (date : Date.t).

Definition report (p : Props) (date : Date.t) : list Call :=
  (if onChange p then [OnChange date] else [])
  ++ (if onDateChange p then [OnDateChange date] else []).

Definition formatDate (tz : Z) (date : Date.t) (format : Format) : string :=
  let day := pad2 (Date.getDate tz date) in
  let month := pad2 (JSInt.add (Date.getMonth tz date) 1) in
  let year := toString (Date.getFullYear tz date) in
  match format with
  | MM_DD_YYYY => month ++ "/" ++ day ++ "/" ++ year
  | DD_MM_YYYY => day ++ "/" ++ month ++ "/" ++ year
  | YYYY_MM_DD => year ++ "-" ++ month ++ "-" ++ day
  | MM_DD_YYYY_dashes => month ++ "-" ++ day ++ "-" ++ year
  end.

(** [pieces[i]] of an array of three strings. *)
Definition item (i : nat) (pieces : list string) : string := nth i pieces "".

Definition parseDate (p : Props) (tz : Z) (input : string) : option Date.t :=
  if String.eqb input "" then None else
  let fields :=
    match format p with
    | MM_DD_YYYY =>
        let mmdd := split "/" input in
        if negb (List.length mmdd =? 3)%nat then None
        else Some (parseInt (item 2 mmdd), JSInt.sub (parseInt (item 0 mmdd)) 1,
                   parseInt (item 1 mmdd))
    | DD_MM_YYYY =>
        let ddmm := split "/" input in
        if negb (List.length ddmm =? 3)%nat then None
        else Some (parseInt (item 2 ddmm), JSInt.sub (parseInt (item 1 ddmm)) 1,
                   parseInt (item 0 ddmm))
    | YYYY_MM_DD =>
        let yyyy := split "-" input in
        if negb (List.length yyyy =? 3)%nat then None
        else Some (parseInt (item 0 yyyy), JSInt.sub (parseInt (item 1 yyyy)) 1,
                   parseInt (item 2 yyyy))
    | MM_DD_YYYY_dashes =>
        let mmdd2 := split "-" input in
        if negb (List.length mmdd2 =? 3)%nat then None
        else Some (parseInt (item 2 mmdd2), JSInt.sub (parseInt (item 0 mmdd2)) 1,
                   parseInt (item 1 mmdd2))
    end in
  match fields with
  | None => None
  | Some (year, month, day) =>
      let date := Date.make tz year month day in
      if JSInt.isNaN (Date.getTime date) then None else Some date
  end.

(** The effect that takes [value] or [defaultValue] over. *)
Definition initialize (p : Props) (tz : Z) (s : State) : State :=
  match value p, defaultValue p with
  | Some v, _ => setInputValue (formatDate tz v (format p)) (setSelectedDate (Some v) s)
  | None, Some v => setInputValue (formatDate tz v (format p)) (setSelectedDate (Some v) s)
  | None, None => s
  end.

Definition handleInputChange (p : Props) (tz : Z) (value : string) (s : State)
    : State * list Call :=
  let s := setInputValue value s in
  match parseDate p tz value with
  | Some parsedDate => (setSelectedDate (Some parsedDate) s, report p parsedDate)
  | None => (s, [])
  end.

Definition handleDateSelect (p : Props) (tz : Z) (date : Date.t) (s : State)
    : State * list Call :=
  (setOpenState (DatePicker.setIsOpen false (openState s))
     (setCurrentMonth date
        (setInputValue (formatDate tz date (format p))
           (setSelectedDate (Some date) s))),
   report p date).

Definition openProps (p : Props) : DatePicker.Props :=
  {| DatePicker.disabled := disabled p |}.

Definition handleInputClick (p : Props) (s : State) : State :=
  setOpenState (DatePicker.handleInputClick (openProps p) (openState s)) s.

Definition handleInputKeyDown (p : Props) (key : string) (s : State) : State :=
  if String.eqb key "Enter" || String.eqb key " " then handleInputClick p s else s.

Definition goToPreviousMonth (tz : Z) (s : State) : State :=
  let prev := currentMonth s in
  setCurrentMonth
    (Date.make tz (Date.getFullYear tz prev) (JSInt.sub (Date.getMonth tz prev) 1) (Some 1)) s.

Definition goToNextMonth (tz : Z) (s : State) : State :=
  let prev := currentMonth s in
  setCurrentMonth
    (Date.make tz (Date.getFullYear tz prev) (JSInt.add (Date.getMonth tz prev) 1) (Some 1)) s.

(** The cells of the calendar grid: [None] is an empty cell. *)
Definition getDaysInMonth (tz : Z) (date : Date.t) : list (option Date.t) :=
  let year := Date.getFullYear tz date in
  let month := Date.getMonth tz date in
  let firstDay := Date.make tz year month (Some 1) in
  let lastDay := Date.make tz year (JSInt.add month 1) (Some 0) in
  let daysInMonth := Date.getDate tz lastDay in
  let startingDay := Date.getDay tz firstDay in
  repeat None (JSInt.iterations startingDay)
  ++ map (fun i => Some (Date.make tz year month (Some (Z.of_nat i))))
       (seq 1 (JSInt.iterations daysInMonth)).

Definition isDateDisabled (p : Props) (date : Date.t) : bool :=
  let beforeMin :=
    match minDate p with
    | Some m => Date.lt date m
    | None => false
    end in
  let afterMax :=
    match maxDate p with
    | Some M => Date.lt M date
    | None => false
    end in
  if beforeMin then true else if afterMax then true else false.

Definition sameDay (tz : Z) (a b : Date.t) : bool :=
  JSInt.strictEq (Date.getDate tz a) (Date.getDate tz b)
  && JSInt.strictEq (Date.getMonth tz a) (Date.getMonth tz b)
  && JSInt.strictEq (Date.getFullYear tz a) (Date.getFullYear tz b).

Definition isDateSelected (tz : Z) (s : State) (date : Date.t) : bool :=
  match selectedDate s with
  | Some sel => sameDay tz date sel
  | None => false
  end.

Definition isToday (tz now : Z) (date : Date.t) : bool :=
  sameDay tz date (Date.Time now).

(** [dayClick i] is a click on the button of cell [i] of the grid;
    [todayClick now] a click on Today when the clock shows [now]. *)
Inductive Event :=
| inputClick
| buttonClick
| keydown (key : string)
| change (value : string)
| mousedown (target : Node)
| prevClick
| nextClick
| dayClick (index : nat)
| todayClick (now : Z).

(** [calendarRef.current]: the calendar [div] while it is rendered. *)
Definition calendarRef (s : State) : option unit :=
  if isOpen s then Some tt else None.

(** One event and the handler that receives it. A disabled [input] or
    [button] receives no event, and neither does an element that is not
    rendered. *)
Definition dispatch (p : Props) (tz : Z) (ev : Event) (s : State) : State * list Call :=
  match ev with
  | inputClick | buttonClick =>
      if disabled p then (s, []) else (handleInputClick p s, [])
  | keydown key =>
      if disabled p then (s, []) else (handleInputKeyDown p key s, [])
  | change value =>
      if disabled p then (s, []) else handleInputChange p tz value s
  | mousedown target =>
      (setOpenState
         (DatePicker.dispatch (openProps p) (calendarRef s) (DatePicker.mousedown target)
            (openState s)) s, [])
  | prevClick => if isOpen s then (goToPreviousMonth tz s, []) else (s, [])
  | nextClick => if isOpen s then (goToNextMonth tz s, []) else (s, [])
  | dayClick index =>
      if isOpen s then
        match nth_error (getDaysInMonth tz (currentMonth s)) index with
        | Some (Some date) =>
            if isDateDisabled p date then (s, []) else handleDateSelect p tz date s
        | _ => (s, [])
        end
      else (s, [])
  | todayClick now =>
      if isOpen s then handleDateSelect p tz (Date.Time now) s else (s, [])
  end.

Fixpoint run (p : Props) (tz : Z) (evs : list Event) (s : State) : State :=
  match evs with
  | [] => s
  | ev :: rest => run p tz rest (fst (dispatch p tz ev s))
  end.

End DatePickerDates.

(* ================================================================== *)
(** ** themeContext.tsx                                                *)
(* ================================================================== *)

(** [ThemeProvider], whose [setTheme] the items of the theme dropdown
    call, in a browser: the stored theme, the classes of the root element
    and the listener on the media query [(prefers-color-scheme: dark)]. *)
Module ThemeProvider.
Local Open Scope string_scope.

Inductive Theme := light | dark | system.

(** ['light' | 'dark'] *)
Inductive Resolved := resolved_light | resolved_dark.

Definition Theme_text (t : Theme) : string :=
  match t with
  | light => "light"
  | dark => "dark"
  | system => "system"
  end.

Definition Resolved_text (r : Resolved) : string :=
  match r with
  | resolved_light => "light"
  | resolved_dark => "dark"
  end.

Definition Theme_eqb (a b : Theme) : bool :=
  match a, b with
  | light, light | dark, dark | system, system => true
  | _, _ => false
  end.

Record Props := {
  defaultTheme : Theme;
  storageKey : string
}.

Definition defaultProps : Props :=
  {| defaultTheme := system; storageKey := "ui-theme" |}.

(** The page: the entries of [localStorage], the class list and the
    [data-theme] attribute of [document.documentElement], what the media
    query matches, the listeners of its [change] event and the next
    closure to be allocated. *)
Record Page := {
  localStorage : list (string * string);
  classList : list string;
  dataTheme : option string;
  matches : bool;
  changeListeners : list Closure;
  nextFunction : Closure
}.

Fixpoint getItem (key : string) (entries : list (string * string)) : option string :=
  match entries with
  | [] => None
  | (k, v) :: rest => if String.eqb k key then Some v else getItem key rest
  end.

Fixpoint setItem (key value : string) (entries : list (string * string))
    : list (string * string) :=
  match entries with
  | [] => [(key, value)]
  | (k, v) :: rest =>
      if String.eqb k key then (k, value) :: rest else (k, v) :: setItem key value rest
  end.

(** [classList.remove(...tokens)] and [classList.add(token)] *)
Definition classList_remove (tokens : list string) (classes : list string) : list string :=
  filter (fun c => negb (existsb (String.eqb c) tokens)) classes.

Definition classList_add (token : string) (classes : list string) : list string :=
  if existsb (String.eqb token) classes then classes else classes ++ [token].

(** [mediaQuery.addEventListener('change', f)] and its removal. *)
Definition addChangeListener (f : Closure) (ls : list Closure) : list Closure :=
  if existsb (Nat.eqb f) ls then ls else ls ++ [f].

Fixpoint removeChangeListener (f : Closure) (ls : list Closure) : list Closure :=
  match ls with
  | [] => []
  | x :: rest => if Nat.eqb f x then rest else x :: removeChangeListener f rest
  end.

Record State := {
  theme : Theme;
  resolvedTheme : Resolved
}.

Definition setThemeState (t : Theme) (s : State) : State :=
  {| theme := t; resolvedTheme := resolvedTheme s |}.

Definition setResolvedTheme (r : Resolved) (s : State) : State :=
  {| theme := theme s; resolvedTheme := r |}.

(** The initializer of the [theme] cell and the initial [resolvedTheme]. *)
Definition initialTheme (p : Props) (page : Page) : Theme :=
  match getItem (storageKey p) (localStorage page) with
  | Some stored =>
      if String.eqb stored "light" then light
      else if String.eqb stored "dark" then dark
      else if String.eqb stored "system" then system
      else defaultTheme p
  | None => defaultTheme p
  end.

Definition init (p : Props) (page : Page) : State :=
  {| theme := initialTheme p page; resolvedTheme := resolved_light |}.

Definition systemTheme (page : Page) : Resolved :=
  if matches page then resolved_dark else resolved_light.

(** Writing the applied theme on the root element. *)
Definition writeRoot (applied : Resolved) (page : Page) : Page :=
  {| localStorage := localStorage page;
     classList := classList_add (Resolved_text applied)
                    (classList_remove ["light"; "dark"] (classList page));
     dataTheme := Some (Resolved_text applied);
     matches := matches page;
     changeListeners := changeListeners page;
     nextFunction := nextFunction page |}.

(** The first effect. *)
Definition applyTheme (s : State) (page : Page) : State * Page :=
  let appliedTheme :=
    match theme s with
    | system => systemTheme page
    | light => resolved_light
    | dark => resolved_dark
    end in
  (setResolvedTheme appliedTheme s, writeRoot appliedTheme page).

(** [handleChange] of the second effect; [closureTheme] is the [theme] of
    the render that created it. *)
Definition handleChange (closureTheme : Theme) (s : State) (page : Page) : State * Page :=
  match closureTheme with
  | system => (setResolvedTheme (systemTheme page) s, writeRoot (systemTheme page) page)
  | light | dark => (s, page)
  end.

(** A mounted provider: its state, the [theme] its effects last ran for,
    and the listener the second effect registered, with the [theme] it
    closed over; the cleanup removes that listener. *)
Record Instance := {
  state : State;
  deps : Theme;
  listener : option (Closure * Theme)
}.

Definition withListeners (ls : list Closure) (next : Closure) (page : Page) : Page :=
  {| localStorage := localStorage page;
     classList := classList page;
     dataTheme := dataTheme page;
     matches := matches page;
     changeListeners := ls;
     nextFunction := next |}.

(** The second effect. *)
Definition listen (s : State) (page : Page) : option (Closure * Theme) * Page :=
  match theme s with
  | system =>
      let f := nextFunction page in
      (Some (f, theme s),
       withListeners (addChangeListener f (changeListeners page)) (S f) page)
  | light | dark => (None, page)
  end.

Definition cleanup (l : option (Closure * Theme)) (page : Page) : Page :=
  match l with
  | Some (f, _) =>
      withListeners (removeChangeListener f (changeListeners page)) (nextFunction page) page
  | None => page
  end.

(** Both effects, after a render in which [theme] is new. *)
Definition runEffects (s : State) (page : Page) : Instance * Page :=
  let '(s1, page1) := applyTheme s page in
  let '(l, page2) := listen s1 page1 in
  ({| state := s1; deps := theme s1; listener := l |}, page2).

Definition mount (p : Props) (page : Page) : Instance * Page :=
  runEffects (init p page) page.

Definition commit (s : State) (i : Instance) (page : Page) : Instance * Page :=
  if Theme_eqb (theme s) (deps i)
  then ({| state := s; deps := deps i; listener := listener i |}, page)
  else runEffects s (cleanup (listener i) page).

(** [setTheme(newTheme)] *)
Definition setTheme (p : Props) (newTheme : Theme) (s : State) (page : Page) : State * Page :=
  (setThemeState newTheme s,
   {| localStorage := setItem (storageKey p) (Theme_text newTheme) (localStorage page);
      classList := classList page;
      dataTheme := dataTheme page;
      matches := matches page;
      changeListeners := changeListeners page;
      nextFunction := nextFunction page |}).

Definition setMatches (b : bool) (page : Page) : Page :=
  {| localStorage := localStorage page;
     classList := classList page;
     dataTheme := dataTheme page;
     matches := b;
     changeListeners := changeListeners page;
     nextFunction := nextFunction page |}.

(** [choose t] is a call of [setTheme(t)]; [prefers b] is the system
    preference becoming dark ([true]) or light: when that changes what the
    media query matches, its [change] event reaches the listeners. *)
Inductive Event := choose (newTheme : Theme) | prefers (darkMode : bool).

Definition step (p : Props) (ev : Event) (ip : Instance * Page) : Instance * Page :=
  let '(i, page) := ip in
  match ev with
  | choose newTheme =>
      let '(s, page1) := setTheme p newTheme (state i) page in
      commit s i page1
  | prefers darkMode =>
      if Bool.eqb (matches page) darkMode then (i, page)
      else
        let page1 := setMatches darkMode page in
        match listener i with
        | Some (f, closureTheme) =>
            if existsb (Nat.eqb f) (changeListeners page1)
            then let '(s, page2) := handleChange closureTheme (state i) page1 in
                 commit s i page2
            else (i, page1)
        | None => (i, page1)
        end
  end.

Fixpoint run (p : Props) (evs : list Event) (ip : Instance * Page) : Instance * Page :=
  match evs with
  | [] => ip
  | ev :: rest => run p rest (step p ev ip)
  end.

Definition unmount (ip : Instance * Page) : Page :=
  cleanup (listener (fst ip)) (snd ip).

End ThemeProvider.

(* ================================================================== *)
(** ** Runs of events and what holds along them                       *)
(* ================================================================== *)

(** Pointer events, and the time a list of events lets pass. *)
Definition isPointer (ev : Tooltip.Event) : bool :=
  match ev with
  | Tooltip.mouseenter | Tooltip.mouseleave => true
  | _ => false
  end.

Definition isEnter (ev : Tooltip.Event) : bool :=
  match ev with
  | Tooltip.mouseenter => true
  | _ => false
  end.

Fixpoint elapsed (evs : list Tooltip.Event) : Z :=
  match evs with
  | [] => 0
  | Tooltip.tick ms :: rest => Z.of_N ms + elapsed rest
  | _ :: rest => elapsed rest
  end.

Definition hidden (st : Tooltip.State * Tooltip.Timers) : Prop :=
  Tooltip.isVisible (fst st) = false.

(** Hidden, and every pending timer is the one [timeoutRef] holds and is
    not due before [D]. *)
Definition armed (D : Z) (st : Tooltip.State * Tooltip.Timers) : Prop :=
  Tooltip.isVisible (fst st) = false
  /\ forall e, In e (Tooltip.pending (snd st)) ->
       Tooltip.timeoutRef (fst st) = Some (fst e) /\ (D <= snd e)%Z.

(** Hidden, with no timer pending. *)
Definition idle (st : Tooltip.State * Tooltip.Timers) : Prop :=
  Tooltip.isVisible (fst st) = false /\ Tooltip.pending (snd st) = [].

(** Visible, or a timer due at [D] is pending and [D] is still ahead. *)
Definition ripening (D : Z) (st : Tooltip.State * Tooltip.Timers) : Prop :=
  Tooltip.isVisible (fst st) = true
  \/ (exists id, In (id, D) (Tooltip.pending (snd st))) /\ (Tooltip.now (snd st) < D)%Z.

(** What an instance owns of the listener lists: nothing while closed; while
    open, the three listeners its effects added, which are the very ones
    the stored cleanups remove. [base] is what was there before. *)
Definition DropdownOwns (base : list Listener) (o : bool)
    (i : Dropdown.Instance) (w : World) : Prop :=
  wfWorld w
  /\ if o then
       exists h k,
         Dropdown.positionCleanup i = [Dropdown.onResize h; Dropdown.onScroll h]
         /\ Dropdown.escapeCleanup i = [Dropdown.onKeydown k]
         /\ listeners w
            = base ++ [Dropdown.onResize h; Dropdown.onScroll h; Dropdown.onKeydown k]
         /\ ~ In (Dropdown.onResize h) base
         /\ ~ In (Dropdown.onScroll h) base
         /\ ~ In (Dropdown.onKeydown k) base
     else
       Dropdown.positionCleanup i = []
       /\ Dropdown.escapeCleanup i = []
       /\ listeners w = base.

Definition DropdownInv (p : Dropdown.Props) (base : list Listener)
    (iw : Dropdown.Instance * World) : Prop :=
  let o := Dropdown.open p (Dropdown.state (fst iw)) in
  Dropdown.positionDeps (fst iw) = Some o
  /\ Dropdown.escapeDeps (fst iw) = Some (o, Dropdown.closeOnEscape p)
  /\ DropdownOwns base o (fst iw) (snd iw).

Definition TooltipOwns (base : list Listener) (v : bool)
    (i : Tooltip.Instance) (w : World) : Prop :=
  wfWorld w
  /\ if v then
       exists h,
         Tooltip.positionCleanup i = [Tooltip.onResize h; Tooltip.onScroll h]
         /\ listeners w = base ++ [Tooltip.onResize h; Tooltip.onScroll h]
         /\ ~ In (Tooltip.onResize h) base
         /\ ~ In (Tooltip.onScroll h) base
     else
       Tooltip.positionCleanup i = [] /\ listeners w = base.

Definition TooltipInv (base : list Listener) (iw : Tooltip.Instance * World) : Prop :=
  let v := Tooltip.isVisible (Tooltip.state (fst iw)) in
  Tooltip.positionDeps (fst iw) = Some v
  /\ TooltipOwns base v (fst iw) (snd iw).

(** The clicks of a run that land inside the tooltip's trigger. *)
Fixpoint insideClicks (evs : list Tooltip.Event) : nat :=
  match evs with
  | [] => 0
  | Tooltip.clicked outside :: rest => insideClicks rest
  | Tooltip.clicked _ :: rest => S (insideClicks rest)
  | _ :: rest => insideClicks rest
  end.

(** Hover and focus exchanged: in the props and in the events. *)
Definition swapTrigger (g : Tooltip.Trigger) : Tooltip.Trigger :=
  match g with
  | Tooltip.hover => Tooltip.focus
  | Tooltip.focus => Tooltip.hover
  | Tooltip.click => Tooltip.click
  end.

Definition swapProps (p : Tooltip.Props) : Tooltip.Props :=
  {| Tooltip.positionProp := Tooltip.positionProp p;
     Tooltip.align := Tooltip.align p;
     Tooltip.offset := Tooltip.offset p;
     Tooltip.delay := Tooltip.delay p;
     Tooltip.showArrow := Tooltip.showArrow p;
     Tooltip.disabled := Tooltip.disabled p;
     Tooltip.trigger := swapTrigger (Tooltip.trigger p);
     Tooltip.maxWidth := Tooltip.maxWidth p |}.

Definition swapEvent (ev : Tooltip.Event) : Tooltip.Event :=
  match ev with
  | Tooltip.mouseenter => Tooltip.focusin
  | Tooltip.mouseleave => Tooltip.focusout
  | Tooltip.focusin => Tooltip.mouseenter
  | Tooltip.focusout => Tooltip.mouseleave
  | other => other
  end.

(** Focus events, and the arrival of the focus. *)
Definition isFocus (ev : Tooltip.Event) : bool :=
  match ev with
  | Tooltip.focusin | Tooltip.focusout => true
  | _ => false
  end.

Definition isFocusIn (ev : Tooltip.Event) : bool :=
  match ev with
  | Tooltip.focusin => true
  | _ => false
  end.

(** An overlay that has not been shown yet: it is closed now and after
    each event of the run, as the render that follows the event finds it. *)
Fixpoint DropdownUnopened (p : Dropdown.Props) (evs : list (Dropdown.Dom * Dropdown.Event))
    (iw : Dropdown.Instance * World) : Prop :=
  Dropdown.open p (Dropdown.state (fst iw)) = false
  /\ match evs with
     | [] => True
     | de :: rest => DropdownUnopened p rest (Dropdown.step p (fst de) (snd de) iw)
     end.

Fixpoint MenuUnopened (p : Menu.Props) (evs : list (Menu.Dom * Menu.Event))
    (s : Menu.State) : Prop :=
  Menu.open p s = false
  /\ match evs with
     | [] => True
     | de :: rest => MenuUnopened p rest (fst (Menu.dispatch p (fst de) (snd de) s))
     end.

Fixpoint TooltipUnshown (p : Tooltip.Props) (evs : list (Tooltip.Dom * Tooltip.Event))
    (x : Tooltip.Instance * Tooltip.Timers * World) : Prop :=
  Tooltip.isVisible (Tooltip.state (fst (fst x))) = false
  /\ match evs with
     | [] => True
     | de :: rest => TooltipUnshown p rest (Tooltip.step p (fst de) (snd de) x)
     end.

(* ================================================================== *)
(** ** Sample pages, props and states                                  *)
(* ================================================================== *)

Definition noScroll : Scroll :=
  {| pageYOffset := 0; pageXOffset := 0;
     documentElement_scrollTop := 0; documentElement_scrollLeft := 0 |}.

Definition someRect : DOMRect.t := DOMRect.mk 100 100 50 20.
Definition someBox : DOMRect.t := DOMRect.mk 0 0 80 40.

Definition dropdownDom : Dropdown.Dom :=
  {| Dropdown.triggerRef := Some someRect; Dropdown.contentRef := Some someBox;
     Dropdown.scroll := noScroll |}.

Definition tooltipDom : Tooltip.Dom :=
  {| Tooltip.triggerRef := Some someRect; Tooltip.tooltipRef := Some someBox;
     Tooltip.scroll := noScroll |}.

Definition controlledProps : Dropdown.Props :=
  {| Dropdown.controlledOpen := Some true; Dropdown.onOpenChange := true;
     Dropdown.placement := side_bottom; Dropdown.align := align_start;
     Dropdown.offset := 8; Dropdown.showArrow := true;
     Dropdown.closeOnClick := true; Dropdown.closeOnEscape := true;
     Dropdown.closeOnBlur := true |}.

Definition openedDropdown : Dropdown.State :=
  {| Dropdown.isOpen := true; Dropdown.position := origin |}.

(** [<Dropdown open={true} ...>] with no [onOpenChange]: the caller holds
    the overlay open and does not listen. *)
Definition heldOpenProps : Dropdown.Props :=
  {| Dropdown.controlledOpen := Some true; Dropdown.onOpenChange := false;
     Dropdown.placement := side_bottom; Dropdown.align := align_start;
     Dropdown.offset := 8; Dropdown.showArrow := true;
     Dropdown.closeOnClick := true; Dropdown.closeOnEscape := true;
     Dropdown.closeOnBlur := true |}.

Definition noEscapeProps : Dropdown.Props :=
  {| Dropdown.controlledOpen := None; Dropdown.onOpenChange := true;
     Dropdown.placement := side_bottom; Dropdown.align := align_start;
     Dropdown.offset := 8; Dropdown.showArrow := true;
     Dropdown.closeOnClick := true; Dropdown.closeOnEscape := false;
     Dropdown.closeOnBlur := true |}.

Definition disabledClickProps : Tooltip.Props :=
  {| Tooltip.positionProp := side_top; Tooltip.align := align_center;
     Tooltip.offset := 8; Tooltip.delay := 200; Tooltip.showArrow := true;
     Tooltip.disabled := true; Tooltip.trigger := Tooltip.click;
     Tooltip.maxWidth := 200 |}.

Definition disabledHoverProps : Tooltip.Props :=
  {| Tooltip.positionProp := side_top; Tooltip.align := align_center;
     Tooltip.offset := 8; Tooltip.delay := 200; Tooltip.showArrow := true;
     Tooltip.disabled := true; Tooltip.trigger := Tooltip.hover;
     Tooltip.maxWidth := 200 |}.

Definition idleTimers : Tooltip.Timers :=
  {| Tooltip.now := 0; Tooltip.nextTimer := 1%positive; Tooltip.pending := [] |}.

Definition noBlurProps : Dropdown.Props :=
  {| Dropdown.controlledOpen := None; Dropdown.onOpenChange := true;
     Dropdown.placement := side_bottom; Dropdown.align := align_start;
     Dropdown.offset := 8; Dropdown.showArrow := true;
     Dropdown.closeOnClick := true; Dropdown.closeOnEscape := true;
     Dropdown.closeOnBlur := false |}.

(** A page on which another component already listens to [resize]. *)
Definition busyPage : World :=
  {| listeners := [ {| target := window; type := ev_resize; callback := 0; capture := false |} ];
     nextClosure := 1 |}.

Definition instantProps : Tooltip.Props :=
  {| Tooltip.positionProp := side_top; Tooltip.align := align_center;
     Tooltip.offset := 8; Tooltip.delay := 0; Tooltip.showArrow := true;
     Tooltip.disabled := false; Tooltip.trigger := Tooltip.hover;
     Tooltip.maxWidth := 200 |}.

Definition focusProps : Tooltip.Props :=
  {| Tooltip.positionProp := side_top; Tooltip.align := align_center;
     Tooltip.offset := 8; Tooltip.delay := 200; Tooltip.showArrow := true;
     Tooltip.disabled := false; Tooltip.trigger := Tooltip.focus;
     Tooltip.maxWidth := 200 |}.

(** A page with nothing on it. *)
Definition emptyPage : World := {| listeners := []; nextClosure := 0 |}.

(** [<Dropdown open={false} ...>], before the caller opens it. *)
Definition heldShutProps : Dropdown.Props :=
  {| Dropdown.controlledOpen := Some false; Dropdown.onOpenChange := true;
     Dropdown.placement := side_bottom; Dropdown.align := align_start;
     Dropdown.offset := 8; Dropdown.showArrow := true;
     Dropdown.closeOnClick := true; Dropdown.closeOnEscape := true;
     Dropdown.closeOnBlur := true |}.

(* ================================================================== *)
(** ** Texts of digits, and days of the calendar                       *)
(* ================================================================== *)

(** A text of decimal digits only. *)
Fixpoint allDigits (s : string) : bool :=
  match s with
  | EmptyString => true
  | String c rest => JSString.isDigit c && allDigits rest
  end.

(** A text in which the character [sep] does not occur. *)
Fixpoint lacks (sep : ascii) (s : string) : bool :=
  match s with
  | EmptyString => true
  | String c rest => negb (Ascii.eqb c sep) && lacks sep rest
  end.

Definition startsWithDigit (s : string) : bool :=
  match s with
  | EmptyString => false
  | String c _ => JSString.isDigit c
  end.

(** The day number of day [dt] of month [m] of year [y]. *)
Definition dayNumber (y m dt : Z) : Z :=
  (Date.DayFromYear y + Date.monthStart (Date.InLeapYear y) m + dt - 1)%Z.

(** Local midnight of day number [d] in the zone at offset [tz]. *)
Definition midnight (tz d : Z) : Date.t := Date.Time (d * Date.msPerDay - tz)%Z.

(** The time values a [Date] can hold, and the offsets of time zones. *)
Definition validTime (tv : Z) : Prop := (Z.abs tv <= 8640000000000000)%Z.

Definition validZone (tz : Z) : Prop := (Z.abs tz <= Date.msPerDay)%Z.

(** Solves goals with divisions by constants. *)
Ltac euclid := Z.to_euclidean_division_equations; lia.

(** Evaluates [Date.monthStart] at a known month. *)
Ltac known_month k :=
  lazymatch k with
  | Z0 => idtac
  | Zpos ?p => is_ground p
  | Zneg ?p => is_ground p
  | (?a + ?b)%Z => known_month a; known_month b
  | (?a - ?b)%Z => known_month a; known_month b
  end.

Ltac months :=
  repeat match goal with
  | |- context [Date.monthStart ?l ?k] =>
      known_month k;
      let v := eval vm_compute in (Date.monthStart l k) in
      change (Date.monthStart l k) with v
  | H : context [Date.monthStart ?l ?k] |- _ =>
      known_month k;
      let v := eval vm_compute in (Date.monthStart l k) in
      change (Date.monthStart l k) with v in H
  end.

Ltac ltbs :=
  repeat match goal with
  | |- context [(?a <? ?b)%Z] =>
      destruct (Z.ltb_spec a b); try lia; cbv beta iota
  end.

(** Splits a goal about a month [m], given [H : 0 <= m <= 11], into the
    twelve months. *)
Ltac by_month H :=
  match type of H with
  | (0 <= ?m <= 11)%Z =>
      let C := fresh "C" in
      assert (C : (m = 0 \/ m = 1 \/ m = 2 \/ m = 3 \/ m = 4 \/ m = 5 \/ m = 6
                   \/ m = 7 \/ m = 8 \/ m = 9 \/ m = 10 \/ m = 11)%Z) by lia;
      repeat (destruct C as [C|C]; [subst|]); subst
  end.

(** The text [formatDate] builds from the three fields of a date. *)
Definition formatFields (format : DatePickerDates.Format) (year month day : jsint) : string :=
  let day := JSString.pad2 day in
  let month := JSString.pad2 (JSInt.add month 1) in
  let year := JSString.toString year in
  match format with
  | DatePickerDates.MM_DD_YYYY => month ++ "/" ++ day ++ "/" ++ year
  | DatePickerDates.DD_MM_YYYY => day ++ "/" ++ month ++ "/" ++ year
  | DatePickerDates.YYYY_MM_DD => year ++ "-" ++ month ++ "-" ++ day
  | DatePickerDates.MM_DD_YYYY_dashes => month ++ "-" ++ day ++ "-" ++ year
  end.

(** The local day number of a time value. *)
Definition localDay (tz tv : Z) : Z := Date.Day (Date.LocalTime tz tv).

(** The number of empty cells before the first day of month [m] of year
    [y]: the day of the week of that day, Sunday being 0. *)
Definition leadingCells (y m : Z) : nat := Z.to_nat (Date.WeekDay (dayNumber y m 1)).

(** The cells of the days of month [m] of year [y]. *)
Definition dayCells (tz y m : Z) : list (option Date.t) :=
  map (fun i => Some (midnight tz (dayNumber y m (Z.of_nat i))))
    (seq 1 (Z.to_nat (Date.daysInMonth y m))).

(** The first day of the month after, and of the month before, month [m]
    of year [y]. *)
Definition nextMonth (y m : Z) : Z :=
  if (m =? 11)%Z then dayNumber (y + 1) 0 1 else dayNumber y (m + 1) 1.

Definition previousMonth (y m : Z) : Z :=
  if (m =? 0)%Z then dayNumber (y - 1) 11 1 else dayNumber y (m - 1) 1.

(** The fields of a time that the spinner buttons can produce, and those
    that print with two digits. *)
Definition fieldWithin (hi : Z) (x : jsint) : Prop :=
  match x with
  | Some z => (0 <= z <= hi)%Z
  | None => False
  end.

Definition secondsWithin (hi : Z) (x : option jsint) : Prop :=
  match x with
  | Some sec => fieldWithin hi sec
  | None => True
  end.

Definition inRange (t : TimeInput.Time) : Prop :=
  fieldWithin 23 (TimeInput.hours t)
  /\ fieldWithin 59 (TimeInput.minutes t)
  /\ secondsWithin 59 (TimeInput.seconds t).

Definition twoDigits (t : TimeInput.Time) : Prop :=
  fieldWithin 99 (TimeInput.hours t)
  /\ fieldWithin 99 (TimeInput.minutes t)
  /\ secondsWithin 99 (TimeInput.seconds t).

(** The seconds and the marker that the text of a time carries. *)
Definition printedSeconds (p : TimeInput.Props) (t : TimeInput.Time) : jsint :=
  match TimeInput.seconds t with
  | Some sec => if TimeInput.showSeconds p then sec else Some 0%Z
  | None => Some 0%Z
  end.

(** The hour on the dial of a 12-hour clock. *)
Definition dial (h : Z) : Z :=
  if (h =? 0)%Z then 12%Z else if (12 <? h)%Z then (h - 12)%Z else h.

(** The value at which the up arrow of a field stops. *)
Definition topValue (p : TimeInput.Props) (type : TimeInput.Field) : Z :=
  match type with
  | TimeInput.Hours =>
      match TimeInput.format p with
      | TimeInput.h24 => 23%Z
      | TimeInput.h12 => 12%Z
      end
  | TimeInput.Minutes | TimeInput.Seconds => 59%Z
  end.

Definition isChange (ev : TimeInput.Event) : bool :=
  match ev with
  | TimeInput.change _ => true
  | _ => false
  end.

Definition withAmPm (x : option TimeInput.AmPm) (t : TimeInput.Time) : TimeInput.Time :=
  {| TimeInput.hours := TimeInput.hours t;
     TimeInput.minutes := TimeInput.minutes t;
     TimeInput.seconds := TimeInput.seconds t;
     TimeInput.ampm := x |}.

(** The text of an hour, a minute, seconds if any, and a marker if any. *)
Definition suffix (x : option TimeInput.AmPm) : string :=
  match x with
  | Some x => " " ++ TimeInput.AmPm_text x
  | None => ""
  end.

Definition timeText (h mi : Z) (sec : option Z) (x : option TimeInput.AmPm) : string :=
  JSString.pad2 (Some h) ++ ":" ++ JSString.pad2 (Some mi)
  ++ match sec with
     | Some sc => ":" ++ JSString.pad2 (Some sc) ++ suffix x
     | None => suffix x
     end.

(** The hour [parseTimeString] makes of the hour [h] read with the marker
    [x]. *)
Definition markedHour (format : TimeInput.Format) (x : option TimeInput.AmPm) (h : Z) : Z :=
  match format, x with
  | TimeInput.h12, Some TimeInput.PM => if (h =? 12)%Z then h else (h + 12)%Z
  | TimeInput.h12, Some TimeInput.AM => if (h =? 12)%Z then 0%Z else h
  | _, _ => h
  end.

(** The marker [formatTimeString] prints for the hour [h] in 12-hour
    format. *)
Definition markerOf (h : Z) : TimeInput.AmPm :=
  if (h =? 0)%Z || (12 <=? h)%Z then TimeInput.PM else TimeInput.AM.

(** Whether an event is a click on a button of the picker that is
    rendered and sets the time. *)
Definition setsTime (p : TimeInput.Props) (ev : TimeInput.Event) (s : TimeInput.State) : bool :=
  match ev with
  | TimeInput.up type | TimeInput.down type => TimeInput.spinnerRendered p type s
  | TimeInput.nowClick _ => TimeInput.isOpen s
  | _ => false
  end.

(** *** Sample dates, times and states *)

(** One hour east of Greenwich. *)
Definition sampleZone : Z := 3600000%Z.

(** 29 February 2024, 12:30 UTC. *)
Definition leapDay : Z := 1709209800000%Z.

(** 15 June of the year 50, 00:00 UTC. *)
Definition ancientDay : Z := (dayNumber 50 5 15 * Date.msPerDay)%Z.

Definition openPicker : DatePickerDates.State :=
  {| DatePickerDates.openState := {| DatePicker.isOpen := true |};
     DatePickerDates.selectedDate := None;
     DatePickerDates.currentMonth := Date.Time leapDay;
     DatePickerDates.inputValue := "" |}.

Definition disabledPicker : DatePickerDates.Props :=
  {| DatePickerDates.format := DatePickerDates.MM_DD_YYYY;
     DatePickerDates.minDate := None; DatePickerDates.maxDate := None;
     DatePickerDates.disabled := true;
     DatePickerDates.onChange := true; DatePickerDates.onDateChange := true;
     DatePickerDates.value := None; DatePickerDates.defaultValue := None |}.

Definition notBeforeLeapDay : DatePickerDates.Props :=
  {| DatePickerDates.format := DatePickerDates.YYYY_MM_DD;
     DatePickerDates.minDate := Some (Date.Time leapDay); DatePickerDates.maxDate := None;
     DatePickerDates.disabled := false;
     DatePickerDates.onChange := true; DatePickerDates.onDateChange := false;
     DatePickerDates.value := None; DatePickerDates.defaultValue := None |}.

Definition disabledTimeInput : TimeInput.Props :=
  {| TimeInput.format := TimeInput.h24; TimeInput.showSeconds := false;
     TimeInput.showAmPm := false; TimeInput.disabled := true;
     TimeInput.onChange := true; TimeInput.onTimeChange := true |}.

Definition twelveHours : TimeInput.Props :=
  {| TimeInput.format := TimeInput.h12; TimeInput.showSeconds := true;
     TimeInput.showAmPm := true; TimeInput.disabled := false;
     TimeInput.onChange := true; TimeInput.onTimeChange := true |}.

Definition withSeconds : TimeInput.Props :=
  {| TimeInput.format := TimeInput.h24; TimeInput.showSeconds := true;
     TimeInput.showAmPm := false; TimeInput.disabled := false;
     TimeInput.onChange := true; TimeInput.onTimeChange := true |}.

Definition afterMidnight : TimeInput.Time :=
  {| TimeInput.hours := Some 0%Z; TimeInput.minutes := Some 5%Z;
     TimeInput.seconds := Some (Some 9%Z); TimeInput.ampm := Some TimeInput.AM |}.

Definition openTimeInput : TimeInput.State :=
  {| TimeInput.isOpen := true;
     TimeInput.selectedTime := afterMidnight;
     TimeInput.inputValue := "" |}.

(** *** The theme on the root element *)

(** The theme that is applied for a chosen theme on a page. *)
Definition appliedTheme (t : ThemeProvider.Theme) (page : ThemeProvider.Page)
    : ThemeProvider.Resolved :=
  match t with
  | ThemeProvider.system => ThemeProvider.systemTheme page
  | ThemeProvider.light => ThemeProvider.resolved_light
  | ThemeProvider.dark => ThemeProvider.resolved_dark
  end.

(** The classes of the root element that are not theme classes. *)
Definition otherClasses (classes : list string) : list string :=
  ThemeProvider.classList_remove ["light"%string; "dark"%string] classes.

(** Every listener of the media query is a closure that has been
    allocated. *)
Definition wfPage (page : ThemeProvider.Page) : Prop :=
  Forall (fun f => f < ThemeProvider.nextFunction page) (ThemeProvider.changeListeners page).

(** What holds of a mounted provider between events, on a page whose root
    had the classes [classes0] and whose media query had the listeners
    [base] before the mount. *)
Definition ThemeInv (p : ThemeProvider.Props) (classes0 : list string) (base : list Closure)
    (ip : ThemeProvider.Instance * ThemeProvider.Page) : Prop :=
  let '(i, page) := ip in
  let s := ThemeProvider.state i in
  ThemeProvider.deps i = ThemeProvider.theme s
  /\ ThemeProvider.resolvedTheme s = appliedTheme (ThemeProvider.theme s) page
  /\ ThemeProvider.dataTheme page
     = Some (ThemeProvider.Resolved_text (ThemeProvider.resolvedTheme s))
  /\ ThemeProvider.classList page
     = otherClasses classes0 ++ [ThemeProvider.Resolved_text (ThemeProvider.resolvedTheme s)]
  /\ ThemeProvider.initialTheme p page = ThemeProvider.theme s
  /\ Forall (fun f => f < ThemeProvider.nextFunction page) base
  /\ match ThemeProvider.listener i with
     | Some (f, closureTheme) =>
         ThemeProvider.theme s = ThemeProvider.system
         /\ closureTheme = ThemeProvider.system
         /\ f < ThemeProvider.nextFunction page
         /\ ~ In f base
         /\ ThemeProvider.changeListeners page = base ++ [f]
     | None =>
         ThemeProvider.theme s <> ThemeProvider.system
         /\ ThemeProvider.changeListeners page = base
     end.

Definition darkPage : ThemeProvider.Page :=
  {| ThemeProvider.localStorage := [("ui-theme"%string, "blue"%string)];
     ThemeProvider.classList := ["h-full"%string; "dark"%string];
     ThemeProvider.dataTheme := None;
     ThemeProvider.matches := true;
     ThemeProvider.changeListeners := [0; 1];
     ThemeProvider.nextFunction := 2 |}.

Definition isChoose (ev : ThemeProvider.Event) : bool :=
  match ev with
  | ThemeProvider.choose _ => true
  | ThemeProvider.prefers _ => false
  end.

(** The stored text is that of the theme in use. *)
Definition stored (p : ThemeProvider.Props) (ip : ThemeProvider.Instance * ThemeProvider.Page)
    : Prop :=
  ThemeProvider.getItem (ThemeProvider.storageKey p) (ThemeProvider.localStorage (snd ip))
  = Some (ThemeProvider.Theme_text (ThemeProvider.theme (ThemeProvider.state (fst ip)))).

(* ================================================================== *)
(** * Properties                                                       *)
(* ================================================================== *)

(** ** Geometry *)

Lemma Dropdown_computePosition_spec side al off tr fr w :
  Dropdown.computePosition side al off tr fr w
  = spec_resolvePosition (Bounds.ofRect w tr) (Bounds.ofRect w fr) side al off.
Proof. destruct side, al; reflexivity. Qed.

Lemma Menu_computePosition_spec side al off tr fr w :
  Menu.computePosition side al off tr fr w
  = spec_resolvePosition (Bounds.ofRect w tr) (Bounds.ofRect w fr) side al off.
Proof. destruct side, al; reflexivity. Qed.

Lemma Tooltip_computePosition_spec side al off tr fr w :
  Tooltip.computePosition side al off tr fr w
  = spec_resolvePosition (Bounds.ofRect w tr) (Bounds.ofRect w fr) side al off.
Proof. destruct side, al; reflexivity. Qed.

(** C1. Whatever the trigger rectangle, the floating rectangle, the offset,
    the side and the alignment, the position that [updatePosition] computes
    in Dropdown, Menu and Tooltip is the one the specification's formulas
    give on the document-space bounds: the side fixes the primary axis
    ([trigger.bottom + offset], [trigger.top - floating.height - offset],
    [trigger.left - floating.width - offset], [trigger.right + offset]) and
    the alignment the cross axis. With trigger [{top:100, left:100,
    width:50, height:20}], an 80 by 40 floating box, offset 8 and no scroll:
    bottom/start is [{128, 100}], top/center [{52, 85}] and right/end
    [{80, 158}]. *)
Theorem C1_placement_formulas :
  (forall side al off tr fr w,
      Dropdown.computePosition side al off tr fr w
      = spec_resolvePosition (Bounds.ofRect w tr) (Bounds.ofRect w fr) side al off
      /\ Menu.computePosition side al off tr fr w
         = spec_resolvePosition (Bounds.ofRect w tr) (Bounds.ofRect w fr) side al off
      /\ Tooltip.computePosition side al off tr fr w
         = spec_resolvePosition (Bounds.ofRect w tr) (Bounds.ofRect w fr) side al off)
  /\ (forall ft fl,
         let trigger := DOMRect.mk 100 100 50 20 in
         let floating := DOMRect.mk ft fl 80 40 in
         Dropdown.computePosition side_bottom align_start 8 trigger floating noScroll
         = {| top := 128; left := 100 |}
         /\ Dropdown.computePosition side_top align_center 8 trigger floating noScroll
            = {| top := 52; left := 85 |}
         /\ Dropdown.computePosition side_right align_end 8 trigger floating noScroll
            = {| top := 80; left := 158 |}
         /\ Tooltip.computePosition side_bottom align_start 8 trigger floating noScroll
            = {| top := 128; left := 100 |}
         /\ Tooltip.computePosition side_top align_center 8 trigger floating noScroll
            = {| top := 52; left := 85 |}
         /\ Tooltip.computePosition side_right align_end 8 trigger floating noScroll
            = {| top := 80; left := 158 |}).
Proof.
  split.
  - intros. repeat split.
    + apply Dropdown_computePosition_spec.
    + apply Menu_computePosition_spec.
    + apply Tooltip_computePosition_spec.
  - intros ft fl trigger floating. repeat split; vm_compute; reflexivity.
Qed.

(** ** Recomputing the position *)

Lemma Dropdown_updatePosition_total p dom s :
  exists s', Dropdown.updatePosition p dom s = Ok s'.
Proof.
  destruct dom as [[tr|] [cr|] w]; unfold Dropdown.updatePosition; simpl; eauto.
Qed.

Lemma Menu_updatePosition_total p dom s :
  exists s', Menu.updatePosition p dom s = Ok s'.
Proof.
  destruct dom as [[tr|] [cr|] w]; unfold Menu.updatePosition; simpl; eauto.
Qed.

Lemma Tooltip_updatePosition_total p dom s :
  exists s', Tooltip.updatePosition p dom s = Ok s'.
Proof.
  destruct dom as [[tr|] [cr|] w]; unfold Tooltip.updatePosition; simpl; eauto.
Qed.

(** C8. A recompute call that finds the trigger ref or the floating ref
    [null] returns normally and leaves the state, and with it the stored
    position, as it was; no call of [updatePosition] throws, in Dropdown,
    Menu and Tooltip alike; and a call that finds both elements stores the
    position resolved from their rectangles. *)
Theorem C8_unmeasurable_is_noop :
  (forall p r w s,
      Dropdown.updatePosition p
        {| Dropdown.triggerRef := None; Dropdown.contentRef := r; Dropdown.scroll := w |} s = Ok s
      /\ Dropdown.updatePosition p
        {| Dropdown.triggerRef := r; Dropdown.contentRef := None; Dropdown.scroll := w |} s = Ok s)
  /\ (forall p r w s,
      Menu.updatePosition p
        {| Menu.triggerRef := None; Menu.contentRef := r; Menu.scroll := w |} s = Ok s
      /\ Menu.updatePosition p
        {| Menu.triggerRef := r; Menu.contentRef := None; Menu.scroll := w |} s = Ok s)
  /\ (forall p r w s,
      Tooltip.updatePosition p
        {| Tooltip.triggerRef := None; Tooltip.tooltipRef := r; Tooltip.scroll := w |} s = Ok s
      /\ Tooltip.updatePosition p
        {| Tooltip.triggerRef := r; Tooltip.tooltipRef := None; Tooltip.scroll := w |} s = Ok s)
  /\ (forall p dom s, exists s', Dropdown.updatePosition p dom s = Ok s')
  /\ (forall p dom s, exists s', Menu.updatePosition p dom s = Ok s')
  /\ (forall p dom s, exists s', Tooltip.updatePosition p dom s = Ok s')
  /\ (forall p tr cr w s,
      Dropdown.updatePosition p
        {| Dropdown.triggerRef := Some tr; Dropdown.contentRef := Some cr;
           Dropdown.scroll := w |} s
      = Ok (Dropdown.setPosition
              (Dropdown.computePosition (Dropdown.placement p) (Dropdown.align p)
                 (Dropdown.offset p) tr cr w) s))
  /\ (forall p tr cr w s,
      Tooltip.updatePosition p
        {| Tooltip.triggerRef := Some tr; Tooltip.tooltipRef := Some cr;
           Tooltip.scroll := w |} s
      = Ok (Tooltip.setTooltipPos
              (Tooltip.computePosition (Tooltip.positionProp p) (Tooltip.align p)
                 (Tooltip.offset p) tr cr w) s)).
Proof.
  repeat split; try (destruct r; reflexivity).
  - intros; apply Dropdown_updatePosition_total.
  - intros; apply Menu_updatePosition_total.
  - intros; apply Tooltip_updatePosition_total.
Qed.

(** C9. The resolver has no memory. On the same rectangles, placement,
    alignment, offset and scroll offsets, [updatePosition] stores the same
    [{ top, left }] whatever the state it starts from, and a second call
    right after the first changes nothing. *)
Theorem C9_resolver_deterministic :
  (forall p tr cr w s1 s2,
      let dom := {| Dropdown.triggerRef := Some tr; Dropdown.contentRef := Some cr;
                    Dropdown.scroll := w |} in
      Dropdown.position (Dropdown.recompute p dom s1)
      = Dropdown.position (Dropdown.recompute p dom s2))
  /\ (forall p dom s,
      (s' <- Dropdown.updatePosition p dom s ;; Dropdown.updatePosition p dom s')
      = Dropdown.updatePosition p dom s)
  /\ (forall p tr cr w s1 s2,
      let dom := {| Tooltip.triggerRef := Some tr; Tooltip.tooltipRef := Some cr;
                    Tooltip.scroll := w |} in
      Tooltip.tooltipPos (Tooltip.recompute p dom s1)
      = Tooltip.tooltipPos (Tooltip.recompute p dom s2))
  /\ (forall p dom s,
      (s' <- Tooltip.updatePosition p dom s ;; Tooltip.updatePosition p dom s')
      = Tooltip.updatePosition p dom s).
Proof.
  repeat split.
  - intros p [[tr|] [cr|] w] s; reflexivity.
  - intros p [[tr|] [cr|] w] s; reflexivity.
Qed.

(** ** Controlled mode *)

Lemma Dropdown_controlled_dispatch p dom ev s b :
  Dropdown.controlledOpen p = Some b ->
  Dropdown.isOpen (fst (Dropdown.dispatch p dom ev s)) = Dropdown.isOpen s.
Proof.
  intros Hc.
  assert (Hi : Dropdown.isControlled p = true)
    by (unfold Dropdown.isControlled; rewrite Hc; reflexivity).
  destruct ev as [n|rt|k| |]; simpl.
  - destruct n; simpl; try reflexivity. rewrite Hi. reflexivity.
  - unfold Dropdown.handleBlur.
    destruct (_ && _)%bool; simpl; [rewrite Hi|]; reflexivity.
  - destruct (Dropdown.open p s); [|reflexivity].
    unfold Dropdown.handleEscape.
    destruct (_ && _)%bool; simpl; [rewrite Hi|]; reflexivity.
  - destruct (Dropdown.open p s); [|reflexivity]. simpl.
    unfold Dropdown.recompute.
    destruct dom as [[tr|] [cr|] w]; reflexivity.
  - destruct (Dropdown.open p s); [|reflexivity]. simpl.
    unfold Dropdown.recompute.
    destruct dom as [[tr|] [cr|] w]; reflexivity.
Qed.

Lemma Menu_controlled_dispatch p dom ev s b :
  Menu.controlledOpen p = Some b ->
  Menu.isOpen (fst (Menu.dispatch p dom ev s)) = Menu.isOpen s.
Proof.
  intros Hc.
  assert (Hi : Menu.isControlled p = true)
    by (unfold Menu.isControlled; rewrite Hc; reflexivity).
  destruct ev as [n|rt|k| |]; simpl.
  - destruct n; simpl; try reflexivity. rewrite Hi. reflexivity.
  - unfold Menu.handleBlur.
    destruct (_ && _)%bool; simpl; [rewrite Hi|]; reflexivity.
  - destruct (Menu.open p s); [|reflexivity].
    unfold Menu.handleEscape.
    destruct (_ && _)%bool; simpl; [rewrite Hi|]; reflexivity.
  - destruct (Menu.open p s); [|reflexivity]. simpl.
    unfold Menu.recompute.
    destruct dom as [[tr|] [cr|] w]; reflexivity.
  - destruct (Menu.open p s); [|reflexivity]. simpl.
    unfold Menu.recompute.
    destruct dom as [[tr|] [cr|] w]; reflexivity.
Qed.

(** C5. In controlled mode (an [open] prop is supplied) the close and the
    toggle request of a Dropdown or a Menu leave the state cells as they
    are and do nothing but call [onOpenChange] with the requested value,
    when the callback is supplied; no event changes the internal open flag;
    and the open value the component renders with stays the supplied
    one. *)
Theorem C5_controlled_mode_frame :
  (forall p s b,
      Dropdown.controlledOpen p = Some b ->
      Dropdown.handleClose p s = (s, if Dropdown.onOpenChange p then [false] else [])
      /\ Dropdown.handleToggle p s = (s, if Dropdown.onOpenChange p then [negb b] else [])
      /\ (forall dom ev,
             Dropdown.isOpen (fst (Dropdown.dispatch p dom ev s)) = Dropdown.isOpen s
             /\ Dropdown.open p (fst (Dropdown.dispatch p dom ev s)) = b)
      /\ Dropdown.open p s = b)
  /\ (forall p s b,
      Menu.controlledOpen p = Some b ->
      Menu.handleClose p s = (s, if Menu.onOpenChange p then [false] else [])
      /\ Menu.handleToggle p s = (s, if Menu.onOpenChange p then [negb b] else [])
      /\ (forall dom ev,
             Menu.isOpen (fst (Menu.dispatch p dom ev s)) = Menu.isOpen s
             /\ Menu.open p (fst (Menu.dispatch p dom ev s)) = b)
      /\ Menu.open p s = b).
Proof.
  split; intros p s b Hc.
  - assert (Hi : Dropdown.isControlled p = true)
      by (unfold Dropdown.isControlled; rewrite Hc; reflexivity).
    assert (Ho : forall s', Dropdown.open p s' = b)
      by (intros; unfold Dropdown.open; rewrite Hc; reflexivity).
    repeat split.
    + unfold Dropdown.handleClose. rewrite Hi. reflexivity.
    + unfold Dropdown.handleToggle, Dropdown.emit. rewrite Hi, Ho. reflexivity.
    + eapply Dropdown_controlled_dispatch; eauto.
    + apply Ho.
    + apply Ho.
  - assert (Hi : Menu.isControlled p = true)
      by (unfold Menu.isControlled; rewrite Hc; reflexivity).
    assert (Ho : forall s', Menu.open p s' = b)
      by (intros; unfold Menu.open; rewrite Hc; reflexivity).
    repeat split.
    + unfold Menu.handleClose. rewrite Hi. reflexivity.
    + unfold Menu.handleToggle, Menu.emit. rewrite Hi, Ho. reflexivity.
    + eapply Menu_controlled_dispatch; eauto.
    + apply Ho.
    + apply Ho.
Qed.

Lemma C5_controlled_mode_frame_witness :
  Dropdown.handleClose controlledProps Dropdown.init = (Dropdown.init, [false])
  /\ Dropdown.handleToggle controlledProps Dropdown.init = (Dropdown.init, [false])
  /\ Dropdown.open controlledProps Dropdown.init = true.
Proof.
  pose proof (proj1 C5_controlled_mode_frame controlledProps Dropdown.init true eq_refl) as H.
  destruct H as (H1 & H2 & _ & H4).
  exact (conj H1 (conj H2 H4)).
Defined.

(** ** Escape *)

Lemma Dropdown_escape p dom s :
  Dropdown.controlledOpen p = None ->
  Dropdown.open p s = true ->
  Dropdown.open p (fst (Dropdown.dispatch p dom (Dropdown.keydown "Escape") s))
  = negb (Dropdown.closeOnEscape p).
Proof.
  intros Hc Ho. simpl. rewrite Ho.
  unfold Dropdown.handleEscape, Dropdown.handleClose, Dropdown.isControlled.
  rewrite Ho, Hc. simpl.
  destruct (Dropdown.closeOnEscape p); simpl.
  - unfold Dropdown.open. rewrite Hc. reflexivity.
  - exact Ho.
Qed.

Lemma Menu_escape p dom s :
  Menu.controlledOpen p = None ->
  Menu.open p s = true ->
  Menu.open p (fst (Menu.dispatch p dom (Menu.keydown "Escape") s))
  = negb (Menu.closeOnEscape p).
Proof.
  intros Hc Ho. simpl. rewrite Ho.
  unfold Menu.handleEscape, Menu.handleClose, Menu.isControlled.
  rewrite Ho, Hc. simpl.
  destruct (Menu.closeOnEscape p); simpl.
  - unfold Menu.open. rewrite Hc. reflexivity.
  - exact Ho.
Qed.

(** C7, as the claim states it, fails on a controlled overlay. A Dropdown
    that the caller holds open ([open = true], no [onOpenChange]) with
    [closeOnEscape = true] receives an [Escape] keydown while it is open:
    [handleClose] sets no state behind [if (!isControlled)], there is no
    callback to call, and the overlay is still open afterwards. *)
Lemma C7_controlled_overlay_stays_open_on_escape :
  Dropdown.closeOnEscape heldOpenProps = true
  /\ Dropdown.open heldOpenProps openedDropdown = true
  /\ Dropdown.dispatch heldOpenProps dropdownDom (Dropdown.keydown "Escape") openedDropdown
     = (openedDropdown, [])
  /\ Dropdown.open heldOpenProps
       (fst (Dropdown.dispatch heldOpenProps dropdownDom (Dropdown.keydown "Escape")
               openedDropdown)) = true.
Proof. repeat split; reflexivity. Qed.

(** C7, amended. An open Dropdown or Menu receives an [Escape] keydown. With
    [closeOnEscape = false] nothing happens: the state is untouched, no
    callback is called, the overlay stays open. With [closeOnEscape = true]
    an overlay that owns its open flag (uncontrolled) is closed. An overlay
    whose flag is owned by the caller (controlled mode) keeps its state and
    is still open after the key: all it does is to call
    [onOpenChange(false)], when the caller has supplied it. *)
Theorem C7_escape_closes_only_when_enabled :
  (forall p dom s,
      Dropdown.open p s = true ->
      (Dropdown.closeOnEscape p = false ->
         Dropdown.dispatch p dom (Dropdown.keydown "Escape") s = (s, [])
         /\ Dropdown.open p (fst (Dropdown.dispatch p dom (Dropdown.keydown "Escape") s)) = true)
      /\ (Dropdown.closeOnEscape p = true ->
         match Dropdown.controlledOpen p with
         | None =>
             Dropdown.open p (fst (Dropdown.dispatch p dom (Dropdown.keydown "Escape") s))
             = false
         | Some _ =>
             Dropdown.dispatch p dom (Dropdown.keydown "Escape") s
             = (s, if Dropdown.onOpenChange p then [false] else [])
             /\ Dropdown.open p (fst (Dropdown.dispatch p dom (Dropdown.keydown "Escape") s))
                = true
         end))
  /\ (forall p dom s,
      Menu.open p s = true ->
      (Menu.closeOnEscape p = false ->
         Menu.dispatch p dom (Menu.keydown "Escape") s = (s, [])
         /\ Menu.open p (fst (Menu.dispatch p dom (Menu.keydown "Escape") s)) = true)
      /\ (Menu.closeOnEscape p = true ->
         match Menu.controlledOpen p with
         | None =>
             Menu.open p (fst (Menu.dispatch p dom (Menu.keydown "Escape") s)) = false
         | Some _ =>
             Menu.dispatch p dom (Menu.keydown "Escape") s
             = (s, if Menu.onOpenChange p then [false] else [])
             /\ Menu.open p (fst (Menu.dispatch p dom (Menu.keydown "Escape") s)) = true
         end)).
Proof.
  split; intros p dom s Ho.
  - split; intros He.
    + assert (Hd : Dropdown.dispatch p dom (Dropdown.keydown "Escape") s = (s, [])).
      { simpl. rewrite Ho. unfold Dropdown.handleEscape. rewrite He. reflexivity. }
      rewrite Hd. split; [reflexivity|exact Ho].
    + destruct (Dropdown.controlledOpen p) as [b|] eqn:Hc.
      * assert (Hd : Dropdown.dispatch p dom (Dropdown.keydown "Escape") s
                     = (s, if Dropdown.onOpenChange p then [false] else [])).
        { simpl. rewrite Ho. unfold Dropdown.handleEscape. rewrite He, Ho. simpl.
          unfold Dropdown.handleClose, Dropdown.isControlled, Dropdown.emit.
          rewrite Hc. reflexivity. }
        rewrite Hd. split; [reflexivity|exact Ho].
      * pose proof (Dropdown_escape p dom s Hc Ho) as H.
        rewrite He in H. exact H.
  - split; intros He.
    + assert (Hd : Menu.dispatch p dom (Menu.keydown "Escape") s = (s, [])).
      { simpl. rewrite Ho. unfold Menu.handleEscape. rewrite He. reflexivity. }
      rewrite Hd. split; [reflexivity|exact Ho].
    + destruct (Menu.controlledOpen p) as [b|] eqn:Hc.
      * assert (Hd : Menu.dispatch p dom (Menu.keydown "Escape") s
                     = (s, if Menu.onOpenChange p then [false] else [])).
        { simpl. rewrite Ho. unfold Menu.handleEscape. rewrite He, Ho. simpl.
          unfold Menu.handleClose, Menu.isControlled, Menu.emit.
          rewrite Hc. reflexivity. }
        rewrite Hd. split; [reflexivity|exact Ho].
      * pose proof (Menu_escape p dom s Hc Ho) as H.
        rewrite He in H. exact H.
Qed.

Lemma C7_escape_closes_only_when_enabled_witness :
  Dropdown.open Dropdown.defaultProps
    (fst (Dropdown.dispatch Dropdown.defaultProps dropdownDom
            (Dropdown.keydown "Escape") openedDropdown)) = false
  /\ Dropdown.open noEscapeProps
    (fst (Dropdown.dispatch noEscapeProps dropdownDom
            (Dropdown.keydown "Escape") openedDropdown)) = true
  /\ (Dropdown.dispatch controlledProps dropdownDom (Dropdown.keydown "Escape") openedDropdown
      = (openedDropdown, [false])
      /\ Dropdown.open controlledProps
           (fst (Dropdown.dispatch controlledProps dropdownDom (Dropdown.keydown "Escape")
                   openedDropdown)) = true).
Proof.
  split; [|split].
  - exact (proj2 (proj1 C7_escape_closes_only_when_enabled
                    Dropdown.defaultProps dropdownDom openedDropdown eq_refl) eq_refl).
  - exact (proj2 (proj1 (proj1 C7_escape_closes_only_when_enabled
                    noEscapeProps dropdownDom openedDropdown eq_refl) eq_refl)).
  - exact (proj2 (proj1 C7_escape_closes_only_when_enabled
                    controlledProps dropdownDom openedDropdown eq_refl) eq_refl).
Defined.

(** ** The disabled tooltip *)

(** C10. With [disabled] set, a Tooltip whose trigger is [click] still
    toggles on a click, from hidden to visible and back, while one whose
    trigger is [hover] or [focus] ignores the pointer entering and the
    focus arriving: the state stays as it was and no timer is set. *)
Theorem C10_disabled_blocks_hover_and_focus_only :
  forall p s t,
    Tooltip.disabled p = true ->
    (Tooltip.trigger p = Tooltip.click ->
       forall n, n <> outside ->
       Tooltip.isVisible (fst (Tooltip.dispatch p (Tooltip.clicked n) (s, t)))
       = negb (Tooltip.isVisible s))
    /\ (Tooltip.trigger p = Tooltip.hover ->
       Tooltip.dispatch p Tooltip.mouseenter (s, t) = (s, t))
    /\ (Tooltip.trigger p = Tooltip.focus ->
       Tooltip.dispatch p Tooltip.focusin (s, t) = (s, t)).
Proof.
  intros p s t Hd. repeat split.
  - intros Ht n Hn.
    destruct n; try congruence; simpl; rewrite Ht; reflexivity.
  - intros Ht. simpl. unfold Tooltip.handleMouseEnter, Tooltip.showTooltip.
    rewrite Ht, Hd. reflexivity.
  - intros Ht. simpl. unfold Tooltip.handleFocus, Tooltip.showTooltip.
    rewrite Ht, Hd. reflexivity.
Qed.

Lemma C10_disabled_blocks_hover_and_focus_only_witness :
  Tooltip.isVisible
    (fst (Tooltip.dispatch disabledClickProps (Tooltip.clicked in_trigger)
            (Tooltip.init, idleTimers))) = true
  /\ Tooltip.dispatch disabledHoverProps Tooltip.mouseenter (Tooltip.init, idleTimers)
     = (Tooltip.init, idleTimers).
Proof.
  split.
  - refine (proj1 (C10_disabled_blocks_hover_and_focus_only
                     disabledClickProps Tooltip.init idleTimers eq_refl) eq_refl in_trigger _).
    discriminate.
  - exact (proj1 (proj2 (C10_disabled_blocks_hover_and_focus_only
                     disabledHoverProps Tooltip.init idleTimers eq_refl)) eq_refl).
Defined.

(** ** The first frame *)

(** C2, counterexample. The position cell is a [{ top, left }] from the
    start, not [null], and the content of a Dropdown that has just been
    opened is rendered at it: at (0, 0), before anything has been
    measured. *)
Lemma C2_first_frame_at_origin :
  Dropdown.position Dropdown.init = {| top := 0; left := 0 |}
  /\ Dropdown.render Dropdown.defaultProps
       (fst (Dropdown.dispatch Dropdown.defaultProps dropdownDom
               (Dropdown.click in_trigger) Dropdown.init))
     = Some {| top := 0; left := 0 |}.
Proof. split; reflexivity. Qed.

(** *** Before the first opening

    While an overlay is closed no handler and no effect writes its
    position cell, and the positioning effect has last run for a closed
    overlay. *)

Lemma Dropdown_closed_keeps_position p dom ev s :
  Dropdown.open p s = false ->
  Dropdown.position (fst (Dropdown.dispatch p dom ev s)) = Dropdown.position s.
Proof.
  intros Ho. destruct ev as [n|rt|key| |]; cbn [Dropdown.dispatch]; rewrite ?Ho;
    try reflexivity.
  - destruct n; try reflexivity.
    unfold Dropdown.handleToggle. cbn [fst].
    destruct (negb (Dropdown.isControlled p)); reflexivity.
  - unfold Dropdown.handleBlur, Dropdown.handleClose.
    destruct (_ && _)%bool; [|reflexivity].
    cbn [fst]. destruct (negb (Dropdown.isControlled p)); reflexivity.
Qed.

Lemma Menu_closed_keeps_position p dom ev s :
  Menu.open p s = false ->
  Menu.position (fst (Menu.dispatch p dom ev s)) = Menu.position s.
Proof.
  intros Ho. destruct ev as [n|rt|key| |]; cbn [Menu.dispatch]; rewrite ?Ho;
    try reflexivity.
  - destruct n; try reflexivity.
    unfold Menu.handleToggle. cbn [fst].
    destruct (negb (Menu.isControlled p)); reflexivity.
  - unfold Menu.handleBlur, Menu.handleClose.
    destruct (_ && _)%bool; [|reflexivity].
    cbn [fst]. destruct (negb (Menu.isControlled p)); reflexivity.
Qed.

Lemma Tooltip_timers_keep_position due : forall s,
  Tooltip.tooltipPos (fold_left (fun acc (_ : Tooltip.TimerId * Z) => Tooltip.setIsVisible true acc) due s)
  = Tooltip.tooltipPos s.
Proof.
  induction due as [|e due IH]; intros s; [reflexivity|].
  cbn [fold_left]. rewrite IH. reflexivity.
Qed.

Lemma Tooltip_show_keeps_position p s t :
  Tooltip.tooltipPos (fst (Tooltip.showTooltip p (s, t))) = Tooltip.tooltipPos s.
Proof.
  unfold Tooltip.showTooltip.
  destruct (Tooltip.disabled p); [reflexivity|].
  destruct (0 <? Tooltip.delay p)%Z; reflexivity.
Qed.

Lemma Tooltip_hide_keeps_position s t :
  Tooltip.tooltipPos (fst (Tooltip.hideTooltip (s, t))) = Tooltip.tooltipPos s.
Proof.
  unfold Tooltip.hideTooltip. destruct (Tooltip.timeoutRef s); reflexivity.
Qed.

(** No handler of a Tooltip writes [tooltipPos]: the effect alone does. *)
Lemma Tooltip_dispatch_keeps_position p ev s t :
  Tooltip.tooltipPos (fst (Tooltip.dispatch p ev (s, t))) = Tooltip.tooltipPos s.
Proof.
  destruct ev as [| |n| | |ms]; cbn [Tooltip.dispatch].
  - unfold Tooltip.handleMouseEnter.
    destruct (Tooltip.trigger p); try reflexivity. apply Tooltip_show_keeps_position.
  - unfold Tooltip.handleMouseLeave.
    destruct (Tooltip.trigger p); try reflexivity. apply Tooltip_hide_keeps_position.
  - destruct n; try reflexivity;
      unfold Tooltip.handleClick; destruct (Tooltip.trigger p); reflexivity.
  - unfold Tooltip.handleFocus.
    destruct (Tooltip.trigger p); try reflexivity. apply Tooltip_show_keeps_position.
  - unfold Tooltip.handleBlur.
    destruct (Tooltip.trigger p); try reflexivity. apply Tooltip_hide_keeps_position.
  - unfold Tooltip.advance. cbn [fst]. apply Tooltip_timers_keep_position.
Qed.

Lemma Dropdown_recompute_keeps_open p p' dom s :
  Dropdown.open p' (Dropdown.recompute p dom s) = Dropdown.open p' s.
Proof.
  unfold Dropdown.recompute, Dropdown.updatePosition.
  destruct dom as [[tr|] [cr|] w]; reflexivity.
Qed.

Lemma Tooltip_recompute_keeps_visible p dom s :
  Tooltip.isVisible (Tooltip.recompute p dom s) = Tooltip.isVisible s.
Proof.
  unfold Tooltip.recompute, Tooltip.updatePosition.
  destruct dom as [[tr|] [cr|] w]; reflexivity.
Qed.

(** The render that follows a closed one: its positioning effect runs when
    the overlay is open, and then measures. *)
Lemma Dropdown_commit_after_closed p dom i w :
  Dropdown.positionDeps i = Some false ->
  Dropdown.state (fst (Dropdown.commit p dom i w))
  = (if Dropdown.open p (Dropdown.state i)
     then Dropdown.recompute p dom (Dropdown.state i)
     else Dropdown.state i)
  /\ Dropdown.positionDeps (fst (Dropdown.commit p dom i w))
     = Some (Dropdown.open p (Dropdown.state i)).
Proof.
  intros Hd. unfold Dropdown.commit. rewrite Hd.
  destruct (Dropdown.changed2 _ _), (Dropdown.open p (Dropdown.state i));
    split; reflexivity.
Qed.

Lemma Tooltip_commit_after_hidden p dom i w :
  Tooltip.positionDeps i = Some false ->
  Tooltip.state (fst (Tooltip.commit p dom i w))
  = (if Tooltip.isVisible (Tooltip.state i)
     then Tooltip.recompute p dom (Tooltip.state i)
     else Tooltip.state i)
  /\ Tooltip.positionDeps (fst (Tooltip.commit p dom i w))
     = Some (Tooltip.isVisible (Tooltip.state i)).
Proof.
  intros Hd. unfold Tooltip.commit. rewrite Hd.
  destruct (Tooltip.isVisible (Tooltip.state i)); split; reflexivity.
Qed.

Lemma Dropdown_unopened_now p evs iw :
  DropdownUnopened p evs iw -> Dropdown.open p (Dropdown.state (fst iw)) = false.
Proof. destruct evs; intros H; exact (proj1 H). Qed.

Lemma Tooltip_unshown_now p evs x :
  TooltipUnshown p evs x -> Tooltip.isVisible (Tooltip.state (fst (fst x))) = false.
Proof. destruct evs; intros H; exact (proj1 H). Qed.

Lemma Menu_unopened_now p evs s :
  MenuUnopened p evs s -> Menu.open p s = false.
Proof. destruct evs; intros H; exact (proj1 H). Qed.

Lemma Dropdown_step_state p dom ev i w :
  Dropdown.positionDeps i = Some false ->
  let s := fst (Dropdown.dispatch p dom ev (Dropdown.state i)) in
  Dropdown.state (fst (Dropdown.step p dom ev (i, w)))
  = (if Dropdown.open p s then Dropdown.recompute p dom s else s)
  /\ Dropdown.positionDeps (fst (Dropdown.step p dom ev (i, w))) = Some (Dropdown.open p s).
Proof.
  intros Hd s. unfold Dropdown.step.
  apply (Dropdown_commit_after_closed p dom
           {| Dropdown.state := s;
              Dropdown.positionDeps := Dropdown.positionDeps i;
              Dropdown.positionCleanup := Dropdown.positionCleanup i;
              Dropdown.escapeDeps := Dropdown.escapeDeps i;
              Dropdown.escapeCleanup := Dropdown.escapeCleanup i |} w Hd).
Qed.

Lemma Tooltip_step_state p dom ev i t w :
  Tooltip.positionDeps i = Some false ->
  let s := fst (Tooltip.dispatch p ev (Tooltip.state i, t)) in
  Tooltip.state (fst (fst (Tooltip.step p dom ev (i, t, w))))
  = (if Tooltip.isVisible s then Tooltip.recompute p dom s else s)
  /\ Tooltip.positionDeps (fst (fst (Tooltip.step p dom ev (i, t, w))))
     = Some (Tooltip.isVisible s)
  /\ snd (fst (Tooltip.step p dom ev (i, t, w)))
     = snd (Tooltip.dispatch p ev (Tooltip.state i, t)).
Proof.
  intros Hd s. unfold Tooltip.step. subst s.
  destruct (Tooltip.dispatch p ev (Tooltip.state i, t)) as [s t'].
  pose proof (Tooltip_commit_after_hidden p dom
                {| Tooltip.state := s;
                   Tooltip.positionDeps := Tooltip.positionDeps i;
                   Tooltip.positionCleanup := Tooltip.positionCleanup i |} w Hd) as H.
  destruct (Tooltip.commit p dom _ w) as [i' w'].
  cbn [fst snd Tooltip.state] in *. destruct H as [H1 H2]. auto.
Qed.

(** Along a run in which the overlay stays closed the position cell holds
    what it was mounted with. *)
Lemma Dropdown_unopened_run p evs : forall iw,
  Dropdown.position (Dropdown.state (fst iw)) = origin ->
  Dropdown.positionDeps (fst iw) = Some false ->
  DropdownUnopened p evs iw ->
  Dropdown.position (Dropdown.state (fst (Dropdown.run p evs iw))) = origin
  /\ Dropdown.positionDeps (fst (Dropdown.run p evs iw)) = Some false
  /\ Dropdown.open p (Dropdown.state (fst (Dropdown.run p evs iw))) = false.
Proof.
  induction evs as [|[dom ev] evs IH]; intros [i w] Hp Hd Hu.
  - destruct Hu as [Ho _]. cbn in *. auto.
  - destruct Hu as [Ho Hu]. cbn [fst snd] in Hp, Hd, Ho, Hu.
    change (Dropdown.run p ((dom, ev) :: evs) (i, w))
      with (Dropdown.run p evs (Dropdown.step p dom ev (i, w))).
    pose proof (Dropdown_unopened_now _ _ _ Hu) as Ho'.
    destruct (Dropdown_step_state p dom ev i w Hd) as [Hs Hd'].
    cbv zeta in Hs, Hd'.
    destruct (Dropdown.open p (fst (Dropdown.dispatch p dom ev (Dropdown.state i)))) eqn:E.
    + rewrite Hs, Dropdown_recompute_keeps_open, E in Ho'. discriminate.
    + apply IH; [|exact Hd'|exact Hu].
      rewrite Hs, Dropdown_closed_keeps_position by exact Ho. exact Hp.
Qed.

Lemma Dropdown_mount_state p dom w :
  Dropdown.state (fst (Dropdown.mount p dom w))
  = (if Dropdown.open p Dropdown.init
     then Dropdown.recompute p dom Dropdown.init
     else Dropdown.init)
  /\ Dropdown.positionDeps (fst (Dropdown.mount p dom w))
     = Some (Dropdown.open p Dropdown.init).
Proof.
  unfold Dropdown.mount, Dropdown.commit.
  change (Dropdown.state Dropdown.unmounted) with Dropdown.init.
  destruct (Dropdown.open p Dropdown.init); split; reflexivity.
Qed.

Lemma Dropdown_mount_unopened p dom w evs :
  DropdownUnopened p evs (Dropdown.mount p dom w) ->
  Dropdown.position (Dropdown.state (fst (Dropdown.run p evs (Dropdown.mount p dom w)))) = origin
  /\ Dropdown.positionDeps (fst (Dropdown.run p evs (Dropdown.mount p dom w))) = Some false
  /\ Dropdown.open p (Dropdown.state (fst (Dropdown.run p evs (Dropdown.mount p dom w)))) = false.
Proof.
  intros Hu. pose proof (Dropdown_unopened_now _ _ _ Hu) as Ho.
  destruct (Dropdown_mount_state p dom w) as [Hs Hd].
  destruct (Dropdown.open p Dropdown.init) eqn:E.
  - rewrite Hs, Dropdown_recompute_keeps_open, E in Ho. discriminate.
  - apply Dropdown_unopened_run; [rewrite Hs; reflexivity|exact Hd|exact Hu].
Qed.

Lemma Menu_unopened_log p evs : forall s,
  Menu.position s = origin ->
  MenuUnopened p evs s ->
  Menu.position (fst (MenuItems.log p evs s)) = origin
  /\ Menu.open p (fst (MenuItems.log p evs s)) = false.
Proof.
  induction evs as [|[dom ev] evs IH]; intros s Hp Hu.
  - destruct Hu as [Ho _]. cbn. auto.
  - destruct Hu as [Ho Hu]. cbn [fst snd] in Hu.
    pose proof (Menu_closed_keeps_position p dom ev s Ho) as Hk.
    cbn [MenuItems.log].
    destruct (Menu.dispatch p dom ev s) as [s1 c1]. cbn [fst] in Hu, Hk.
    specialize (IH s1 (eq_trans Hk Hp) Hu).
    destruct (MenuItems.log p evs s1) as [s2 c2]. exact IH.
Qed.

Lemma Tooltip_unshown_run p evs : forall x,
  Tooltip.tooltipPos (Tooltip.state (fst (fst x))) = origin ->
  Tooltip.positionDeps (fst (fst x)) = Some false ->
  TooltipUnshown p evs x ->
  Tooltip.tooltipPos (Tooltip.state (fst (fst (Tooltip.runAll p evs x)))) = origin
  /\ Tooltip.positionDeps (fst (fst (Tooltip.runAll p evs x))) = Some false.
Proof.
  induction evs as [|[dom ev] evs IH]; intros [[i t] w] Hp Hd Hu.
  - cbn in *. auto.
  - destruct Hu as [Ho Hu]. cbn [fst snd] in Hp, Hd, Ho, Hu.
    change (Tooltip.runAll p ((dom, ev) :: evs) (i, t, w))
      with (Tooltip.runAll p evs (Tooltip.step p dom ev (i, t, w))).
    pose proof (Tooltip_unshown_now _ _ _ Hu) as Ho'.
    destruct (Tooltip_step_state p dom ev i t w Hd) as [Hs [Hd' _]].
    cbv zeta in Hs, Hd'.
    destruct (Tooltip.isVisible (fst (Tooltip.dispatch p ev (Tooltip.state i, t)))) eqn:E.
    + rewrite Hs, Tooltip_recompute_keeps_visible, E in Ho'. discriminate.
    + apply IH; [|exact Hd'|exact Hu].
      rewrite Hs, Tooltip_dispatch_keeps_position. exact Hp.
Qed.

Lemma Tooltip_mount_hidden p dom w :
  Tooltip.state (fst (Tooltip.mount p dom w)) = Tooltip.init
  /\ Tooltip.positionDeps (fst (Tooltip.mount p dom w)) = Some false.
Proof. split; reflexivity. Qed.

(** C2, as the code has it, for every Dropdown, Menu and Tooltip whatever
    its props: controlled or not, opened by a click, by hover, by focus or
    by the caller.

    - The position cell starts as [{ top: 0, left: 0 }]; it is a
      [{ top, left }] in every state, never [null].
    - The floating element is rendered whenever the overlay is open, at
      the stored position.
    - The first frame. An overlay mounted open (a controlled one) is
      rendered at [origin]. An overlay that has been closed since it was
      mounted, through any run of events, and that a render then finds
      open, is rendered at [origin] by that render: because the caller has
      changed the props to [p'], or because the handler of an event [ev]
      has set the state (a click, the timer of a hover or focus Tooltip
      that fires in a [tick], ...).
    - The next frame, in Dropdown and Tooltip. With the trigger and the
      floating element mounted, the effect that follows this first render
      measures them and stores the resolved position, and the overlay is
      rendered at it. *)
Theorem C2_first_frame_then_measured :
  (Dropdown.position Dropdown.init = origin
   /\ Menu.position Menu.init = origin
   /\ Tooltip.tooltipPos Tooltip.init = origin)
  /\ ((forall p s, Dropdown.render p s
                   = if Dropdown.open p s then Some (Dropdown.position s) else None)
      /\ (forall p s, Menu.render p s
                      = if Menu.open p s then Some (Menu.position s) else None)
      /\ (forall s, Tooltip.render s
                    = if Tooltip.isVisible s then Some (Tooltip.tooltipPos s) else None))
  (* Dropdown, the first frame *)
  /\ ((forall p,
         Dropdown.open p Dropdown.init = true ->
         Dropdown.render p Dropdown.init = Some origin)
      /\ (forall p dom0 w evs p',
            DropdownUnopened p evs (Dropdown.mount p dom0 w) ->
            let i := fst (Dropdown.run p evs (Dropdown.mount p dom0 w)) in
            Dropdown.open p' (Dropdown.state i) = true ->
            Dropdown.render p' (Dropdown.state i) = Some origin)
      /\ (forall p dom0 w evs dom ev,
            DropdownUnopened p evs (Dropdown.mount p dom0 w) ->
            let i := fst (Dropdown.run p evs (Dropdown.mount p dom0 w)) in
            let s := fst (Dropdown.dispatch p dom ev (Dropdown.state i)) in
            Dropdown.open p s = true ->
            Dropdown.render p s = Some origin))
  (* Menu, the first frame *)
  /\ ((forall p,
         Menu.open p Menu.init = true ->
         Menu.render p Menu.init = Some origin)
      /\ (forall p evs p',
            MenuUnopened p evs Menu.init ->
            let s0 := fst (MenuItems.log p evs Menu.init) in
            Menu.open p' s0 = true ->
            Menu.render p' s0 = Some origin)
      /\ (forall p evs dom ev,
            MenuUnopened p evs Menu.init ->
            let s0 := fst (MenuItems.log p evs Menu.init) in
            let s := fst (Menu.dispatch p dom ev s0) in
            Menu.open p s = true ->
            Menu.render p s = Some origin))
  (* Tooltip, the first frame *)
  /\ (forall p dom0 w t evs ev,
        let x0 := (fst (Tooltip.mount p dom0 w), t, snd (Tooltip.mount p dom0 w)) in
        TooltipUnshown p evs x0 ->
        let x := Tooltip.runAll p evs x0 in
        let s := fst (Tooltip.dispatch p ev (Tooltip.state (fst (fst x)), snd (fst x))) in
        Tooltip.isVisible s = true ->
        Tooltip.render s = Some origin)
  (* Dropdown, the next frame *)
  /\ ((forall p tr cr sc w,
         let dom := {| Dropdown.triggerRef := Some tr; Dropdown.contentRef := Some cr;
                       Dropdown.scroll := sc |} in
         Dropdown.open p Dropdown.init = true ->
         Dropdown.render p (Dropdown.state (fst (Dropdown.mount p dom w)))
         = Some (Dropdown.computePosition (Dropdown.placement p) (Dropdown.align p)
                   (Dropdown.offset p) tr cr sc))
      /\ (forall p dom0 w evs p' tr cr sc,
            DropdownUnopened p evs (Dropdown.mount p dom0 w) ->
            let iw := Dropdown.run p evs (Dropdown.mount p dom0 w) in
            let dom := {| Dropdown.triggerRef := Some tr; Dropdown.contentRef := Some cr;
                          Dropdown.scroll := sc |} in
            Dropdown.open p' (Dropdown.state (fst iw)) = true ->
            Dropdown.render p' (Dropdown.state (fst (Dropdown.commit p' dom (fst iw) (snd iw))))
            = Some (Dropdown.computePosition (Dropdown.placement p') (Dropdown.align p')
                      (Dropdown.offset p') tr cr sc))
      /\ (forall p dom0 w evs tr cr sc ev,
            DropdownUnopened p evs (Dropdown.mount p dom0 w) ->
            let iw := Dropdown.run p evs (Dropdown.mount p dom0 w) in
            let dom := {| Dropdown.triggerRef := Some tr; Dropdown.contentRef := Some cr;
                          Dropdown.scroll := sc |} in
            Dropdown.open p (fst (Dropdown.dispatch p dom ev (Dropdown.state (fst iw)))) = true ->
            Dropdown.render p (Dropdown.state (fst (Dropdown.step p dom ev iw)))
            = Some (Dropdown.computePosition (Dropdown.placement p) (Dropdown.align p)
                      (Dropdown.offset p) tr cr sc)))
  (* Tooltip, the next frame *)
  /\ (forall p dom0 w t evs tr cr sc ev,
        let x0 := (fst (Tooltip.mount p dom0 w), t, snd (Tooltip.mount p dom0 w)) in
        TooltipUnshown p evs x0 ->
        let x := Tooltip.runAll p evs x0 in
        let dom := {| Tooltip.triggerRef := Some tr; Tooltip.tooltipRef := Some cr;
                      Tooltip.scroll := sc |} in
        Tooltip.isVisible
          (fst (Tooltip.dispatch p ev (Tooltip.state (fst (fst x)), snd (fst x)))) = true ->
        Tooltip.render (Tooltip.state (fst (fst (Tooltip.step p dom ev x))))
        = Some (Tooltip.computePosition (Tooltip.positionProp p) (Tooltip.align p)
                  (Tooltip.offset p) tr cr sc)).
Proof.
  split; [repeat split|].
  split; [repeat split|].
  split; [|split; [|split; [|split]]].
  - (* Dropdown, the first frame *)
    split; [|split].
    + intros p Ho. unfold Dropdown.render. rewrite Ho. reflexivity.
    + intros p dom0 w evs p' Hu i Ho. subst i.
      destruct (Dropdown_mount_unopened p dom0 w evs Hu) as [Hp _].
      unfold Dropdown.render. rewrite Ho, Hp. reflexivity.
    + intros p dom0 w evs dom ev Hu i s Ho. subst s i.
      destruct (Dropdown_mount_unopened p dom0 w evs Hu) as [Hp [_ Hc]].
      unfold Dropdown.render.
      rewrite Ho, (Dropdown_closed_keeps_position p dom ev _ Hc), Hp.
      reflexivity.
  - (* Menu, the first frame *)
    split; [|split].
    + intros p Ho. unfold Menu.render. rewrite Ho. reflexivity.
    + intros p evs p' Hu s0 Ho. subst s0.
      destruct (Menu_unopened_log p evs Menu.init eq_refl Hu) as [Hp _].
      unfold Menu.render. rewrite Ho, Hp. reflexivity.
    + intros p evs dom ev Hu s0 s Ho. subst s s0.
      destruct (Menu_unopened_log p evs Menu.init eq_refl Hu) as [Hp Hc].
      unfold Menu.render.
      rewrite Ho, (Menu_closed_keeps_position p dom ev _ Hc), Hp.
      reflexivity.
  - (* Tooltip, the first frame *)
    intros p dom0 w t evs ev x0 Hu x s Hv. subst s x.
    destruct (Tooltip_unshown_run p evs x0 eq_refl eq_refl Hu) as [Hp _].
    unfold Tooltip.render.
    rewrite Hv, Tooltip_dispatch_keeps_position, Hp. reflexivity.
  - (* Dropdown, the next frame *)
    split; [|split].
    + intros p tr cr sc w dom Ho.
      destruct (Dropdown_mount_state p dom w) as [Hs _].
      rewrite Hs, Ho. unfold Dropdown.render.
      rewrite Dropdown_recompute_keeps_open, Ho. reflexivity.
    + intros p dom0 w evs p' tr cr sc Hu iw dom Ho.
      destruct (Dropdown_mount_unopened p dom0 w evs Hu) as [_ [Hd _]].
      destruct (Dropdown_commit_after_closed p' dom (fst iw) (snd iw) Hd) as [Hs _].
      rewrite Hs, Ho. unfold Dropdown.render.
      rewrite Dropdown_recompute_keeps_open, Ho. reflexivity.
    + intros p dom0 w evs tr cr sc ev Hu iw dom Ho.
      destruct (Dropdown_mount_unopened p dom0 w evs Hu) as [_ [Hd _]].
      fold iw in Hd. clearbody iw. destruct iw as [i w1]. cbn [fst] in Ho, Hd.
      destruct (Dropdown_step_state p dom ev i w1 Hd) as [Hs _]. cbv zeta in Hs.
      rewrite Hs, Ho. unfold Dropdown.render.
      rewrite Dropdown_recompute_keeps_open, Ho. reflexivity.
  - (* Tooltip, the next frame *)
    intros p dom0 w t evs tr cr sc ev x0 Hu x dom Hv.
    destruct (Tooltip_unshown_run p evs x0 eq_refl eq_refl Hu) as [_ Hd].
    fold x in Hd. clearbody x. destruct x as [[i t1] w1]. cbn [fst snd] in Hv, Hd.
    destruct (Tooltip_step_state p dom ev i t1 w1 Hd) as [Hs _]. cbv zeta in Hs.
    rewrite Hs, Hv. unfold Tooltip.render.
    rewrite Tooltip_recompute_keeps_visible, Hv. reflexivity.
Qed.

Lemma C2_first_frame_then_measured_witness :
  (* a default Tooltip (hover, 200 ms): the pointer enters, the timer fires *)
  (let x := Tooltip.runAll Tooltip.defaultProps [(tooltipDom, Tooltip.mouseenter)]
              (fst (Tooltip.mount Tooltip.defaultProps tooltipDom emptyPage), idleTimers,
               snd (Tooltip.mount Tooltip.defaultProps tooltipDom emptyPage)) in
   Tooltip.render
     (fst (Tooltip.dispatch Tooltip.defaultProps (Tooltip.tick 200)
             (Tooltip.state (fst (fst x)), snd (fst x)))) = Some origin
   /\ Tooltip.render
        (Tooltip.state (fst (fst (Tooltip.step Tooltip.defaultProps tooltipDom
                                    (Tooltip.tick 200) x))))
      = Some {| top := 52; left := 85 |})
  (* a focus Tooltip *)
  /\ (let x := Tooltip.runAll focusProps [(tooltipDom, Tooltip.focusin)]
                 (fst (Tooltip.mount focusProps tooltipDom emptyPage), idleTimers,
                  snd (Tooltip.mount focusProps tooltipDom emptyPage)) in
      Tooltip.render
        (fst (Tooltip.dispatch focusProps (Tooltip.tick 200)
                (Tooltip.state (fst (fst x)), snd (fst x)))) = Some origin)
  (* a Dropdown mounted with [open = true] *)
  /\ (Dropdown.render heldOpenProps Dropdown.init = Some origin
      /\ Dropdown.render heldOpenProps
           (Dropdown.state (fst (Dropdown.mount heldOpenProps dropdownDom emptyPage)))
         = Some {| top := 128; left := 100 |})
  (* a Dropdown mounted with [open = false], clicked, then opened by the caller *)
  /\ (let iw := Dropdown.run heldShutProps [(dropdownDom, Dropdown.click in_trigger)]
                  (Dropdown.mount heldShutProps dropdownDom emptyPage) in
      Dropdown.render controlledProps (Dropdown.state (fst iw)) = Some origin
      /\ Dropdown.render controlledProps
           (Dropdown.state (fst (Dropdown.commit controlledProps dropdownDom (fst iw) (snd iw))))
         = Some {| top := 128; left := 100 |})
  (* a default Dropdown, opened by a click on its trigger *)
  /\ (let iw := Dropdown.run Dropdown.defaultProps []
                  (Dropdown.mount Dropdown.defaultProps dropdownDom emptyPage) in
      Dropdown.render Dropdown.defaultProps
        (fst (Dropdown.dispatch Dropdown.defaultProps dropdownDom (Dropdown.click in_trigger)
                (Dropdown.state (fst iw)))) = Some origin
      /\ Dropdown.render Dropdown.defaultProps
           (Dropdown.state (fst (Dropdown.step Dropdown.defaultProps dropdownDom
                                   (Dropdown.click in_trigger) iw)))
         = Some {| top := 128; left := 100 |}).
Proof.
  split; [split|split; [|split; [split|split; [split|split]]]].
  - refine (proj1 (proj2 (proj2 (proj2 (proj2 C2_first_frame_then_measured))))
              Tooltip.defaultProps tooltipDom emptyPage idleTimers
              [(tooltipDom, Tooltip.mouseenter)] (Tooltip.tick 200) _ _).
    + vm_compute. repeat split.
    + reflexivity.
  - refine (proj2 (proj2 (proj2 (proj2 (proj2 (proj2 C2_first_frame_then_measured)))))
              Tooltip.defaultProps tooltipDom emptyPage idleTimers
              [(tooltipDom, Tooltip.mouseenter)] someRect someBox noScroll
              (Tooltip.tick 200) _ _).
    + vm_compute. repeat split.
    + reflexivity.
  - refine (proj1 (proj2 (proj2 (proj2 (proj2 C2_first_frame_then_measured))))
              focusProps tooltipDom emptyPage idleTimers
              [(tooltipDom, Tooltip.focusin)] (Tooltip.tick 200) _ _).
    + vm_compute. repeat split.
    + reflexivity.
  - exact (proj1 (proj1 (proj2 (proj2 C2_first_frame_then_measured)))
             heldOpenProps eq_refl).
  - exact (proj1 (proj1 (proj2 (proj2 (proj2 (proj2 (proj2 C2_first_frame_then_measured))))))
             heldOpenProps someRect someBox noScroll emptyPage eq_refl).
  - refine (proj1 (proj2 (proj1 (proj2 (proj2 C2_first_frame_then_measured))))
              heldShutProps dropdownDom emptyPage
              [(dropdownDom, Dropdown.click in_trigger)] controlledProps _ eq_refl).
    vm_compute. repeat split.
  - refine (proj1 (proj2 (proj1 (proj2 (proj2 (proj2 (proj2 (proj2
                     C2_first_frame_then_measured)))))))
              heldShutProps dropdownDom emptyPage
              [(dropdownDom, Dropdown.click in_trigger)] controlledProps
              someRect someBox noScroll _ eq_refl).
    vm_compute. repeat split.
  - refine (proj2 (proj2 (proj1 (proj2 (proj2 C2_first_frame_then_measured))))
              Dropdown.defaultProps dropdownDom emptyPage []
              dropdownDom (Dropdown.click in_trigger) _ eq_refl).
    vm_compute. repeat split.
  - refine (proj2 (proj2 (proj1 (proj2 (proj2 (proj2 (proj2 (proj2
                     C2_first_frame_then_measured)))))))
              Dropdown.defaultProps dropdownDom emptyPage []
              someRect someBox noScroll (Dropdown.click in_trigger) _ eq_refl).
    vm_compute. repeat split.
Defined.

(** ** A click outside *)

(** C3, counterexample. An open Dropdown with [closeOnBlur] off: the focus
    leaves it for nowhere, then a click lands outside its root. It is
    still open. *)
Lemma C3_dropdown_stays_open_on_outside_click :
  Dropdown.open noBlurProps openedDropdown = true
  /\ Dropdown.open noBlurProps
       (fst (Dropdown.dispatch noBlurProps dropdownDom (Dropdown.click outside)
               (fst (Dropdown.dispatch noBlurProps dropdownDom (Dropdown.blur None)
                       openedDropdown))))
     = true.
Proof. split; reflexivity. Qed.

Lemma Dropdown_blur_outside p dom s rt :
  Dropdown.controlledOpen p = None ->
  Dropdown.open p s = true ->
  rt = None \/ rt = Some outside ->
  Dropdown.open p (fst (Dropdown.dispatch p dom (Dropdown.blur rt) s))
  = negb (Dropdown.closeOnBlur p).
Proof.
  intros Hc Ho Hrt. simpl. unfold Dropdown.handleBlur.
  assert (Hin : (match rt with Some n => Dropdown.contains n | None => false end) = false)
    by (destruct Hrt; subst; reflexivity).
  rewrite Hin.
  destruct (Dropdown.closeOnBlur p); simpl.
  - unfold Dropdown.isControlled, Dropdown.open. rewrite Hc. reflexivity.
  - exact Ho.
Qed.

Lemma Menu_blur_outside p dom s rt :
  Menu.controlledOpen p = None ->
  Menu.open p s = true ->
  rt = None \/ rt = Some outside ->
  Menu.open p (fst (Menu.dispatch p dom (Menu.blur rt) s))
  = negb (Menu.closeOnBlur p).
Proof.
  intros Hc Ho Hrt. simpl. unfold Menu.handleBlur.
  assert (Hin : (match rt with Some n => Menu.contains n | None => false end) = false)
    by (destruct Hrt; subst; reflexivity).
  rewrite Hin.
  destruct (Menu.closeOnBlur p); simpl.
  - unfold Menu.isControlled, Menu.open. rewrite Hc. reflexivity.
  - exact Ho.
Qed.

(** C3, as the code has it. An open DatePicker closes on a mouse press
    whose target lies outside its calendar, the floating element. Dropdown
    and Menu register no listener for clicks outside: such a click reaches
    no handler and leaves the state as it is; what closes them when the
    user leaves is the blur of the root, and only when [closeOnBlur] is
    set. A click outside a Tooltip reaches no handler either. *)
Theorem C3_click_outside_paths :
  (forall p s n,
      DatePicker.isOpen s = true -> n <> in_floating ->
      DatePicker.isOpen (DatePicker.dispatch p (Some tt) (DatePicker.mousedown n) s) = false)
  /\ (forall p dom s, Dropdown.dispatch p dom (Dropdown.click outside) s = (s, []))
  /\ (forall p dom s, Menu.dispatch p dom (Menu.click outside) s = (s, []))
  /\ (forall p st, Tooltip.dispatch p (Tooltip.clicked outside) st = st)
  /\ (forall p dom s rt,
      Dropdown.controlledOpen p = None -> Dropdown.open p s = true ->
      rt = None \/ rt = Some outside ->
      Dropdown.open p (fst (Dropdown.dispatch p dom (Dropdown.blur rt) s))
      = negb (Dropdown.closeOnBlur p))
  /\ (forall p dom s rt,
      Menu.controlledOpen p = None -> Menu.open p s = true ->
      rt = None \/ rt = Some outside ->
      Menu.open p (fst (Menu.dispatch p dom (Menu.blur rt) s))
      = negb (Menu.closeOnBlur p)).
Proof.
  split; [|split; [|split; [|split; [|split]]]].
  - intros p s n Ho Hn. simpl. rewrite Ho.
    destruct n; try congruence; reflexivity.
  - reflexivity.
  - reflexivity.
  - reflexivity.
  - intros; apply Dropdown_blur_outside; assumption.
  - intros; apply Menu_blur_outside; assumption.
Qed.

Lemma C3_click_outside_paths_witness :
  DatePicker.isOpen
    (DatePicker.dispatch {| DatePicker.disabled := false |} (Some tt)
       (DatePicker.mousedown outside) {| DatePicker.isOpen := true |}) = false
  /\ Dropdown.open Dropdown.defaultProps
       (fst (Dropdown.dispatch Dropdown.defaultProps dropdownDom (Dropdown.blur None)
               openedDropdown)) = false.
Proof.
  split.
  - refine (proj1 C3_click_outside_paths {| DatePicker.disabled := false |}
              {| DatePicker.isOpen := true |} outside eq_refl _).
    discriminate.
  - exact (proj1 (proj2 (proj2 (proj2 (proj2 C3_click_outside_paths))))
             Dropdown.defaultProps dropdownDom openedDropdown None
             eq_refl eq_refl (or_introl eq_refl)).
Defined.

(** ** Hover and its delay *)

Lemma trace_app p a b st :
  Tooltip.trace p (a ++ b) st = Tooltip.trace p a st ++ Tooltip.trace p b (Tooltip.run p a st).
Proof.
  revert st; induction a as [|ev a IH]; intros st; simpl; [reflexivity|].
  rewrite IH. reflexivity.
Qed.

Lemma filter_all {A} (f : A -> bool) (l : list A) :
  (forall x, In x l -> f x = true) -> filter f l = l.
Proof.
  induction l as [|x l IH]; intros H; simpl; [reflexivity|].
  rewrite (H x (or_introl eq_refl)), IH; [reflexivity|].
  intros y Hy; apply H; right; exact Hy.
Qed.

Lemma filter_none {A} (f : A -> bool) (l : list A) :
  (forall x, In x l -> f x = false) -> filter f l = [].
Proof.
  induction l as [|x l IH]; intros H; simpl; [reflexivity|].
  rewrite (H x (or_introl eq_refl)). apply IH.
  intros y Hy; apply H; right; exact Hy.
Qed.

Lemma fired_visible {A} (due : list A) s :
  Tooltip.isVisible (fold_left (fun acc _ => Tooltip.setIsVisible true acc) due s)
  = match due with [] => Tooltip.isVisible s | _ => true end.
Proof.
  destruct due as [|x due]; [reflexivity|]. simpl.
  generalize (Tooltip.setIsVisible true s), (eq_refl : Tooltip.isVisible (Tooltip.setIsVisible true s) = true).
  induction due as [|y due IH]; intros s0 H0; simpl; [exact H0|].
  apply IH. reflexivity.
Qed.

Lemma hover_ignores p ev st :
  Tooltip.trigger p = Tooltip.hover ->
  isPointer ev = false ->
  (forall ms, ev <> Tooltip.tick ms) ->
  Tooltip.dispatch p ev st = st.
Proof.
  intros Ht Hp Hk. destruct st as [s t].
  destruct ev as [| |n| | |ms]; simpl in *; try discriminate.
  - destruct n; unfold Tooltip.handleClick; try rewrite Ht; reflexivity.
  - unfold Tooltip.handleFocus. rewrite Ht. reflexivity.
  - unfold Tooltip.handleBlur. rewrite Ht. reflexivity.
  - exfalso. apply (Hk ms). reflexivity.
Qed.

Lemma tick_nothing_due ms s t :
  (forall e, In e (Tooltip.pending t) -> (Tooltip.now t + Z.of_N ms < snd e)%Z) ->
  Tooltip.advance ms (s, t)
  = (s, {| Tooltip.now := (Tooltip.now t + Z.of_N ms)%Z;
           Tooltip.nextTimer := Tooltip.nextTimer t;
           Tooltip.pending := Tooltip.pending t |}).
Proof.
  intros H. unfold Tooltip.advance.
  rewrite (@filter_none _ (Tooltip.isDue (Tooltip.now t + Z.of_N ms))).
  - rewrite filter_all; [reflexivity|].
    intros e He. unfold Tooltip.isDue. specialize (H e He).
    apply Bool.negb_true_iff. apply Z.leb_gt. exact H.
  - intros e He. unfold Tooltip.isDue. specialize (H e He).
    apply Z.leb_gt. exact H.
Qed.

Lemma armed_during p evs : forall st D,
  Tooltip.trigger p = Tooltip.hover ->
  forallb (fun ev => negb (isPointer ev)) evs = true ->
  armed D st ->
  (Tooltip.now (snd st) + elapsed evs < D)%Z ->
  Forall hidden (Tooltip.trace p evs st) /\ armed D (Tooltip.run p evs st).
Proof.
  induction evs as [|ev evs IH]; intros [s t] D Ht Hev Ha Hd.
  - split; [constructor|exact Ha].
  - simpl in Hev. apply andb_true_iff in Hev. destruct Hev as [Hp Hev].
    apply Bool.negb_true_iff in Hp.
    assert (Hstep : armed D (Tooltip.dispatch p ev (s, t))
                    /\ (Tooltip.now (snd (Tooltip.dispatch p ev (s, t))) + elapsed evs < D)%Z).
    { destruct ev as [| |n| | |ms]; try discriminate.
      - rewrite hover_ignores by (auto; discriminate). split; [exact Ha|exact Hd].
      - rewrite hover_ignores by (auto; discriminate). split; [exact Ha|exact Hd].
      - rewrite hover_ignores by (auto; discriminate). split; [exact Ha|exact Hd].
      - simpl in Hd.
        change (Tooltip.dispatch p (Tooltip.tick ms) (s, t)) with (Tooltip.advance ms (s, t)).
        pose proof (N2Z.is_nonneg ms) as Hms.
        assert (Hel : (0 <= elapsed evs)%Z).
        { clear. induction evs as [|e evs IH]; simpl; [lia|].
          destruct e; try exact IH. pose proof (N2Z.is_nonneg ms). lia. }
        destruct Ha as [Hv Hpend]. simpl in Hv, Hpend.
        rewrite tick_nothing_due.
        + split; [split; [exact Hv|exact Hpend]|simpl; lia].
        + intros e He. destruct (Hpend e He) as [_ Hle]. lia. }
    destruct Hstep as [Ha' Hd'].
    destruct (IH (Tooltip.dispatch p ev (s, t)) D Ht Hev Ha' Hd') as [Htr Hfin].
    split; [|exact Hfin].
    simpl. constructor; [exact (proj1 Ha')|exact Htr].
Qed.

Lemma leave_disarms p D st :
  Tooltip.trigger p = Tooltip.hover ->
  armed D st ->
  idle (Tooltip.dispatch p Tooltip.mouseleave st).
Proof.
  intros Ht [Hv Hpend]. destruct st as [s t]. simpl in *.
  unfold Tooltip.handleMouseLeave, Tooltip.hideTooltip. rewrite Ht.
  destruct (Tooltip.timeoutRef s) as [id|] eqn:Hr.
  - split; [reflexivity|]. simpl.
    apply filter_none. intros e He.
    destruct (Hpend e He) as [Hid _]. inversion Hid; subst.
    rewrite Pos.eqb_refl. reflexivity.
  - split; [reflexivity|]. simpl.
    destruct (Tooltip.pending t) as [|e l]; [reflexivity|].
    destruct (Hpend e (or_introl eq_refl)) as [Hid _]. discriminate.
Qed.

Lemma idle_after p evs : forall st,
  Tooltip.trigger p = Tooltip.hover ->
  forallb (fun ev => negb (isEnter ev)) evs = true ->
  idle st ->
  Forall hidden (Tooltip.trace p evs st) /\ idle (Tooltip.run p evs st).
Proof.
  induction evs as [|ev evs IH]; intros [s t] Ht Hev Hi.
  - split; [constructor|exact Hi].
  - simpl in Hev. apply andb_true_iff in Hev. destruct Hev as [Hp Hev].
    apply Bool.negb_true_iff in Hp.
    assert (Hstep : idle (Tooltip.dispatch p ev (s, t))).
    { destruct ev as [| |n| | |ms]; try discriminate.
      - apply leave_disarms with (D := 0%Z); [exact Ht|].
        destruct Hi as [Hv Hpe]. split; [exact Hv|].
        simpl in *. rewrite Hpe. intros e [].
      - rewrite hover_ignores by (auto; discriminate). exact Hi.
      - rewrite hover_ignores by (auto; discriminate). exact Hi.
      - rewrite hover_ignores by (auto; discriminate). exact Hi.
      - destruct Hi as [Hv Hpe]. simpl in Hv, Hpe.
        change (Tooltip.dispatch p (Tooltip.tick ms) (s, t)) with (Tooltip.advance ms (s, t)).
        rewrite tick_nothing_due by (rewrite Hpe; intros e []).
        split; [exact Hv|exact Hpe]. }
    destruct (IH (Tooltip.dispatch p ev (s, t)) Ht Hev Hstep) as [Htr Hfin].
    split; [|exact Hfin].
    simpl. constructor; [exact (proj1 Hstep)|exact Htr].
Qed.

Lemma enter_arms p s t :
  Tooltip.trigger p = Tooltip.hover ->
  (0 < Tooltip.delay p)%Z ->
  idle (s, t) ->
  armed (Tooltip.now t + Tooltip.delay p) (Tooltip.dispatch p Tooltip.mouseenter (s, t))
  /\ Tooltip.now (snd (Tooltip.dispatch p Tooltip.mouseenter (s, t))) = Tooltip.now t.
Proof.
  intros Ht Hd [Hv Hpe]. simpl in *.
  unfold Tooltip.handleMouseEnter, Tooltip.showTooltip. rewrite Ht.
  destruct (Tooltip.disabled p).
  - split; [|reflexivity]. split; [exact Hv|]. simpl. rewrite Hpe. intros e [].
  - apply Z.ltb_lt in Hd. rewrite Hd. simpl.
    split; [|reflexivity]. split; [exact Hv|]. simpl. rewrite Hpe. simpl.
    intros e [He|[]]. subst e. simpl. split; [reflexivity|lia].
Qed.

Lemma enter_ripens p s t :
  Tooltip.trigger p = Tooltip.hover ->
  Tooltip.disabled p = false ->
  (0 < Tooltip.delay p)%Z ->
  ripening (Tooltip.now t + Tooltip.delay p) (Tooltip.dispatch p Tooltip.mouseenter (s, t))
  /\ Tooltip.now (snd (Tooltip.dispatch p Tooltip.mouseenter (s, t))) = Tooltip.now t.
Proof.
  intros Ht Hdis Hd. simpl.
  unfold Tooltip.handleMouseEnter, Tooltip.showTooltip. rewrite Ht, Hdis.
  pose proof Hd as Hd'. apply Z.ltb_lt in Hd'. rewrite Hd'. simpl.
  split; [|reflexivity]. right. simpl. split; [|lia].
  exists (Tooltip.nextTimer t). apply in_or_app. right. left. reflexivity.
Qed.

Lemma ripening_opens p evs : forall st D,
  Tooltip.trigger p = Tooltip.hover ->
  forallb (fun ev => negb (isPointer ev)) evs = true ->
  ripening D st ->
  (D <= Tooltip.now (snd st) + elapsed evs)%Z ->
  Tooltip.isVisible (fst (Tooltip.run p evs st)) = true.
Proof.
  induction evs as [|ev evs IH]; intros [s t] D Ht Hev Hr Hd.
  - unfold ripening in Hr. cbn [fst snd elapsed Tooltip.run fold_left] in *.
    destruct Hr as [Hv|[_ Hlt]]; [exact Hv|lia].
  - simpl in Hev. apply andb_true_iff in Hev. destruct Hev as [Hp Hev].
    apply Bool.negb_true_iff in Hp.
    change (Tooltip.run p (ev :: evs) (s, t))
      with (Tooltip.run p evs (Tooltip.dispatch p ev (s, t))).
    apply IH with (D := D); [exact Ht|exact Hev| |].
    + destruct ev as [| |n| | |ms]; try discriminate;
        try (rewrite hover_ignores by (auto; discriminate); exact Hr).
      change (Tooltip.dispatch p (Tooltip.tick ms) (s, t)) with (Tooltip.advance ms (s, t)).
      unfold Tooltip.advance.
      unfold ripening in *. cbn [fst snd] in *.
      destruct Hr as [Hv|[[id Hin] Hlt]].
      * left. rewrite fired_visible.
        destruct (filter _ _); [exact Hv|reflexivity].
      * destruct (Z_le_gt_dec D (Tooltip.now t + Z.of_N ms)) as [Hle|Hgt].
        -- left. rewrite fired_visible.
           assert (Hdue : In (id, D)
                            (filter (Tooltip.isDue (Tooltip.now t + Z.of_N ms)) (Tooltip.pending t))).
           { apply filter_In. split; [exact Hin|].
             unfold Tooltip.isDue. cbn [snd]. apply Z.leb_le. exact Hle. }
           destruct (filter _ _); [destruct Hdue|reflexivity].
        -- right. cbn [Tooltip.pending Tooltip.now]. split; [|lia]. exists id.
           apply filter_In. split; [exact Hin|].
           unfold Tooltip.isDue. cbn [snd].
           apply Bool.negb_true_iff. apply Z.leb_gt. lia.
    + destruct ev as [| |n| | |ms]; try discriminate;
        try (rewrite hover_ignores by (auto; discriminate); exact Hd).
      cbn [elapsed Tooltip.dispatch Tooltip.advance snd Tooltip.now] in *. lia.
Qed.

(** C4, on the code. [showTooltip] stores the timer it starts in
    [timeoutRef] and does not clear the timer the cell held; [hideTooltip]
    clears the timer of the cell and no other. A default Tooltip
    ([trigger = hover], [delay = 200]), just mounted: [handleMouseEnter]
    is called, 50 ms later it is called again, and 50 ms later, 100 ms
    after the first enter, [handleMouseLeave] is called. The leave cancels
    the second timer; the first is out of its reach and fires at 200 ms:
    the tooltip is visible 100 ms after the pointer has left. The list
    gives the visibility after each of the six events. *)
Lemma C4_second_enter_opens_after_leave :
  Tooltip.trigger Tooltip.defaultProps = Tooltip.hover
  /\ Tooltip.delay Tooltip.defaultProps = 200%Z
  /\ map (fun st => Tooltip.isVisible (fst st))
       (Tooltip.trace Tooltip.defaultProps
          [Tooltip.mouseenter; Tooltip.tick 50; Tooltip.mouseenter; Tooltip.tick 50;
           Tooltip.mouseleave; Tooltip.tick 100]
          (Tooltip.init, idleTimers))
     = [false; false; false; false; false; true].
Proof. repeat split; reflexivity. Qed.

(** ** Listeners *)

Lemma Listener_eqb_eq a b : Listener_eqb a b = true <-> a = b.
Proof.
  destruct a as [ta ya ca pa], b as [tb yb cb pb]. unfold Listener_eqb. simpl.
  split.
  - intros H. repeat (apply andb_true_iff in H; destruct H as [H ?]).
    apply Nat.eqb_eq in H1. apply Bool.eqb_prop in H0.
    destruct ta, tb; try discriminate; destruct ya, yb; try discriminate; subst; reflexivity.
  - intros H. inversion H; subst.
    rewrite Nat.eqb_refl, Bool.eqb_reflx.
    destruct tb, yb; reflexivity.
Qed.

Lemma addEventListener_fresh l ls :
  ~ In l ls -> addEventListener l ls = ls ++ [l].
Proof.
  intros Hn. unfold addEventListener.
  destruct (existsb (Listener_eqb l) ls) eqn:He; [|reflexivity].
  apply existsb_exists in He. destruct He as [x [Hx Heq]].
  apply Listener_eqb_eq in Heq. subst x. contradiction.
Qed.

Lemma removeEventListener_fresh l base rest :
  ~ In l base -> removeEventListener l (base ++ l :: rest) = base ++ rest.
Proof.
  induction base as [|x base IH]; intros Hn; simpl.
  - assert (H : Listener_eqb l l = true) by (apply Listener_eqb_eq; reflexivity).
    rewrite H. reflexivity.
  - destruct (Listener_eqb l x) eqn:He.
    + apply Listener_eqb_eq in He. subst x. exfalso. apply Hn. left. reflexivity.
    + rewrite IH; [reflexivity|]. intros Hin. apply Hn. right. exact Hin.
Qed.

Lemma allocated_fresh n l ls :
  Forall (fun x => callback x < n) ls -> n <= callback l -> ~ In l ls.
Proof.
  intros Hall Hle Hin. rewrite Forall_forall in Hall.
  specialize (Hall l Hin). lia.
Qed.

Lemma allocated_mono n m ls :
  Forall (fun x => callback x < n) ls -> n <= m -> Forall (fun x => callback x < m) ls.
Proof.
  intros Hall Hle. eapply Forall_impl; [|exact Hall]. simpl. intros; lia.
Qed.

Lemma Dropdown_open_recompute p dom s :
  Dropdown.open p (Dropdown.recompute p dom s) = Dropdown.open p s.
Proof.
  unfold Dropdown.recompute, Dropdown.updatePosition.
  destruct dom as [[tr|] [cr|] w]; reflexivity.
Qed.

(** The effects of a render that opens, on lists the instance owns nothing
    of. *)
Lemma Dropdown_opening base w :
  wfWorld w -> listeners w = base ->
  let h := nextClosure w in
  addEventListener (Dropdown.onKeydown (S h))
    (addEventListener (Dropdown.onScroll h) (addEventListener (Dropdown.onResize h) base))
  = base ++ [Dropdown.onResize h; Dropdown.onScroll h; Dropdown.onKeydown (S h)]
  /\ ~ In (Dropdown.onResize h) base
  /\ ~ In (Dropdown.onScroll h) base
  /\ ~ In (Dropdown.onKeydown (S h)) base.
Proof.
  intros Hwf Hb h. unfold wfWorld in Hwf. rewrite Hb in Hwf.
  assert (H1 : ~ In (Dropdown.onResize h) base)
    by (apply (allocated_fresh _ _ _ Hwf); simpl; lia).
  assert (H2 : ~ In (Dropdown.onScroll h) base)
    by (apply (allocated_fresh _ _ _ Hwf); simpl; lia).
  assert (H3 : ~ In (Dropdown.onKeydown (S h)) base)
    by (apply (allocated_fresh _ _ _ Hwf); simpl; unfold h; lia).
  repeat split; try assumption.
  rewrite (addEventListener_fresh _ _ H1).
  assert (H2' : ~ In (Dropdown.onScroll h) (base ++ [Dropdown.onResize h])).
  { intros Hin. apply in_app_or in Hin. destruct Hin as [Hin|[Hin|[]]];
      [contradiction|discriminate]. }
  rewrite (addEventListener_fresh _ _ H2').
  assert (H3' : ~ In (Dropdown.onKeydown (S h))
                  ((base ++ [Dropdown.onResize h]) ++ [Dropdown.onScroll h])).
  { intros Hin. apply in_app_or in Hin. destruct Hin as [Hin|[Hin|[]]]; [|discriminate].
    apply in_app_or in Hin. destruct Hin as [Hin|[Hin|[]]]; [contradiction|discriminate]. }
  rewrite (addEventListener_fresh _ _ H3').
  rewrite <- !app_assoc. reflexivity.
Qed.

(** The cleanups of a render that closes. *)
Lemma Dropdown_closing base h k :
  ~ In (Dropdown.onResize h) base ->
  ~ In (Dropdown.onScroll h) base ->
  ~ In (Dropdown.onKeydown k) base ->
  runCleanup [Dropdown.onKeydown k]
    (runCleanup [Dropdown.onResize h; Dropdown.onScroll h]
       (base ++ [Dropdown.onResize h; Dropdown.onScroll h; Dropdown.onKeydown k]))
  = base.
Proof.
  intros H1 H2 H3. unfold runCleanup. simpl.
  rewrite (removeEventListener_fresh _ _ _ H1).
  rewrite (removeEventListener_fresh _ _ _ H2).
  rewrite (removeEventListener_fresh _ _ _ H3).
  apply app_nil_r.
Qed.

Lemma Dropdown_commit_inv p dom base i w o_old :
  Dropdown.positionDeps i = Some o_old ->
  Dropdown.escapeDeps i = Some (o_old, Dropdown.closeOnEscape p) ->
  DropdownOwns base o_old i w ->
  DropdownInv p base (Dropdown.commit p dom i w).
Proof.
  intros Hpd Hed [Hwf Hown].
  unfold DropdownInv, Dropdown.commit.
  rewrite Hpd, Hed. cbn [Dropdown.changed1 Dropdown.changed2 fst snd].
  rewrite Bool.eqb_reflx, Bool.andb_true_r.
  destruct (Dropdown.open p (Dropdown.state i)) eqn:Ho, o_old;
    cbn [Bool.eqb negb fst snd Dropdown.state Dropdown.positionDeps Dropdown.escapeDeps].
  - (* open before and after: no effect runs *)
    rewrite Ho. split; [reflexivity|]. split; [reflexivity|]. split.
    + unfold wfWorld in *. cbn [listeners nextClosure].
      eapply allocated_mono; [exact Hwf|lia].
    + exact Hown.
  - (* opening *)
    destruct Hown as (Hc1 & Hc2 & Hls).
    rewrite Hc1, Hc2. cbn [runCleanup fold_left].
    rewrite Dropdown_open_recompute, Ho.
    destruct (Dropdown_opening base w Hwf Hls) as (Hadd & H1 & H2 & H3).
    rewrite Hls. cbv zeta in Hadd. rewrite Hadd.
    repeat split; try reflexivity.
    + unfold wfWorld. cbn [listeners nextClosure].
      apply Forall_app. split.
      * unfold wfWorld in Hwf. rewrite Hls in Hwf.
        eapply allocated_mono; [exact Hwf|lia].
      * repeat constructor; simpl; lia.
    + exists (nextClosure w), (S (nextClosure w)).
      cbn [Dropdown.positionCleanup Dropdown.escapeCleanup listeners].
      repeat split; try reflexivity; assumption.
  - (* closing *)
    destruct Hown as (h & k & Hc1 & Hc2 & Hls & H1 & H2 & H3).
    rewrite Ho, Hc1, Hc2, Hls.
    rewrite (Dropdown_closing base h k H1 H2 H3).
    repeat split; try reflexivity.
    unfold wfWorld in *. cbn [listeners nextClosure].
    rewrite Hls in Hwf. apply Forall_app in Hwf. destruct Hwf as [Hwf _].
    eapply allocated_mono; [exact Hwf|lia].
  - (* closed before and after *)
    rewrite Ho. split; [reflexivity|]. split; [reflexivity|]. split.
    + unfold wfWorld in *. cbn [listeners nextClosure].
      eapply allocated_mono; [exact Hwf|lia].
    + exact Hown.
Qed.

Lemma Dropdown_mount_inv p dom w :
  wfWorld w -> DropdownInv p (listeners w) (Dropdown.mount p dom w).
Proof.
  intros Hwf.
  unfold DropdownInv, Dropdown.mount, Dropdown.commit.
  cbn [Dropdown.unmounted Dropdown.changed1 Dropdown.changed2 Dropdown.state
       Dropdown.positionDeps Dropdown.escapeDeps Dropdown.positionCleanup
       Dropdown.escapeCleanup runCleanup fold_left fst snd].
  destruct (Dropdown.open p Dropdown.init) eqn:Ho;
    cbn [fst snd Dropdown.state Dropdown.positionDeps Dropdown.escapeDeps].
  - rewrite Dropdown_open_recompute, Ho.
    destruct (Dropdown_opening (listeners w) w Hwf eq_refl) as (Hadd & H1 & H2 & H3).
    cbv zeta in Hadd. rewrite Hadd.
    repeat split; try reflexivity.
    + unfold wfWorld. cbn [listeners nextClosure].
      apply Forall_app. split.
      * eapply allocated_mono; [exact Hwf|lia].
      * repeat constructor; simpl; lia.
    + exists (nextClosure w), (S (nextClosure w)).
      cbn [Dropdown.positionCleanup Dropdown.escapeCleanup listeners].
      repeat split; try reflexivity; assumption.
  - rewrite Ho. repeat split; try reflexivity.
    unfold wfWorld in *. cbn [listeners nextClosure].
    eapply allocated_mono; [exact Hwf|lia].
Qed.

Lemma Dropdown_step_inv p dom ev base iw :
  DropdownInv p base iw -> DropdownInv p base (Dropdown.step p dom ev iw).
Proof.
  destruct iw as [i w]. intros (Hpd & Hed & Hown). cbn [fst snd] in *.
  unfold Dropdown.step.
  eapply Dropdown_commit_inv; cbn [Dropdown.positionDeps Dropdown.escapeDeps].
  - exact Hpd.
  - exact Hed.
  - destruct Hown as [Hwf Hown]. split; [exact Hwf|].
    destruct (Dropdown.open p (Dropdown.state i)); exact Hown.
Qed.

Lemma Dropdown_run_inv p base evs : forall iw,
  DropdownInv p base iw -> DropdownInv p base (Dropdown.run p evs iw).
Proof.
  induction evs as [|[dom ev] evs IH]; intros iw Hinv; [exact Hinv|].
  simpl. apply IH. apply Dropdown_step_inv. exact Hinv.
Qed.

Lemma Dropdown_unmount_inv p base i w :
  DropdownInv p base (i, w) -> listeners (Dropdown.unmount i w) = base.
Proof.
  intros (_ & _ & _ & Hown). cbn [fst snd] in Hown.
  unfold Dropdown.unmount. cbn [listeners].
  destruct (Dropdown.open p (Dropdown.state i)).
  - destruct Hown as (h & k & Hc1 & Hc2 & Hls & H1 & H2 & H3).
    rewrite Hc1, Hc2, Hls. apply Dropdown_closing; assumption.
  - destruct Hown as (Hc1 & Hc2 & Hls). rewrite Hc1, Hc2. exact Hls.
Qed.

Lemma Tooltip_visible_recompute p dom s :
  Tooltip.isVisible (Tooltip.recompute p dom s) = Tooltip.isVisible s.
Proof.
  unfold Tooltip.recompute, Tooltip.updatePosition.
  destruct dom as [[tr|] [cr|] w]; reflexivity.
Qed.

Lemma Tooltip_opening base w :
  wfWorld w -> listeners w = base ->
  let h := nextClosure w in
  addEventListener (Tooltip.onScroll h) (addEventListener (Tooltip.onResize h) base)
  = base ++ [Tooltip.onResize h; Tooltip.onScroll h]
  /\ ~ In (Tooltip.onResize h) base
  /\ ~ In (Tooltip.onScroll h) base.
Proof.
  intros Hwf Hb h. unfold wfWorld in Hwf. rewrite Hb in Hwf.
  assert (H1 : ~ In (Tooltip.onResize h) base)
    by (apply (allocated_fresh _ _ _ Hwf); simpl; lia).
  assert (H2 : ~ In (Tooltip.onScroll h) base)
    by (apply (allocated_fresh _ _ _ Hwf); simpl; lia).
  repeat split; try assumption.
  rewrite (addEventListener_fresh _ _ H1).
  assert (H2' : ~ In (Tooltip.onScroll h) (base ++ [Tooltip.onResize h])).
  { intros Hin. apply in_app_or in Hin. destruct Hin as [Hin|[Hin|[]]];
      [contradiction|discriminate]. }
  rewrite (addEventListener_fresh _ _ H2').
  rewrite <- !app_assoc. reflexivity.
Qed.

Lemma Tooltip_closing base h :
  ~ In (Tooltip.onResize h) base ->
  ~ In (Tooltip.onScroll h) base ->
  runCleanup [Tooltip.onResize h; Tooltip.onScroll h]
    (base ++ [Tooltip.onResize h; Tooltip.onScroll h])
  = base.
Proof.
  intros H1 H2. unfold runCleanup. simpl.
  rewrite (removeEventListener_fresh _ _ _ H1).
  rewrite (removeEventListener_fresh _ _ _ H2).
  apply app_nil_r.
Qed.

Lemma Tooltip_commit_inv p dom base i w v_old :
  Tooltip.positionDeps i = Some v_old ->
  TooltipOwns base v_old i w ->
  TooltipInv base (Tooltip.commit p dom i w).
Proof.
  intros Hpd [Hwf Hown].
  unfold TooltipInv, Tooltip.commit.
  rewrite Hpd. cbn [Tooltip.changed fst snd].
  destruct (Tooltip.isVisible (Tooltip.state i)) eqn:Hv, v_old;
    cbn [Bool.eqb negb fst snd Tooltip.state Tooltip.positionDeps].
  - rewrite Hv. split; [reflexivity|]. split.
    + unfold wfWorld in *. cbn [listeners nextClosure].
      eapply allocated_mono; [exact Hwf|lia].
    + exact Hown.
  - destruct Hown as (Hc1 & Hls).
    rewrite Hc1. cbn [runCleanup fold_left].
    rewrite Tooltip_visible_recompute, Hv.
    destruct (Tooltip_opening base w Hwf Hls) as (Hadd & H1 & H2).
    rewrite Hls. cbv zeta in Hadd. rewrite Hadd.
    split; [reflexivity|]. split.
    + unfold wfWorld. cbn [listeners nextClosure].
      apply Forall_app. split.
      * unfold wfWorld in Hwf. rewrite Hls in Hwf.
        eapply allocated_mono; [exact Hwf|lia].
      * repeat constructor; simpl; lia.
    + exists (nextClosure w).
      cbn [Tooltip.positionCleanup listeners].
      repeat split; try reflexivity; assumption.
  - destruct Hown as (h & Hc1 & Hls & H1 & H2).
    rewrite Hv, Hc1, Hls.
    rewrite (Tooltip_closing base h H1 H2).
    split; [reflexivity|]. split.
    + unfold wfWorld in *. cbn [listeners nextClosure].
      rewrite Hls in Hwf. apply Forall_app in Hwf. destruct Hwf as [Hwf _].
      eapply allocated_mono; [exact Hwf|lia].
    + split; reflexivity.
  - rewrite Hv. split; [reflexivity|]. split.
    + unfold wfWorld in *. cbn [listeners nextClosure].
      eapply allocated_mono; [exact Hwf|lia].
    + exact Hown.
Qed.

Lemma Tooltip_mount_inv p dom w :
  wfWorld w -> TooltipInv (listeners w) (Tooltip.mount p dom w).
Proof.
  intros Hwf.
  unfold TooltipInv, Tooltip.mount, Tooltip.commit.
  cbn [Tooltip.unmounted Tooltip.changed Tooltip.state Tooltip.init Tooltip.isVisible
       Tooltip.positionDeps Tooltip.positionCleanup runCleanup fold_left fst snd].
  split; [reflexivity|]. split; [|split; reflexivity].
  unfold wfWorld in *. cbn [listeners nextClosure].
  eapply allocated_mono; [exact Hwf|lia].
Qed.

Lemma Tooltip_step_inv p dom ev base i t w :
  TooltipInv base (i, w) ->
  TooltipInv base (fst (fst (Tooltip.step p dom ev (i, t, w))),
                   snd (Tooltip.step p dom ev (i, t, w))).
Proof.
  intros (Hpd & Hown). cbn [fst snd] in *.
  unfold Tooltip.step.
  destruct (Tooltip.dispatch p ev (Tooltip.state i, t)) as [s t'].
  pose proof (Tooltip_commit_inv p dom base
                {| Tooltip.state := s; Tooltip.positionDeps := Tooltip.positionDeps i;
                   Tooltip.positionCleanup := Tooltip.positionCleanup i |} w
                (Tooltip.isVisible (Tooltip.state i)) Hpd) as H.
  destruct (Tooltip.commit p dom _ w) as [i' w'].
  cbn [fst snd]. apply H.
  destruct Hown as [Hwf Hown]. split; [exact Hwf|].
  destruct (Tooltip.isVisible (Tooltip.state i)); exact Hown.
Qed.

Lemma Tooltip_runAll_inv p base evs : forall i t w,
  TooltipInv base (i, w) ->
  TooltipInv base (fst (fst (Tooltip.runAll p evs (i, t, w))),
                   snd (Tooltip.runAll p evs (i, t, w))).
Proof.
  induction evs as [|[dom ev] evs IH]; intros i t w Hinv; [exact Hinv|].
  change (Tooltip.runAll p ((dom, ev) :: evs) (i, t, w))
    with (Tooltip.runAll p evs (Tooltip.step p dom ev (i, t, w))).
  pose proof (Tooltip_step_inv p dom ev base i t w Hinv) as H.
  destruct (Tooltip.step p dom ev (i, t, w)) as [[i' t'] w'].
  apply (IH i' t' w'). exact H.
Qed.

Lemma Tooltip_unmount_inv base i w :
  TooltipInv base (i, w) -> listeners (Tooltip.unmount i w) = base.
Proof.
  intros (_ & _ & Hown). cbn [fst snd] in Hown.
  unfold Tooltip.unmount. cbn [listeners].
  destruct (Tooltip.isVisible (Tooltip.state i)).
  - destruct Hown as (h & Hc1 & Hls & H1 & H2).
    rewrite Hc1, Hls. apply Tooltip_closing; assumption.
  - destruct Hown as (Hc1 & Hls). rewrite Hc1. exact Hls.
Qed.

(** C6. A Dropdown or a Tooltip mounted on a page whose listener lists are
    [listeners w0], after any run of events: while it is open, the lists are
    the original ones followed by the listeners its effects added, and the
    cleanups it holds remove exactly those, same type, same closure, same
    capture flag; whenever it is closed, and after it is unmounted in
    whatever state, the lists are the original ones again. One open and
    close cycle thus adds no [resize] or [scroll] listener. *)
Theorem C6_listeners_paired :
  (forall p dom0 evs w0,
      wfWorld w0 ->
      let i := fst (Dropdown.run p evs (Dropdown.mount p dom0 w0)) in
      let w := snd (Dropdown.run p evs (Dropdown.mount p dom0 w0)) in
      (if Dropdown.open p (Dropdown.state i)
       then exists h k,
           listeners w
           = listeners w0
               ++ [Dropdown.onResize h; Dropdown.onScroll h; Dropdown.onKeydown k]
           /\ Dropdown.positionCleanup i = [Dropdown.onResize h; Dropdown.onScroll h]
           /\ Dropdown.escapeCleanup i = [Dropdown.onKeydown k]
       else listeners w = listeners w0
            /\ countListeners ev_resize (listeners w) = countListeners ev_resize (listeners w0)
            /\ countListeners ev_scroll (listeners w) = countListeners ev_scroll (listeners w0))
      /\ listeners (Dropdown.unmount i w) = listeners w0)
  /\ (forall p dom0 evs t0 w0,
      wfWorld w0 ->
      let x := Tooltip.runAll p evs
                 (fst (Tooltip.mount p dom0 w0), t0, snd (Tooltip.mount p dom0 w0)) in
      let i := fst (fst x) in
      let w := snd x in
      (if Tooltip.isVisible (Tooltip.state i)
       then exists h,
           listeners w = listeners w0 ++ [Tooltip.onResize h; Tooltip.onScroll h]
           /\ Tooltip.positionCleanup i = [Tooltip.onResize h; Tooltip.onScroll h]
       else listeners w = listeners w0
            /\ countListeners ev_resize (listeners w) = countListeners ev_resize (listeners w0)
            /\ countListeners ev_scroll (listeners w) = countListeners ev_scroll (listeners w0))
      /\ listeners (Tooltip.unmount i w) = listeners w0).
Proof.
  split.
  - intros p dom0 evs w0 Hwf i w.
    pose proof (Dropdown_run_inv p (listeners w0) evs _ (Dropdown_mount_inv p dom0 w0 Hwf))
      as Hinv.
    fold i w in Hinv.
    split.
    + destruct Hinv as (_ & _ & _ & Hown).
      change (fst (Dropdown.run p evs (Dropdown.mount p dom0 w0))) with i in Hown.
      change (snd (Dropdown.run p evs (Dropdown.mount p dom0 w0))) with w in Hown.
      destruct (Dropdown.open p (Dropdown.state i)).
      * destruct Hown as (h & k & Hc1 & Hc2 & Hls & _).
        exists h, k. repeat split; assumption.
      * destruct Hown as (_ & _ & Hls). rewrite Hls. repeat split.
    + apply (Dropdown_unmount_inv p). unfold i, w.
      destruct (Dropdown.run p evs (Dropdown.mount p dom0 w0)); exact Hinv.
  - intros p dom0 evs t0 w0 Hwf x i w.
    pose proof (Tooltip_mount_inv p dom0 w0 Hwf) as Hm.
    destruct (Tooltip.mount p dom0 w0) as [i0 w1] eqn:Hmount.
    pose proof (Tooltip_runAll_inv p (listeners w0) evs i0 t0 w1 Hm) as Hinv.
    cbn [fst snd] in x. fold x in Hinv. fold i w in Hinv.
    split.
    + destruct Hinv as (_ & _ & Hown). cbn [fst snd] in Hown.
      destruct (Tooltip.isVisible (Tooltip.state i)).
      * destruct Hown as (h & Hc1 & Hls & _).
        exists h. split; assumption.
      * destruct Hown as (_ & Hls). rewrite Hls. repeat split.
    + apply Tooltip_unmount_inv. exact Hinv.
Qed.

Lemma C6_listeners_paired_witness :
  listeners
    (snd (Dropdown.run Dropdown.defaultProps
            [(dropdownDom, Dropdown.click in_trigger); (dropdownDom, Dropdown.click in_trigger)]
            (Dropdown.mount Dropdown.defaultProps dropdownDom busyPage)))
  = listeners busyPage.
Proof.
  refine (proj1 (proj1 (proj1 C6_listeners_paired Dropdown.defaultProps dropdownDom
                   [(dropdownDom, Dropdown.click in_trigger);
                    (dropdownDom, Dropdown.click in_trigger)] busyPage _))).
  unfold wfWorld. simpl. repeat constructor.
Defined.

(* ================================================================== *)
(** * Further properties of the components                             *)
(* ================================================================== *)

(** ** Dropdown and Menu: what [onOpenChange] reports *)

Lemma Dropdown_dispatch_report p dom ev s :
  Dropdown.controlledOpen p = None ->
  (snd (Dropdown.dispatch p dom ev s) = []
   /\ (Dropdown.onOpenChange p = true ->
       Dropdown.isOpen (fst (Dropdown.dispatch p dom ev s)) = Dropdown.isOpen s))
  \/ snd (Dropdown.dispatch p dom ev s) = [Dropdown.isOpen (fst (Dropdown.dispatch p dom ev s))].
Proof.
  intros Hc.
  assert (Hi : Dropdown.isControlled p = false)
    by (unfold Dropdown.isControlled; rewrite Hc; reflexivity).
  assert (Ho : forall s', Dropdown.open p s' = Dropdown.isOpen s')
    by (intros; unfold Dropdown.open; rewrite Hc; reflexivity).
  assert (Hclose : forall s0,
             (snd (Dropdown.handleClose p s0) = []
              /\ (Dropdown.onOpenChange p = true ->
                  Dropdown.isOpen (fst (Dropdown.handleClose p s0)) = Dropdown.isOpen s0))
             \/ snd (Dropdown.handleClose p s0)
                = [Dropdown.isOpen (fst (Dropdown.handleClose p s0))]).
  { intros s0. unfold Dropdown.handleClose, Dropdown.emit. rewrite Hi. simpl.
    destruct (Dropdown.onOpenChange p); [right; reflexivity|left; split; [reflexivity|discriminate]]. }
  assert (Hsame : forall s0 : Dropdown.State,
             (@nil bool = [] /\ (Dropdown.onOpenChange p = true ->
                                 Dropdown.isOpen s0 = Dropdown.isOpen s0))
             \/ @nil bool = [Dropdown.isOpen s0])
    by (intros; left; split; reflexivity).
  destruct ev as [n|rt|k| |]; simpl.
  - destruct n; simpl; try apply Hsame.
    unfold Dropdown.emit. rewrite Hi, Ho. simpl.
    destruct (Dropdown.onOpenChange p); [right; reflexivity|left; split; [reflexivity|discriminate]].
  - unfold Dropdown.handleBlur. destruct (_ && _)%bool; [apply Hclose|apply Hsame].
  - destruct (Dropdown.open p s); [|apply Hsame].
    unfold Dropdown.handleEscape. destruct (_ && _)%bool; [apply Hclose|apply Hsame].
  - destruct (Dropdown.open p s); [|apply Hsame]. simpl. left. split; [reflexivity|].
    intros _. unfold Dropdown.recompute. destruct dom as [[tr|] [cr|] w]; reflexivity.
  - destruct (Dropdown.open p s); [|apply Hsame]. simpl. left. split; [reflexivity|].
    intros _. unfold Dropdown.recompute. destruct dom as [[tr|] [cr|] w]; reflexivity.
Qed.

Lemma Menu_dispatch_report p dom ev s :
  Menu.controlledOpen p = None ->
  (snd (Menu.dispatch p dom ev s) = []
   /\ (Menu.onOpenChange p = true ->
       Menu.isOpen (fst (Menu.dispatch p dom ev s)) = Menu.isOpen s))
  \/ snd (Menu.dispatch p dom ev s) = [Menu.isOpen (fst (Menu.dispatch p dom ev s))].
Proof.
  intros Hc.
  assert (Hi : Menu.isControlled p = false)
    by (unfold Menu.isControlled; rewrite Hc; reflexivity).
  assert (Ho : forall s', Menu.open p s' = Menu.isOpen s')
    by (intros; unfold Menu.open; rewrite Hc; reflexivity).
  assert (Hclose : forall s0,
             (snd (Menu.handleClose p s0) = []
              /\ (Menu.onOpenChange p = true ->
                  Menu.isOpen (fst (Menu.handleClose p s0)) = Menu.isOpen s0))
             \/ snd (Menu.handleClose p s0)
                = [Menu.isOpen (fst (Menu.handleClose p s0))]).
  { intros s0. unfold Menu.handleClose, Menu.emit. rewrite Hi. simpl.
    destruct (Menu.onOpenChange p); [right; reflexivity|left; split; [reflexivity|discriminate]]. }
  assert (Hsame : forall s0 : Menu.State,
             (@nil bool = [] /\ (Menu.onOpenChange p = true ->
                                 Menu.isOpen s0 = Menu.isOpen s0))
             \/ @nil bool = [Menu.isOpen s0])
    by (intros; left; split; reflexivity).
  destruct ev as [n|rt|k| |]; simpl.
  - destruct n; simpl; try apply Hsame.
    unfold Menu.emit. rewrite Hi, Ho. simpl.
    destruct (Menu.onOpenChange p); [right; reflexivity|left; split; [reflexivity|discriminate]].
  - unfold Menu.handleBlur. destruct (_ && _)%bool; [apply Hclose|apply Hsame].
  - destruct (Menu.open p s); [|apply Hsame].
    unfold Menu.handleEscape. destruct (_ && _)%bool; [apply Hclose|apply Hsame].
  - destruct (Menu.open p s); [|apply Hsame]. simpl. left. split; [reflexivity|].
    intros _. unfold Menu.recompute. destruct dom as [[tr|] [cr|] w]; reflexivity.
  - destruct (Menu.open p s); [|apply Hsame]. simpl. left. split; [reflexivity|].
    intros _. unfold Menu.recompute. destruct dom as [[tr|] [cr|] w]; reflexivity.
Qed.

Lemma Dropdown_silent_without_callback p dom ev s :
  Dropdown.onOpenChange p = false -> snd (Dropdown.dispatch p dom ev s) = [].
Proof.
  intros Hcb.
  assert (Hclose : forall s0, snd (Dropdown.handleClose p s0) = [])
    by (intros; unfold Dropdown.handleClose, Dropdown.emit; rewrite Hcb; reflexivity).
  destruct ev as [n|rt|k| |]; simpl.
  - destruct n; simpl; try reflexivity. unfold Dropdown.emit. rewrite Hcb. reflexivity.
  - unfold Dropdown.handleBlur. destruct (_ && _)%bool; [apply Hclose|reflexivity].
  - destruct (Dropdown.open p s); [|reflexivity].
    unfold Dropdown.handleEscape. destruct (_ && _)%bool; [apply Hclose|reflexivity].
  - destruct (Dropdown.open p s); reflexivity.
  - destruct (Dropdown.open p s); reflexivity.
Qed.

Lemma Menu_silent_without_callback p dom ev s :
  Menu.onOpenChange p = false -> snd (Menu.dispatch p dom ev s) = [].
Proof.
  intros Hcb.
  assert (Hclose : forall s0, snd (Menu.handleClose p s0) = [])
    by (intros; unfold Menu.handleClose, Menu.emit; rewrite Hcb; reflexivity).
  destruct ev as [n|rt|k| |]; simpl.
  - destruct n; simpl; try reflexivity. unfold Menu.emit. rewrite Hcb. reflexivity.
  - unfold Menu.handleBlur. destruct (_ && _)%bool; [apply Hclose|reflexivity].
  - destruct (Menu.open p s); [|reflexivity].
    unfold Menu.handleEscape. destruct (_ && _)%bool; [apply Hclose|reflexivity].
  - destruct (Menu.open p s); reflexivity.
  - destruct (Menu.open p s); reflexivity.
Qed.

Lemma Dropdown_log_report p evs : forall s,
  Dropdown.controlledOpen p = None ->
  match rev (snd (DropdownItems.log p evs s)) with
  | b :: _ => b = Dropdown.isOpen (fst (DropdownItems.log p evs s))
  | [] => Dropdown.onOpenChange p = true ->
          Dropdown.isOpen (fst (DropdownItems.log p evs s)) = Dropdown.isOpen s
  end.
Proof.
  induction evs as [|[dom ev] evs IH]; intros s Hc; simpl; [reflexivity|].
  pose proof (Dropdown_dispatch_report p dom ev s Hc) as Hstep.
  pose proof (Dropdown_silent_without_callback p dom ev s) as Hsil.
  destruct (Dropdown.dispatch p dom ev s) as [s1 c1]. simpl in Hstep, Hsil.
  specialize (IH s1 Hc).
  destruct (DropdownItems.log p evs s1) as [s2 c2]. simpl in *.
  rewrite rev_app_distr.
  destruct (rev c2) as [|b l]; simpl.
  - destruct Hstep as [[Hnil Hkeep]|Hone].
    + subst c1. simpl. intros Hcb. rewrite (IH Hcb). apply Hkeep. exact Hcb.
    + rewrite Hone. simpl.
      destruct (Dropdown.onOpenChange p) eqn:Hcb.
      * symmetry. apply IH. reflexivity.
      * rewrite (Hsil eq_refl) in Hone. discriminate.
  - exact IH.
Qed.

Lemma Menu_log_report p evs : forall s,
  Menu.controlledOpen p = None ->
  match rev (snd (MenuItems.log p evs s)) with
  | b :: _ => b = Menu.isOpen (fst (MenuItems.log p evs s))
  | [] => Menu.onOpenChange p = true ->
          Menu.isOpen (fst (MenuItems.log p evs s)) = Menu.isOpen s
  end.
Proof.
  induction evs as [|[dom ev] evs IH]; intros s Hc; simpl; [reflexivity|].
  pose proof (Menu_dispatch_report p dom ev s Hc) as Hstep.
  pose proof (Menu_silent_without_callback p dom ev s) as Hsil.
  destruct (Menu.dispatch p dom ev s) as [s1 c1]. simpl in Hstep, Hsil.
  specialize (IH s1 Hc).
  destruct (MenuItems.log p evs s1) as [s2 c2]. simpl in *.
  rewrite rev_app_distr.
  destruct (rev c2) as [|b l]; simpl.
  - destruct Hstep as [[Hnil Hkeep]|Hone].
    + subst c1. simpl. intros Hcb. rewrite (IH Hcb). apply Hkeep. exact Hcb.
    + rewrite Hone. simpl.
      destruct (Menu.onOpenChange p) eqn:Hcb.
      * symmetry. apply IH. reflexivity.
      * rewrite (Hsil eq_refl) in Hone. discriminate.
  - exact IH.
Qed.

(** X1. A Dropdown or Menu that owns its open flag keeps the caller
    informed: over any list of events, the last value handed to
    [onOpenChange] is the open flag the component ends with, and when the
    callback is supplied and nothing was reported the flag is the one the
    run started with. *)
Theorem X1_onOpenChange_tracks_state :
  (forall p evs s,
      Dropdown.controlledOpen p = None ->
      match rev (snd (DropdownItems.log p evs s)) with
      | b :: _ => b = Dropdown.isOpen (fst (DropdownItems.log p evs s))
      | [] => Dropdown.onOpenChange p = true ->
              Dropdown.isOpen (fst (DropdownItems.log p evs s)) = Dropdown.isOpen s
      end)
  /\ (forall p evs s,
      Menu.controlledOpen p = None ->
      match rev (snd (MenuItems.log p evs s)) with
      | b :: _ => b = Menu.isOpen (fst (MenuItems.log p evs s))
      | [] => Menu.onOpenChange p = true ->
              Menu.isOpen (fst (MenuItems.log p evs s)) = Menu.isOpen s
      end).
Proof.
  split; intros p evs s Hc.
  - apply Dropdown_log_report; exact Hc.
  - apply Menu_log_report; exact Hc.
Qed.

Lemma X1_onOpenChange_tracks_state_witness :
  snd (DropdownItems.log noEscapeProps
         [(dropdownDom, Dropdown.click in_trigger);
          (dropdownDom, Dropdown.keydown "Escape");
          (dropdownDom, Dropdown.blur None)] Dropdown.init)
  = [true; false]
  /\ Dropdown.isOpen
       (fst (DropdownItems.log noEscapeProps
               [(dropdownDom, Dropdown.click in_trigger);
                (dropdownDom, Dropdown.keydown "Escape");
                (dropdownDom, Dropdown.blur None)] Dropdown.init))
     = false.
Proof.
  split; [reflexivity|].
  symmetry.
  exact (proj1 X1_onOpenChange_tracks_state noEscapeProps
           [(dropdownDom, Dropdown.click in_trigger);
            (dropdownDom, Dropdown.keydown "Escape");
            (dropdownDom, Dropdown.blur None)] Dropdown.init eq_refl).
Defined.

(** ** Dropdown: the position cell across a close *)

Lemma Dropdown_commit_state p dom i w :
  Dropdown.state (fst (Dropdown.commit p dom i w))
  = if (Dropdown.changed1 (Dropdown.positionDeps i) (Dropdown.open p (Dropdown.state i))
        && Dropdown.open p (Dropdown.state i))%bool
    then Dropdown.recompute p dom (Dropdown.state i)
    else Dropdown.state i.
Proof.
  unfold Dropdown.commit.
  destruct (Dropdown.changed1 _ _), (Dropdown.changed2 _ _),
    (Dropdown.open p (Dropdown.state i)); reflexivity.
Qed.

Lemma Dropdown_commit_deps p dom i w :
  Dropdown.changed1 (Dropdown.positionDeps (fst (Dropdown.commit p dom i w)))
    (Dropdown.open p (Dropdown.state i)) = false.
Proof.
  unfold Dropdown.commit.
  destruct (Dropdown.positionDeps i) as [b|] eqn:Hd; simpl.
  - destruct b, (Dropdown.changed2 _ _), (Dropdown.open p (Dropdown.state i)); reflexivity.
  - destruct (Dropdown.changed2 _ _), (Dropdown.open p (Dropdown.state i)); reflexivity.
Qed.

Lemma Dropdown_closing_keeps_position p dom ev s :
  Dropdown.controlledOpen p = None ->
  Dropdown.isOpen s = true ->
  Dropdown.isOpen (fst (Dropdown.dispatch p dom ev s)) = false ->
  Dropdown.position (fst (Dropdown.dispatch p dom ev s)) = Dropdown.position s.
Proof.
  intros Hc Ho Hclosed.
  assert (Hop : Dropdown.open p s = true) by (unfold Dropdown.open; rewrite Hc; exact Ho).
  assert (Hcl : forall s0, Dropdown.position (fst (Dropdown.handleClose p s0))
                           = Dropdown.position s0)
    by (intros; unfold Dropdown.handleClose; destruct (negb _); reflexivity).
  destruct ev as [n|rt|k| |]; simpl in *.
  - destruct n; simpl; try reflexivity. destruct (negb _); reflexivity.
  - unfold Dropdown.handleBlur. destruct (_ && _)%bool; [apply Hcl|reflexivity].
  - rewrite Hop. unfold Dropdown.handleEscape. destruct (_ && _)%bool; [apply Hcl|reflexivity].
  - rewrite Hop in Hclosed. simpl in Hclosed. exfalso.
    unfold Dropdown.recompute in Hclosed.
    destruct dom as [[tr|] [cr|] w]; simpl in Hclosed; congruence.
  - rewrite Hop in Hclosed. simpl in Hclosed. exfalso.
    unfold Dropdown.recompute in Hclosed.
    destruct dom as [[tr|] [cr|] w]; simpl in Hclosed; congruence.
Qed.

(** X2. The position cell of a Dropdown survives a close. Open it for the
    first time on a page where both elements measure, close it by whatever
    event closes it, and open it again: the first frame of the second
    opening is rendered at the position measured during the first, not at
    (0, 0) and not where the elements are now. *)
Theorem X2_reopens_at_last_measured_position :
  forall p dom0 dom2 dom3 tr cr sc w ev,
    Dropdown.controlledOpen p = None ->
    let dom1 := {| Dropdown.triggerRef := Some tr; Dropdown.contentRef := Some cr;
                   Dropdown.scroll := sc |} in
    let opened := Dropdown.step p dom1 (Dropdown.click in_trigger) (Dropdown.mount p dom0 w) in
    let closed := Dropdown.step p dom2 ev opened in
    Dropdown.isOpen (Dropdown.state (fst closed)) = false ->
    Dropdown.render p (Dropdown.state (fst closed)) = None
    /\ Dropdown.render p
         (fst (Dropdown.dispatch p dom3 (Dropdown.click in_trigger) (Dropdown.state (fst closed))))
       = Some (Dropdown.computePosition (Dropdown.placement p) (Dropdown.align p)
                 (Dropdown.offset p) tr cr sc).
Proof.
  intros p dom0 dom2 dom3 tr cr sc w ev Hc dom1 opened closed Hclosed.
  assert (Ho : forall s', Dropdown.open p s' = Dropdown.isOpen s')
    by (intros; unfold Dropdown.open; rewrite Hc; reflexivity).
  assert (Hi : Dropdown.isControlled p = false)
    by (unfold Dropdown.isControlled; rewrite Hc; reflexivity).
  (* the state after the first opening *)
  assert (Hopened : Dropdown.state (fst opened)
                    = {| Dropdown.isOpen := true;
                         Dropdown.position :=
                           Dropdown.computePosition (Dropdown.placement p) (Dropdown.align p)
                             (Dropdown.offset p) tr cr sc |}
                    /\ Dropdown.positionDeps (fst opened) = Some true).
  { unfold opened, Dropdown.mount.
    destruct p as [c ? ? ? ? ? ? ce ?]; simpl in Hc; subst c.
    destruct ce; split; reflexivity. }
  destruct Hopened as [Hst Hdeps].
  (* the close leaves the state the handler produced *)
  assert (Hcl : Dropdown.state (fst closed)
                = fst (Dropdown.dispatch p dom2 ev (Dropdown.state (fst opened)))).
  { unfold closed, Dropdown.step.
    destruct opened as [i1 w1]. simpl in Hst, Hdeps |- *.
    rewrite Dropdown_commit_state. simpl. rewrite Hdeps. simpl.
    rewrite Ho.
    destruct (Dropdown.isOpen (fst (Dropdown.dispatch p dom2 ev (Dropdown.state i1))));
      reflexivity. }
  rewrite Hcl in *.
  pose proof (Dropdown_closing_keeps_position p dom2 ev (Dropdown.state (fst opened)) Hc) as Hpos.
  rewrite Hst in Hpos, Hclosed |- *. specialize (Hpos eq_refl Hclosed).
  split.
  - unfold Dropdown.render. rewrite Ho, Hclosed. reflexivity.
  - simpl. unfold Dropdown.render. rewrite Ho, Hi. simpl.
    rewrite Hclosed. simpl. rewrite Hpos. reflexivity.
Qed.

Lemma X2_reopens_at_last_measured_position_witness :
  Dropdown.render Dropdown.defaultProps
    (fst (Dropdown.dispatch Dropdown.defaultProps
            {| Dropdown.triggerRef := Some someBox; Dropdown.contentRef := Some someBox;
               Dropdown.scroll := noScroll |}
            (Dropdown.click in_trigger)
            (Dropdown.state
               (fst (Dropdown.step Dropdown.defaultProps dropdownDom (Dropdown.keydown "Escape")
                       (Dropdown.step Dropdown.defaultProps dropdownDom (Dropdown.click in_trigger)
                          (Dropdown.mount Dropdown.defaultProps dropdownDom busyPage)))))))
  = Some {| top := 128; left := 100 |}.
Proof.
  exact (proj2 (X2_reopens_at_last_measured_position Dropdown.defaultProps dropdownDom
                  dropdownDom
                  {| Dropdown.triggerRef := Some someBox; Dropdown.contentRef := Some someBox;
                     Dropdown.scroll := noScroll |}
                  someRect someBox noScroll busyPage (Dropdown.keydown "Escape")
                  eq_refl eq_refl)).
Defined.

(** ** Dropdown and Menu: a click on an item *)

Lemma Dropdown_commit_closeOnClick p b dom i w :
  Dropdown.commit (DropdownItems.withCloseOnClick b p) dom i w = Dropdown.commit p dom i w.
Proof. reflexivity. Qed.

Lemma Dropdown_dispatch_closeOnClick p b dom ev s :
  Dropdown.dispatch (DropdownItems.withCloseOnClick b p) dom ev s = Dropdown.dispatch p dom ev s.
Proof. destruct ev as [n|rt|k| |]; reflexivity. Qed.

Lemma Dropdown_run_closeOnClick p b evs : forall iw,
  Dropdown.run (DropdownItems.withCloseOnClick b p) evs iw = Dropdown.run p evs iw.
Proof.
  induction evs as [|[dom ev] evs IH]; intros [i w]; [reflexivity|].
  simpl. rewrite Dropdown_dispatch_closeOnClick.
  change (Dropdown.commit (DropdownItems.withCloseOnClick b p)) with (Dropdown.commit p).
  apply IH.
Qed.

(** X3. [closeOnClick] changes nothing: no handler that reads it is attached
    to an element, so whatever its value every event, and every run of
    events with its effects, has the same outcome in Dropdown, and every
    event in Menu. A click on an item runs the item's own [onClick] (unless
    the item is disabled) and leaves the dropdown as it is, open;
    [handleItemClick], which would close it when [closeOnClick] holds, is
    called by nothing. *)
Theorem X3_closeOnClick_is_inert :
  (forall p b dom ev s,
      Dropdown.dispatch (DropdownItems.withCloseOnClick b p) dom ev s
      = Dropdown.dispatch p dom ev s)
  /\ (forall p b evs iw,
      Dropdown.run (DropdownItems.withCloseOnClick b p) evs iw = Dropdown.run p evs iw)
  /\ (forall p b dom ev s,
      Menu.dispatch (MenuItems.withCloseOnClick b p) dom ev s = Menu.dispatch p dom ev s)
  /\ (forall p dom disabled onClick s,
      DropdownItems.clickItem p dom disabled onClick s
      = (s, if (negb disabled && onClick)%bool then [ItemClick] else []))
  /\ (forall p onClick s,
      Dropdown.controlledOpen p = None ->
      Dropdown.isOpen (fst (DropdownItems.handleItemClick p onClick s))
      = (negb (Dropdown.closeOnClick p) && Dropdown.isOpen s)%bool).
Proof.
  split; [|split; [|split; [|split]]].
  - apply Dropdown_dispatch_closeOnClick.
  - intros. apply Dropdown_run_closeOnClick.
  - intros p b dom ev s. destruct ev as [n|rt|k| |]; reflexivity.
  - intros p dom disabled onClick s. unfold DropdownItems.clickItem. simpl.
    rewrite app_nil_r. reflexivity.
  - intros p onClick s Hc.
    unfold DropdownItems.handleItemClick, Dropdown.handleClose, Dropdown.isControlled.
    rewrite Hc. destruct (Dropdown.closeOnClick p); reflexivity.
Qed.

Lemma X3_closeOnClick_is_inert_witness :
  Dropdown.isOpen
    (fst (DropdownItems.clickItem Dropdown.defaultProps dropdownDom false true openedDropdown))
  = true
  /\ Dropdown.isOpen
       (fst (DropdownItems.handleItemClick Dropdown.defaultProps true openedDropdown))
     = false.
Proof.
  split.
  - rewrite (proj1 (proj2 (proj2 (proj2 X3_closeOnClick_is_inert)))
               Dropdown.defaultProps dropdownDom false true openedDropdown).
    reflexivity.
  - exact (proj2 (proj2 (proj2 (proj2 X3_closeOnClick_is_inert)))
             Dropdown.defaultProps true openedDropdown eq_refl).
Defined.

(** ** Tooltip: runs of events *)

Lemma hide_idle st : idle st -> idle (Tooltip.hideTooltip st).
Proof.
  destruct st as [s t]. intros [Hv Hp]. simpl in *.
  unfold Tooltip.hideTooltip.
  destruct (Tooltip.timeoutRef s); split; simpl; try reflexivity; try exact Hp.
  rewrite Hp. reflexivity.
Qed.

Lemma tick_idle ms st : idle st -> idle (Tooltip.advance ms st).
Proof.
  destruct st as [s t]. intros [Hv Hp]. simpl in Hv, Hp.
  rewrite tick_nothing_due by (rewrite Hp; intros e []).
  split; assumption.
Qed.

Lemma disabled_step p ev st :
  Tooltip.disabled p = true -> Tooltip.trigger p <> Tooltip.click ->
  idle st -> idle (Tooltip.dispatch p ev st).
Proof.
  intros Hd Ht Hi. destruct st as [s t].
  destruct ev as [| |n| | |ms]; cbn [Tooltip.dispatch].
  - unfold Tooltip.handleMouseEnter, Tooltip.showTooltip. rewrite Hd.
    destruct (Tooltip.trigger p); exact Hi.
  - unfold Tooltip.handleMouseLeave.
    destruct (Tooltip.trigger p); try exact Hi. apply hide_idle. exact Hi.
  - unfold Tooltip.handleClick.
    destruct n, (Tooltip.trigger p); try exact Hi; congruence.
  - unfold Tooltip.handleFocus, Tooltip.showTooltip. rewrite Hd.
    destruct (Tooltip.trigger p); exact Hi.
  - unfold Tooltip.handleBlur.
    destruct (Tooltip.trigger p); try exact Hi. apply hide_idle. exact Hi.
  - apply tick_idle. exact Hi.
Qed.

(** X4. A disabled Tooltip whose trigger is hover or focus, hidden and with
    no timer pending, stays that way through every list of events: it is
    hidden after each of them and never sets a timer. *)
Theorem X4_disabled_never_shows :
  forall p evs s t,
    Tooltip.disabled p = true ->
    Tooltip.trigger p <> Tooltip.click ->
    idle (s, t) ->
    Forall hidden (Tooltip.trace p evs (s, t))
    /\ Tooltip.pending (snd (Tooltip.run p evs (s, t))) = [].
Proof.
  intros p evs s t Hd Ht. generalize (s, t). clear s t.
  induction evs as [|ev evs IH]; intros st Hi.
  - split; [constructor|exact (proj2 Hi)].
  - pose proof (disabled_step p ev st Hd Ht Hi) as Hi'.
    destruct (IH _ Hi') as [Htr Hp].
    split; [|exact Hp].
    simpl. constructor; [exact (proj1 Hi')|exact Htr].
Qed.

Lemma X4_disabled_never_shows_witness :
  Forall hidden
    (Tooltip.trace disabledHoverProps
       [Tooltip.mouseenter; Tooltip.tick 500; Tooltip.clicked in_trigger; Tooltip.mouseleave]
       (Tooltip.init, idleTimers)).
Proof.
  refine (proj1 (X4_disabled_never_shows disabledHoverProps
                   [Tooltip.mouseenter; Tooltip.tick 500; Tooltip.clicked in_trigger;
                    Tooltip.mouseleave]
                   Tooltip.init idleTimers eq_refl _ _)).
  - discriminate.
  - split; reflexivity.
Defined.

Lemma click_step p ev s t :
  Tooltip.trigger p = Tooltip.click ->
  Tooltip.pending t = [] ->
  Tooltip.isVisible (fst (Tooltip.dispatch p ev (s, t)))
  = xorb (Tooltip.isVisible s) (Nat.odd (insideClicks [ev]))
  /\ Tooltip.pending (snd (Tooltip.dispatch p ev (s, t))) = [].
Proof.
  intros Ht Hp.
  destruct ev as [| |n| | |ms]; cbn [Tooltip.dispatch insideClicks Nat.odd Nat.even negb].
  - unfold Tooltip.handleMouseEnter. rewrite Ht. simpl.
    rewrite Bool.xorb_false_r. split; [reflexivity|exact Hp].
  - unfold Tooltip.handleMouseLeave. rewrite Ht. simpl.
    rewrite Bool.xorb_false_r. split; [reflexivity|exact Hp].
  - destruct n; simpl; try rewrite Ht; simpl;
      try (rewrite Bool.xorb_true_r; split; [reflexivity|exact Hp]).
    rewrite Bool.xorb_false_r. split; [reflexivity|exact Hp].
  - unfold Tooltip.handleFocus. rewrite Ht. simpl.
    rewrite Bool.xorb_false_r. split; [reflexivity|exact Hp].
  - unfold Tooltip.handleBlur. rewrite Ht. simpl.
    rewrite Bool.xorb_false_r. split; [reflexivity|exact Hp].
  - rewrite tick_nothing_due by (rewrite Hp; intros e []).
    rewrite Bool.xorb_false_r. split; [reflexivity|exact Hp].
Qed.

Lemma insideClicks_cons ev evs :
  insideClicks (ev :: evs) = insideClicks [ev] + insideClicks evs.
Proof. destruct ev as [| |n| | |ms]; try reflexivity. destruct n; reflexivity. Qed.

(** X5. A Tooltip whose trigger is click, with no timer pending: after any
    list of events it is visible exactly when it started hidden and an odd
    number of clicks landed inside it, or started visible and an even
    number did. Nothing else shows or hides it: not the pointer, not the
    focus, not the passing of time, not [disabled], not [delay]; and it
    never sets a timer. *)
Theorem X5_click_trigger_counts_clicks :
  forall p evs s t,
    Tooltip.trigger p = Tooltip.click ->
    Tooltip.pending t = [] ->
    Tooltip.isVisible (fst (Tooltip.run p evs (s, t)))
    = xorb (Tooltip.isVisible s) (Nat.odd (insideClicks evs))
    /\ Tooltip.pending (snd (Tooltip.run p evs (s, t))) = [].
Proof.
  intros p evs. induction evs as [|ev evs IH]; intros s t Ht Hp.
  - simpl. rewrite Bool.xorb_false_r. split; [reflexivity|exact Hp].
  - change (Tooltip.run p (ev :: evs) (s, t))
      with (Tooltip.run p evs (Tooltip.dispatch p ev (s, t))).
    destruct (click_step p ev s t Ht Hp) as [Hv Hp'].
    destruct (Tooltip.dispatch p ev (s, t)) as [s1 t1]. simpl in Hv, Hp'.
    destruct (IH s1 t1 Ht Hp') as [Hv2 Hp2].
    split; [|exact Hp2].
    rewrite Hv2, Hv, insideClicks_cons, Nat.odd_add, Bool.xorb_assoc. reflexivity.
Qed.

Lemma X5_click_trigger_counts_clicks_witness :
  Tooltip.isVisible
    (fst (Tooltip.run disabledClickProps
            [Tooltip.clicked in_trigger; Tooltip.mouseleave; Tooltip.tick 900;
             Tooltip.clicked outside; Tooltip.clicked in_trigger; Tooltip.clicked in_trigger]
            (Tooltip.init, idleTimers)))
  = true.
Proof.
  exact (proj1 (X5_click_trigger_counts_clicks disabledClickProps
                  [Tooltip.clicked in_trigger; Tooltip.mouseleave; Tooltip.tick 900;
                   Tooltip.clicked outside; Tooltip.clicked in_trigger;
                   Tooltip.clicked in_trigger]
                  Tooltip.init idleTimers eq_refl eq_refl)).
Defined.

Lemma no_delay_step p ev s t :
  Tooltip.trigger p = Tooltip.hover ->
  Tooltip.disabled p = false ->
  (Tooltip.delay p <= 0)%Z ->
  Tooltip.pending t = [] ->
  Tooltip.pending (snd (Tooltip.dispatch p ev (s, t))) = [].
Proof.
  intros Ht Hd Hz Hp.
  destruct ev as [| |n| | |ms].
  - cbn [Tooltip.dispatch].
    unfold Tooltip.handleMouseEnter, Tooltip.showTooltip. rewrite Ht, Hd.
    assert (H : (0 <? Tooltip.delay p)%Z = false) by (apply Z.ltb_ge; exact Hz).
    rewrite H. exact Hp.
  - cbn [Tooltip.dispatch].
    unfold Tooltip.handleMouseLeave, Tooltip.hideTooltip. rewrite Ht.
    destruct (Tooltip.timeoutRef s); simpl; rewrite Hp; reflexivity.
  - rewrite hover_ignores by (auto; discriminate). exact Hp.
  - rewrite hover_ignores by (auto; discriminate). exact Hp.
  - rewrite hover_ignores by (auto; discriminate). exact Hp.
  - cbn [Tooltip.dispatch].
    rewrite tick_nothing_due by (rewrite Hp; intros e []). exact Hp.
Qed.

Lemma run_app p a b st :
  Tooltip.run p (a ++ b) st = Tooltip.run p b (Tooltip.run p a st).
Proof. unfold Tooltip.run. apply fold_left_app. Qed.

(** X6. A hover Tooltip with [delay] zero or negative, not disabled, uses
    no timer at all: through any list of events none is ever pending, the
    tooltip is visible as soon as the pointer has entered and hidden as
    soon as it has left. *)
Theorem X6_no_delay_follows_pointer :
  forall p evs s t,
    Tooltip.trigger p = Tooltip.hover ->
    Tooltip.disabled p = false ->
    (Tooltip.delay p <= 0)%Z ->
    Tooltip.pending t = [] ->
    Tooltip.pending (snd (Tooltip.run p evs (s, t))) = []
    /\ Tooltip.isVisible (fst (Tooltip.run p (evs ++ [Tooltip.mouseenter]) (s, t))) = true
    /\ Tooltip.isVisible (fst (Tooltip.run p (evs ++ [Tooltip.mouseleave]) (s, t))) = false.
Proof.
  intros p evs s t Ht Hd Hz Hp.
  assert (Hpend : Tooltip.pending (snd (Tooltip.run p evs (s, t))) = []).
  { revert s t Hp. induction evs as [|ev evs IH]; intros s t Hp; [exact Hp|].
    change (Tooltip.run p (ev :: evs) (s, t))
      with (Tooltip.run p evs (Tooltip.dispatch p ev (s, t))).
    pose proof (no_delay_step p ev s t Ht Hd Hz Hp) as H.
    destruct (Tooltip.dispatch p ev (s, t)) as [s1 t1]. apply IH. exact H. }
  split; [exact Hpend|].
  rewrite !run_app.
  destruct (Tooltip.run p evs (s, t)) as [s1 t1].
  split.
  - simpl. unfold Tooltip.handleMouseEnter, Tooltip.showTooltip. rewrite Ht, Hd.
    assert (H : (0 <? Tooltip.delay p)%Z = false) by (apply Z.ltb_ge; exact Hz).
    rewrite H. reflexivity.
  - simpl. unfold Tooltip.handleMouseLeave, Tooltip.hideTooltip. rewrite Ht.
    destruct (Tooltip.timeoutRef s1); reflexivity.
Qed.


Lemma X6_no_delay_follows_pointer_witness :
  Tooltip.isVisible
    (fst (Tooltip.run instantProps
            ([Tooltip.mouseenter; Tooltip.mouseleave; Tooltip.tick 50] ++ [Tooltip.mouseenter])
            (Tooltip.init, idleTimers))) = true.
Proof.
  refine (proj1 (proj2 (X6_no_delay_follows_pointer instantProps
                          [Tooltip.mouseenter; Tooltip.mouseleave; Tooltip.tick 50]
                          Tooltip.init idleTimers eq_refl eq_refl _ eq_refl))).
  vm_compute. discriminate.
Defined.

Lemma enter_sets p s t :
  Tooltip.trigger p = Tooltip.hover ->
  Tooltip.disabled p = false ->
  (0 < Tooltip.delay p)%Z ->
  Tooltip.dispatch p Tooltip.mouseenter (s, t)
  = (Tooltip.setTimeoutRef (Some (Tooltip.nextTimer t)) s,
     snd (Tooltip.setTimeout (Tooltip.delay p) t)).
Proof.
  intros Ht Hd Hpos. cbn [Tooltip.dispatch].
  unfold Tooltip.handleMouseEnter, Tooltip.showTooltip. rewrite Ht, Hd.
  assert (Hlt : (0 <? Tooltip.delay p)%Z = true) by (apply Z.ltb_lt; exact Hpos).
  rewrite Hlt. reflexivity.
Qed.

(** X7. [hideTooltip] cancels only the timer whose id [timeoutRef] holds,
    and [showTooltip] overwrites that id without cancelling the timer it
    named. So when the pointer enters twice before it leaves (the delay not
    yet over), the leave hides the tooltip and cancels the second timer,
    the first stays pending, and once its time has come the tooltip is
    visible although the pointer is gone. *)
Theorem X7_second_enter_strands_a_timer :
  forall p s t a b c,
    Tooltip.trigger p = Tooltip.hover ->
    Tooltip.disabled p = false ->
    (0 < Tooltip.delay p)%Z ->
    idle (s, t) ->
    (Z.of_N a + Z.of_N b < Tooltip.delay p)%Z ->
    (Tooltip.delay p <= Z.of_N a + Z.of_N b + Z.of_N c)%Z ->
    let left_ :=
      Tooltip.run p
        [Tooltip.mouseenter; Tooltip.tick a; Tooltip.mouseenter; Tooltip.tick b;
         Tooltip.mouseleave] (s, t) in
    Tooltip.isVisible (fst left_) = false
    /\ Tooltip.pending (snd left_) = [(Tooltip.nextTimer t, (Tooltip.now t + Tooltip.delay p)%Z)]
    /\ Tooltip.isVisible (fst (Tooltip.dispatch p (Tooltip.tick c) left_)) = true.
Proof.
  intros p s t a b c Ht Hd Hpos [Hv Hp] Hab Hc left_.
  simpl in Hv, Hp.
  pose proof (N2Z.is_nonneg a) as Ha0. pose proof (N2Z.is_nonneg b) as Hb0.
  assert (Hlt : (0 <? Tooltip.delay p)%Z = true) by (apply Z.ltb_lt; exact Hpos).
  assert (Hleft : left_
                  = (Tooltip.setIsVisible false (Tooltip.setTimeoutRef None s),
                     {| Tooltip.now := (Tooltip.now t + Z.of_N a + Z.of_N b)%Z;
                        Tooltip.nextTimer := Pos.succ (Pos.succ (Tooltip.nextTimer t));
                        Tooltip.pending :=
                          [(Tooltip.nextTimer t, (Tooltip.now t + Tooltip.delay p)%Z)] |})).
  { unfold left_, Tooltip.run. cbn [fold_left].
    change (Tooltip.dispatch p (Tooltip.tick a)) with (Tooltip.advance a).
    change (Tooltip.dispatch p (Tooltip.tick b)) with (Tooltip.advance b).
    rewrite (enter_sets p s t Ht Hd Hpos).
    cbn [Tooltip.setTimeout snd]. rewrite Hp. cbn [app].
    rewrite tick_nothing_due
      by (cbn [Tooltip.pending Tooltip.now]; intros e [He|[]]; subst e; cbn [snd]; lia).
    rewrite (enter_sets p _ _ Ht Hd Hpos).
    cbn [Tooltip.setTimeout snd Tooltip.pending Tooltip.now Tooltip.nextTimer app].
    rewrite tick_nothing_due
      by (cbn [Tooltip.pending Tooltip.now];
          intros e [He|[He|[]]]; subst e; cbn [snd]; lia).
    cbn [Tooltip.dispatch].
    unfold Tooltip.handleMouseLeave, Tooltip.hideTooltip. rewrite Ht.
    cbn [Tooltip.timeoutRef Tooltip.setTimeoutRef Tooltip.clearTimeout Tooltip.pending
         Tooltip.now Tooltip.nextTimer filter fst].
    unfold Tooltip.clearTimeout.
    cbn [Tooltip.pending Tooltip.now Tooltip.nextTimer filter fst].
    rewrite Pos.eqb_refl.
    assert (Hne : Pos.eqb (Tooltip.nextTimer t) (Pos.succ (Tooltip.nextTimer t)) = false)
      by (apply Pos.eqb_neq; lia).
    rewrite Hne. cbn [negb].
    reflexivity. }
  rewrite Hleft. cbn [fst snd Tooltip.isVisible Tooltip.setIsVisible Tooltip.pending].
  split; [reflexivity|]. split; [reflexivity|].
  cbn [Tooltip.dispatch Tooltip.advance Tooltip.now Tooltip.pending filter fst].
  assert (Hdue : Tooltip.isDue (Tooltip.now t + Z.of_N a + Z.of_N b + Z.of_N c)
                   (Tooltip.nextTimer t, (Tooltip.now t + Tooltip.delay p)%Z) = true)
    by (unfold Tooltip.isDue; cbn [snd]; apply Z.leb_le; lia).
  rewrite Hdue. reflexivity.
Qed.

Lemma X7_second_enter_strands_a_timer_witness :
  Tooltip.isVisible
    (fst (Tooltip.dispatch Tooltip.defaultProps (Tooltip.tick 100)
            (Tooltip.run Tooltip.defaultProps
               [Tooltip.mouseenter; Tooltip.tick 50; Tooltip.mouseenter; Tooltip.tick 50;
                Tooltip.mouseleave] (Tooltip.init, idleTimers))))
  = true.
Proof.
  refine (proj2 (proj2 (X7_second_enter_strands_a_timer Tooltip.defaultProps
                          Tooltip.init idleTimers 50 50 100 eq_refl eq_refl _ _ _ _))).
  - reflexivity.
  - split; reflexivity.
  - reflexivity.
  - vm_compute. discriminate.
Defined.

Lemma swap_dispatch p ev st :
  Tooltip.dispatch (swapProps p) (swapEvent ev) st = Tooltip.dispatch p ev st.
Proof.
  destruct st as [s t].
  destruct ev as [| |n| | |ms]; cbn [swapEvent Tooltip.dispatch];
    unfold Tooltip.handleMouseEnter, Tooltip.handleMouseLeave, Tooltip.handleFocus,
      Tooltip.handleBlur, Tooltip.handleClick, Tooltip.showTooltip;
    cbn [swapProps Tooltip.trigger Tooltip.disabled Tooltip.delay];
    destruct (Tooltip.trigger p); reflexivity.
Qed.

Lemma swap_run p evs : forall st,
  Tooltip.run (swapProps p) (map swapEvent evs) st = Tooltip.run p evs st.
Proof.
  induction evs as [|ev evs IH]; intros st; [reflexivity|].
  change (Tooltip.run (swapProps p) (map swapEvent (ev :: evs)) st)
    with (Tooltip.run (swapProps p) (map swapEvent evs)
            (Tooltip.dispatch (swapProps p) (swapEvent ev) st)).
  rewrite swap_dispatch. apply IH.
Qed.

Lemma swap_trace p evs : forall st,
  Tooltip.trace (swapProps p) (map swapEvent evs) st = Tooltip.trace p evs st.
Proof.
  induction evs as [|ev evs IH]; intros st; [reflexivity|].
  simpl. rewrite swap_dispatch, IH. reflexivity.
Qed.

Lemma swap_elapsed evs : elapsed (map swapEvent evs) = elapsed evs.
Proof.
  induction evs as [|ev evs IH]; [reflexivity|].
  destruct ev; cbn [map swapEvent elapsed]; rewrite IH; reflexivity.
Qed.

Lemma swap_isPointer evs :
  forallb (fun ev => negb (isPointer ev)) (map swapEvent evs)
  = forallb (fun ev => negb (isFocus ev)) evs.
Proof.
  induction evs as [|ev evs IH]; [reflexivity|].
  cbn [map forallb]. rewrite IH. destruct ev; reflexivity.
Qed.

Lemma swap_isEnter evs :
  forallb (fun ev => negb (isEnter ev)) (map swapEvent evs)
  = forallb (fun ev => negb (isFocusIn ev)) evs.
Proof.
  induction evs as [|ev evs IH]; [reflexivity|].
  cbn [map forallb]. rewrite IH. destruct ev; reflexivity.
Qed.

(** The debounce of a hover tooltip, from the lemmas on its runs. *)
Lemma hover_debounce_runs p s t during :
  Tooltip.trigger p = Tooltip.hover ->
  (0 < Tooltip.delay p)%Z ->
  idle (s, t) ->
  forallb (fun ev => negb (isPointer ev)) during = true ->
  (forall after,
      (elapsed during < Tooltip.delay p)%Z ->
      forallb (fun ev => negb (isEnter ev)) after = true ->
      Forall hidden
        (Tooltip.trace p (Tooltip.mouseenter :: during ++ Tooltip.mouseleave :: after) (s, t))
      /\ Tooltip.pending
           (snd (Tooltip.run p (Tooltip.mouseenter :: during ++ [Tooltip.mouseleave]) (s, t)))
         = [])
  /\ (Tooltip.disabled p = false ->
      (Tooltip.delay p <= elapsed during)%Z ->
      Tooltip.isVisible (fst (Tooltip.run p (Tooltip.mouseenter :: during) (s, t))) = true).
Proof.
  intros Ht Hd Hi Hdur. split.
  - intros after Hlt Haft.
    destruct (enter_arms p s t Ht Hd Hi) as [Harm Hnow].
    set (st1 := Tooltip.dispatch p Tooltip.mouseenter (s, t)) in *.
    assert (Hbudget : (Tooltip.now (snd st1) + elapsed during
                       < Tooltip.now t + Tooltip.delay p)%Z) by (rewrite Hnow; lia).
    destruct (armed_during p during st1 _ Ht Hdur Harm Hbudget) as [Htr1 Harm2].
    pose proof (leave_disarms p _ _ Ht Harm2) as Hidle.
    destruct (idle_after p after _ Ht Haft Hidle) as [Htr2 _].
    split.
    + change (Tooltip.trace p (Tooltip.mouseenter :: during ++ Tooltip.mouseleave :: after) (s, t))
        with (st1 :: Tooltip.trace p (during ++ Tooltip.mouseleave :: after) st1).
      constructor; [exact (proj1 Harm)|].
      rewrite trace_app. apply Forall_app. split; [exact Htr1|].
      simpl. constructor; [exact (proj1 Hidle)|exact Htr2].
    + change (Tooltip.run p (Tooltip.mouseenter :: during ++ [Tooltip.mouseleave]) (s, t))
        with (Tooltip.run p (during ++ [Tooltip.mouseleave]) st1).
      rewrite run_app. exact (proj2 Hidle).
  - intros Hdis Hge.
    destruct (enter_ripens p s t Ht Hdis Hd) as [Hr Hnow].
    change (Tooltip.run p (Tooltip.mouseenter :: during) (s, t))
      with (Tooltip.run p during (Tooltip.dispatch p Tooltip.mouseenter (s, t))).
    apply ripening_opens with (D := (Tooltip.now t + Tooltip.delay p)%Z);
      [exact Ht|exact Hdur|exact Hr|].
    rewrite Hnow. lia.
Qed.

(** X24. The delay of a hover tooltip, on the runs with one enter. A
    Tooltip with [trigger = hover] and a positive [delay] (200 by default),
    hidden and with no timer pending when the pointer enters, and no other
    pointer event until the leave. If the pointer leaves before [delay]
    milliseconds have passed, the tooltip is never visible: not while the
    pointer is inside, not at the leave, not at any later time until the
    pointer enters again; the leave cancels the pending timer. If the
    tooltip is not disabled and the pointer stays for at least [delay]
    milliseconds without a leave, the tooltip is visible at the end. *)
Theorem X24_hover_debounce_single_enter :
  forall p s t during,
    Tooltip.trigger p = Tooltip.hover ->
    (0 < Tooltip.delay p)%Z ->
    idle (s, t) ->
    forallb (fun ev => negb (isPointer ev)) during = true ->
    (forall after,
        (elapsed during < Tooltip.delay p)%Z ->
        forallb (fun ev => negb (isEnter ev)) after = true ->
        Forall hidden
          (Tooltip.trace p (Tooltip.mouseenter :: during ++ Tooltip.mouseleave :: after) (s, t))
        /\ Tooltip.pending
             (snd (Tooltip.run p (Tooltip.mouseenter :: during ++ [Tooltip.mouseleave]) (s, t)))
           = [])
    /\ (Tooltip.disabled p = false ->
        (Tooltip.delay p <= elapsed during)%Z ->
        Tooltip.isVisible (fst (Tooltip.run p (Tooltip.mouseenter :: during) (s, t))) = true).
Proof.
  intros p s t during Ht Hd Hi Hdur.
  exact (hover_debounce_runs p s t during Ht Hd Hi Hdur).
Qed.

Lemma X24_hover_debounce_single_enter_witness :
  Forall hidden
    (Tooltip.trace Tooltip.defaultProps
       [Tooltip.mouseenter; Tooltip.tick 100; Tooltip.mouseleave; Tooltip.tick 500]
       (Tooltip.init, idleTimers))
  /\ Tooltip.isVisible
       (fst (Tooltip.run Tooltip.defaultProps [Tooltip.mouseenter; Tooltip.tick 200]
               (Tooltip.init, idleTimers))) = true.
Proof.
  split.
  - refine (proj1 (proj1 (X24_hover_debounce_single_enter Tooltip.defaultProps Tooltip.init
                     idleTimers [Tooltip.tick 100] eq_refl _ _ eq_refl)
                     [Tooltip.tick 500] _ eq_refl)).
    + reflexivity.
    + split; reflexivity.
    + reflexivity.
  - refine (proj2 (X24_hover_debounce_single_enter Tooltip.defaultProps Tooltip.init
                     idleTimers [Tooltip.tick 200] eq_refl _ _ eq_refl)
                     eq_refl _).
    + reflexivity.
    + split; reflexivity.
    + vm_compute. discriminate.
Defined.

(** X8. The delay guards the focus trigger as it guards hover. A Tooltip
    with [trigger = focus] and a positive [delay], hidden and with no timer
    pending when the focus arrives: if the focus leaves before [delay]
    milliseconds have passed the tooltip is never visible, then or later,
    until the focus comes back, and the timer is cancelled; if the tooltip
    is not disabled and the focus stays for [delay] milliseconds or more,
    the tooltip is visible at the end. *)
Theorem X8_focus_debounce :
  forall p s t during,
    Tooltip.trigger p = Tooltip.focus ->
    (0 < Tooltip.delay p)%Z ->
    idle (s, t) ->
    forallb (fun ev => negb (isFocus ev)) during = true ->
    (forall after,
        (elapsed during < Tooltip.delay p)%Z ->
        forallb (fun ev => negb (isFocusIn ev)) after = true ->
        Forall hidden
          (Tooltip.trace p (Tooltip.focusin :: during ++ Tooltip.focusout :: after) (s, t))
        /\ Tooltip.pending
             (snd (Tooltip.run p (Tooltip.focusin :: during ++ [Tooltip.focusout]) (s, t)))
           = [])
    /\ (Tooltip.disabled p = false ->
        (Tooltip.delay p <= elapsed during)%Z ->
        Tooltip.isVisible (fst (Tooltip.run p (Tooltip.focusin :: during) (s, t))) = true).
Proof.
  intros p s t during Ht Hd Hi Hdur.
  assert (Ht' : Tooltip.trigger (swapProps p) = Tooltip.hover)
    by (cbn [swapProps Tooltip.trigger]; rewrite Ht; reflexivity).
  assert (Hdur' : forallb (fun ev => negb (isPointer ev)) (map swapEvent during) = true)
    by (rewrite swap_isPointer; exact Hdur).
  destruct (hover_debounce_runs (swapProps p) s t (map swapEvent during) Ht' Hd Hi Hdur')
    as [Hshort Hlong].
  split.
  - intros after Hlt Haft.
    assert (Haft' : forallb (fun ev => negb (isEnter ev)) (map swapEvent after) = true)
      by (rewrite swap_isEnter; exact Haft).
    rewrite swap_elapsed in Hshort.
    destruct (Hshort (map swapEvent after) Hlt Haft') as [Htr Hp].
    split.
    + rewrite <- swap_trace.
      cbn [map swapEvent]. rewrite map_app. exact Htr.
    + rewrite <- swap_run.
      cbn [map swapEvent]. rewrite map_app. exact Hp.
  - intros Hdis Hge.
    rewrite swap_elapsed in Hlong.
    rewrite <- swap_run. cbn [map swapEvent].
    apply Hlong; assumption.
Qed.


Lemma X8_focus_debounce_witness :
  Forall hidden
    (Tooltip.trace focusProps
       [Tooltip.focusin; Tooltip.tick 150; Tooltip.focusout; Tooltip.tick 300]
       (Tooltip.init, idleTimers))
  /\ Tooltip.isVisible
       (fst (Tooltip.run focusProps [Tooltip.focusin; Tooltip.tick 250]
               (Tooltip.init, idleTimers))) = true.
Proof.
  split.
  - refine (proj1 (proj1 (X8_focus_debounce focusProps Tooltip.init idleTimers
                     [Tooltip.tick 150] eq_refl _ _ eq_refl)
                     [Tooltip.tick 300] _ eq_refl)).
    + reflexivity.
    + split; reflexivity.
    + reflexivity.
  - refine (proj2 (X8_focus_debounce focusProps Tooltip.init idleTimers
                     [Tooltip.tick 250] eq_refl _ _ eq_refl)
                     eq_refl _).
    + reflexivity.
    + split; reflexivity.
    + vm_compute. discriminate.
Defined.

(* ================================================================== *)
(** * The texts and the dates of JavaScript                            *)
(* ================================================================== *)

(** ** Digits *)

Lemma digit_not_space c : JSString.isDigit c = true -> JSString.isSpace c = false.
Proof.
  destruct c as [[] [] [] [] [] [] [] []]; vm_compute; congruence.
Qed.

Lemma digit_not_char c k :
  JSString.isDigit c = true -> JSString.isDigit k = false -> Ascii.eqb c k = false.
Proof.
  intros Hc Hk. destruct (Ascii.eqb_spec c k) as [->|]; congruence.
Qed.

Lemma string_of_uint_digits u : allDigits (NilEmpty.string_of_uint u) = true.
Proof. induction u; cbn; auto. Qed.

Lemma allDigits_app a b : allDigits (a ++ b) = (allDigits a && allDigits b)%bool.
Proof.
  induction a as [|c a IH]; cbn; [reflexivity|].
  rewrite IH. now rewrite andb_assoc.
Qed.

Lemma allDigits_lacks sep s :
  JSString.isDigit sep = false -> allDigits s = true -> lacks sep s = true.
Proof.
  intros Hs. induction s as [|c s IH]; cbn; [reflexivity|].
  intros H. apply andb_prop in H as [Hc H].
  rewrite (digit_not_char c sep Hc Hs). cbn. auto.
Qed.

Lemma digits_all s rest :
  allDigits s = true -> startsWithDigit rest = false ->
  JSString.digits (s ++ rest) = s.
Proof.
  intros H R. induction s as [|c s IH]; cbn in *.
  - destruct rest as [|c r]; cbn in *; [reflexivity|]. now rewrite R.
  - apply andb_prop in H as [Hc H]. rewrite Hc. now rewrite IH.
Qed.

Lemma digits_all_nil s : allDigits s = true -> JSString.digits s = s.
Proof.
  induction s as [|c s IH]; cbn; [reflexivity|].
  intros H. apply andb_prop in H as [Hc H]. now rewrite Hc, IH.
Qed.

(** [parseInt] on a text of digits is its decimal value. *)
Lemma parseInt_digits s :
  allDigits s = true -> s <> EmptyString ->
  JSString.parseInt s = option_map Z.of_uint (NilEmpty.uint_of_string s).
Proof.
  intros H N. destruct s as [|c s]; [congruence|].
  pose proof H as H'. cbn in H'. apply andb_prop in H' as [Hc Hs].
  unfold JSString.parseInt.
  cbn [JSString.trimStart]. rewrite (digit_not_space c Hc).
  rewrite (digit_not_char c "-" Hc eq_refl), (digit_not_char c "+" Hc eq_refl).
  cbn [orb].
  assert (D : JSString.decimalValue (String c s)
              = option_map Z.of_uint (NilEmpty.uint_of_string (String c s))).
  { unfold JSString.decimalValue. rewrite (digits_all_nil _ H). reflexivity. }
  assert (M : forall o : jsint, option_map (Z.mul 1) o = o).
  { intros [z|]; cbn [option_map]; [|reflexivity]. f_equal. lia. }
  destruct s as [|c1 s].
  - rewrite D. apply M.
  - cbn in Hs. apply andb_prop in Hs as [Hc1 Hs].
    rewrite (digit_not_char c1 "x" Hc1 eq_refl), (digit_not_char c1 "X" Hc1 eq_refl).
    rewrite andb_false_r. rewrite D. apply M.
Qed.

Lemma toString_nonneg z :
  (0 <= z)%Z ->
  exists u, JSString.toString (Some z) = NilEmpty.string_of_uint u
            /\ u <> Decimal.Nil /\ Z.of_uint u = z.
Proof.
  intros H. destruct z as [|p|p]; [| |lia].
  - exists (Decimal.D0 Decimal.Nil). repeat split; congruence.
  - exists (Pos.to_uint p). split; [reflexivity|]. split.
    + apply DecimalPos.Unsigned.to_uint_nonnil.
    + unfold Z.of_uint. rewrite DecimalPos.Unsigned.of_to. reflexivity.
Qed.

Lemma string_of_uint_nonempty u :
  u <> Decimal.Nil -> NilEmpty.string_of_uint u <> EmptyString.
Proof. destruct u; cbn; congruence. Qed.

Lemma toString_digits z : (0 <= z)%Z -> allDigits (JSString.toString (Some z)) = true.
Proof.
  intros H. destruct (toString_nonneg z H) as (u & -> & _). apply string_of_uint_digits.
Qed.

Lemma toString_nonempty z : (0 <= z)%Z -> JSString.toString (Some z) <> EmptyString.
Proof.
  intros H. destruct (toString_nonneg z H) as (u & -> & N & _).
  now apply string_of_uint_nonempty.
Qed.

Lemma parseInt_toString z :
  (0 <= z)%Z -> JSString.parseInt (JSString.toString (Some z)) = Some z.
Proof.
  intros H. rewrite parseInt_digits by auto using toString_digits, toString_nonempty.
  destruct (toString_nonneg z H) as (u & -> & _ & V).
  rewrite NilEmpty.usu. cbn. now rewrite V.
Qed.

(** Zeros in front change neither the digits nor the value. *)
Lemma padStart_digits n s :
  allDigits s = true -> allDigits (JSString.padStart n "0" s) = true.
Proof.
  intros H. unfold JSString.padStart. rewrite allDigits_app, H, andb_true_r.
  induction (n - String.length s)%nat; cbn; auto.
Qed.

Lemma padStart_nonempty n c s : s <> EmptyString -> JSString.padStart n c s <> EmptyString.
Proof.
  unfold JSString.padStart. destruct (n - String.length s)%nat; cbn; congruence.
Qed.

Lemma padStart_value n s :
  option_map Z.of_uint (NilEmpty.uint_of_string (JSString.padStart n "0" s))
  = option_map Z.of_uint (NilEmpty.uint_of_string s).
Proof.
  unfold JSString.padStart.
  induction (n - String.length s)%nat as [|k IH]; [reflexivity|].
  cbn [JSString.replicate append NilEmpty.uint_of_string].
  rewrite <- IH.
  destruct (NilEmpty.uint_of_string (JSString.replicate k "0" ++ s)) as [u|];
    reflexivity.
Qed.

Lemma pad2_digits z : (0 <= z)%Z -> allDigits (JSString.pad2 (Some z)) = true.
Proof. intros H. apply padStart_digits, toString_digits, H. Qed.

Lemma pad2_nonempty z : (0 <= z)%Z -> JSString.pad2 (Some z) <> EmptyString.
Proof. intros H. apply padStart_nonempty, toString_nonempty, H. Qed.

Lemma parseInt_pad2 z :
  (0 <= z)%Z -> JSString.parseInt (JSString.pad2 (Some z)) = Some z.
Proof.
  intros H. rewrite parseInt_digits by auto using pad2_digits, pad2_nonempty.
  unfold JSString.pad2. rewrite padStart_value.
  rewrite <- parseInt_digits by auto using toString_digits, toString_nonempty.
  now apply parseInt_toString.
Qed.

(** ** Splitting *)

Lemma split_lacks sep s : lacks sep s = true -> JSString.split sep s = [s].
Proof.
  induction s as [|c s IH]; cbn; [reflexivity|].
  intros H. apply andb_prop in H as [Hc H].
  apply negb_true_iff in Hc. rewrite Hc, (IH H). reflexivity.
Qed.

Lemma split_app sep a b :
  lacks sep a = true ->
  JSString.split sep (a ++ String sep b) = a :: JSString.split sep b.
Proof.
  induction a as [|c a IH]; cbn.
  - intros _. now rewrite Ascii.eqb_refl.
  - intros H. apply andb_prop in H as [Hc H].
    apply negb_true_iff in Hc. rewrite Hc, (IH H). reflexivity.
Qed.

Lemma split_three sep a b c :
  lacks sep a = true -> lacks sep b = true -> lacks sep c = true ->
  JSString.split sep (a ++ String sep (b ++ String sep c)) = [a; b; c].
Proof.
  intros A B C. rewrite (split_app _ _ _ A), (split_app _ _ _ B), (split_lacks _ _ C).
  reflexivity.
Qed.

(** ** Years, months and days *)

Lemma DayFromYear_succ y :
  (Date.DayFromYear (y + 1) = Date.DayFromYear y + Date.DaysInYear y)%Z.
Proof.
  unfold Date.DayFromYear, Date.DaysInYear, Date.InLeapYear.
  destruct (y mod 4 =? 0)%Z eqn:E4; cbn [negb];
  [destruct (y mod 100 =? 0)%Z eqn:E100; cbn [negb];
   [destruct (y mod 400 =? 0)%Z eqn:E400; cbn [negb]|]|];
  repeat match goal with
  | H : (_ =? _)%Z = true |- _ => apply Z.eqb_eq in H
  | H : (_ =? _)%Z = false |- _ => apply Z.eqb_neq in H
  end; euclid.
Qed.

Lemma DayFromYear_mono a b :
  (a <= b)%Z -> (Date.DayFromYear a <= Date.DayFromYear b)%Z.
Proof. intros H. unfold Date.DayFromYear. euclid. Qed.

(** [YearFromDay] is the year the ECMAScript specification defines: the
    one whose days include [d]. *)
Lemma YearFromDay_spec d :
  (Date.DayFromYear (Date.YearFromDay d) <= d
   < Date.DayFromYear (Date.YearFromDay d + 1))%Z.
Proof.
  unfold Date.YearFromDay.
  destruct (Date.DayFromYear (1970 + 400 * d / 146097 + 1) <=? d)%Z eqn:E1.
  - apply Z.leb_le in E1. split; [exact E1|].
    unfold Date.DayFromYear in *. euclid.
  - apply Z.leb_gt in E1.
    destruct (Date.DayFromYear (1970 + 400 * d / 146097) <=? d)%Z eqn:E2.
    + apply Z.leb_le in E2. lia.
    + apply Z.leb_gt in E2.
      replace (1970 + 400 * d / 146097 - 1 + 1)%Z with (1970 + 400 * d / 146097)%Z by lia.
      split; [|lia]. unfold Date.DayFromYear in *. euclid.
Qed.

Lemma YearFromDay_unique y d :
  (Date.DayFromYear y <= d < Date.DayFromYear (y + 1))%Z -> Date.YearFromDay d = y.
Proof.
  intros H. pose proof (YearFromDay_spec d) as S.
  destruct (Z.lt_trichotomy (Date.YearFromDay d) y) as [L|[E|G]]; [|exact E|].
  - pose proof (DayFromYear_mono (Date.YearFromDay d + 1) y ltac:(lia)). lia.
  - pose proof (DayFromYear_mono (y + 1) (Date.YearFromDay d) ltac:(lia)). lia.
Qed.

Lemma daysInMonth_range y m :
  (0 <= m <= 11)%Z -> (28 <= Date.daysInMonth y m <= 31)%Z.
Proof.
  intros H. unfold Date.daysInMonth.
  destruct (Date.InLeapYear y); by_month H; months; lia.
Qed.

(** The fields of the day [dt] of month [m] of year [y] are [y], [m] and
    [dt]. *)
Lemma fields_of_day y m dt :
  (0 <= m <= 11)%Z -> (1 <= dt <= Date.daysInMonth y m)%Z ->
  Date.YearFromDay (dayNumber y m dt) = y
  /\ Date.MonthFromDay (dayNumber y m dt) = m
  /\ Date.DateFromDay (dayNumber y m dt) = dt.
Proof.
  intros Hm Hd.
  assert (Y : Date.YearFromDay (dayNumber y m dt) = y).
  { apply YearFromDay_unique. rewrite DayFromYear_succ.
    unfold Date.DaysInYear, dayNumber. unfold Date.daysInMonth in Hd.
    destruct (Date.InLeapYear y); by_month Hm; months; lia. }
  assert (W : Date.DayWithinYear (dayNumber y m dt)
              = (Date.monthStart (Date.InLeapYear y) m + dt - 1)%Z).
  { unfold Date.DayWithinYear. rewrite Y. unfold dayNumber. lia. }
  assert (M : Date.MonthFromDay (dayNumber y m dt) = m).
  { unfold Date.MonthFromDay. rewrite Y, W. unfold Date.daysInMonth in Hd.
    clear Y W.
    destruct (Date.InLeapYear y); by_month Hm; months; ltbs; reflexivity. }
  split; [exact Y|]. split; [exact M|].
  unfold Date.DateFromDay. rewrite Y, M, W. lia.
Qed.

Lemma DaysInYear_monthStart y :
  Date.DaysInYear y = Date.monthStart (Date.InLeapYear y) 12.
Proof. unfold Date.DaysInYear. destruct (Date.InLeapYear y); reflexivity. Qed.

(** Every day is the day of a month of a year. *)
Lemma day_fields d :
  (0 <= Date.MonthFromDay d <= 11)%Z
  /\ (1 <= Date.DateFromDay d
      <= Date.daysInMonth (Date.YearFromDay d) (Date.MonthFromDay d))%Z
  /\ dayNumber (Date.YearFromDay d) (Date.MonthFromDay d) (Date.DateFromDay d) = d.
Proof.
  pose proof (YearFromDay_spec d) as S. rewrite DayFromYear_succ in S.
  unfold Date.DaysInYear in S.
  unfold dayNumber, Date.DateFromDay, Date.daysInMonth, Date.MonthFromDay, Date.DayWithinYear.
  set (y := Date.YearFromDay d) in *.
  destruct (Date.InLeapYear y); months; ltbs; months; lia.
Qed.

Lemma MakeDay_month y m dt :
  (0 <= m <= 11)%Z -> Date.MakeDay y m dt = dayNumber y m dt.
Proof.
  intros H. unfold Date.MakeDay, dayNumber.
  rewrite Z.div_small, Z.mod_small by lia. now rewrite Z.add_0_r.
Qed.

Lemma MakeDay_next y m dt :
  (0 <= m <= 11)%Z ->
  Date.MakeDay y (m + 1) dt
  = if (m =? 11)%Z then dayNumber (y + 1) 0 dt else dayNumber y (m + 1) dt.
Proof.
  intros H. destruct (Z.eqb_spec m 11) as [->|N].
  - reflexivity.
  - apply MakeDay_month. lia.
Qed.

Lemma MakeDay_previous y m dt :
  (0 <= m <= 11)%Z ->
  Date.MakeDay y (m - 1) dt
  = if (m =? 0)%Z then dayNumber (y - 1) 11 dt else dayNumber y (m - 1) dt.
Proof.
  intros H. destruct (Z.eqb_spec m 0) as [->|N].
  - unfold Date.MakeDay, dayNumber.
    change ((0 - 1) / 12)%Z with (-1)%Z. change ((0 - 1) mod 12)%Z with 11%Z.
    now replace (y + -1)%Z with (y - 1)%Z by lia.
  - apply MakeDay_month. lia.
Qed.

(** Day 0 of the next month is the last day of this one. *)
Lemma MakeDay_last y m :
  (0 <= m <= 11)%Z ->
  Date.MakeDay y (m + 1) 0 = dayNumber y m (Date.daysInMonth y m).
Proof.
  intros H. rewrite (MakeDay_next y m 0 H).
  destruct (Z.eqb_spec m 11) as [->|N].
  - unfold dayNumber, Date.daysInMonth. rewrite DayFromYear_succ, DaysInYear_monthStart.
    change (11 + 1)%Z with 12%Z. change (Date.monthStart (Date.InLeapYear (y + 1)) 0) with 0%Z.
    lia.
  - unfold dayNumber, Date.daysInMonth. lia.
Qed.

Lemma dayNumber_shift y m dt k : dayNumber y m (dt + k) = (dayNumber y m dt + k)%Z.
Proof. unfold dayNumber. lia. Qed.

(** ** Dates *)

Lemma Day_midnight tz d : Date.Day (Date.LocalTime tz (d * Date.msPerDay - tz)) = d.
Proof.
  unfold Date.Day, Date.LocalTime.
  replace (d * Date.msPerDay - tz + tz)%Z with (d * Date.msPerDay)%Z by lia.
  apply Z.div_mul. discriminate.
Qed.

(** The days of the years from 100 to 275000 are within the range of
    [Date], by a wide margin. *)
Lemma DayFromYear_bounds y :
  (100 <= y <= 275000)%Z -> (-683003 <= Date.DayFromYear y <= 99722884)%Z.
Proof. intros H. unfold Date.DayFromYear. euclid. Qed.

Lemma midnight_valid tz y m dt :
  validZone tz -> (100 <= y <= 275000)%Z -> (0 <= m <= 11)%Z -> (-400 <= dt <= 400)%Z ->
  Date.TimeClip (Date.UTC tz (dayNumber y m dt * Date.msPerDay))
  = midnight tz (dayNumber y m dt).
Proof.
  intros Hz Hy Hm Hd. unfold Date.TimeClip, Date.UTC, midnight.
  pose proof (DayFromYear_bounds y Hy) as B.
  assert (M : (0 <= Date.monthStart (Date.InLeapYear y) m <= 366)%Z).
  { destruct (Date.InLeapYear y); by_month Hm; months; lia. }
  unfold validZone, Date.msPerDay in *. unfold dayNumber.
  destruct (Z.leb_spec (Z.abs ((Date.DayFromYear y + Date.monthStart (Date.InLeapYear y) m
                                + dt - 1) * 86400000 - tz)) 8640000000000000);
    [reflexivity|lia].
Qed.

(** [new Date(y, m, dt)] for a year that is not taken for one of the
    twentieth century. *)
Lemma make_modern tz y m dt :
  validZone tz -> (100 <= y <= 275000)%Z -> (0 <= m <= 11)%Z -> (-400 <= dt <= 400)%Z ->
  Date.make tz (Some y) (Some m) (Some dt) = midnight tz (dayNumber y m dt).
Proof.
  intros Hz Hy Hm Hd. unfold Date.make.
  replace ((0 <=? y)%Z && (y <=? 99)%Z) with false
    by (symmetry; apply andb_false_iff; right; apply Z.leb_gt; lia).
  rewrite MakeDay_month by exact Hm.
  now apply midnight_valid.
Qed.

Lemma midnight_fields tz y m dt :
  (0 <= m <= 11)%Z -> (1 <= dt <= Date.daysInMonth y m)%Z ->
  Date.getFullYear tz (midnight tz (dayNumber y m dt)) = Some y
  /\ Date.getMonth tz (midnight tz (dayNumber y m dt)) = Some m
  /\ Date.getDate tz (midnight tz (dayNumber y m dt)) = Some dt.
Proof.
  intros Hm Hd. unfold Date.getFullYear, Date.getMonth, Date.getDate, Date.localField, midnight.
  rewrite Day_midnight.
  destruct (fields_of_day y m dt Hm Hd) as (-> & -> & ->). auto.
Qed.

Lemma midnight_getDay tz d :
  Date.getDay tz (midnight tz d) = Some (Date.WeekDay d).
Proof.
  unfold Date.getDay, Date.localField, midnight. now rewrite Day_midnight.
Qed.

(* ================================================================== *)
(** * DatePicker: dates                                                *)
(* ================================================================== *)

(** ** Reading a formatted date back *)

Lemma formatDate_fields tz date format :
  DatePickerDates.formatDate tz date format
  = formatFields format (Date.getFullYear tz date) (Date.getMonth tz date)
      (Date.getDate tz date).
Proof. destruct format; reflexivity. Qed.

Lemma append_nonempty a b : a <> EmptyString -> String.eqb (a ++ b) "" = false.
Proof. destruct a; [congruence|reflexivity]. Qed.

Lemma app_String a c b : (a ++ String c b)%string = (a ++ String c "" ++ b)%string.
Proof. reflexivity. Qed.

(** The text of three fields that are not negative parses to the date
    [new Date] makes of them. *)
Lemma parseDate_of_fields p tz y m dt :
  (0 <= y)%Z -> (0 <= m)%Z -> (0 <= dt)%Z ->
  DatePickerDates.parseDate p tz
    (formatFields (DatePickerDates.format p) (Some y) (Some m) (Some dt))
  = let date := Date.make tz (Some y) (Some m) (Some dt) in
    if JSInt.isNaN (Date.getTime date) then None else Some date.
Proof.
  intros Hy Hm Hd.
  assert (Dy := toString_digits y Hy). assert (Ny := toString_nonempty y Hy).
  assert (Dm := pad2_digits (m + 1) ltac:(lia)).
  assert (Nm := pad2_nonempty (m + 1) ltac:(lia)).
  assert (Dd := pad2_digits dt Hd). assert (Nd := pad2_nonempty dt Hd).
  assert (Py := parseInt_toString y Hy).
  assert (Pm := parseInt_pad2 (m + 1) ltac:(lia)).
  assert (Pd := parseInt_pad2 dt Hd).
  assert (S : forall sep a b c,
             JSString.isDigit sep = false ->
             allDigits a = true -> allDigits b = true -> allDigits c = true ->
             JSString.split sep (a ++ String sep "" ++ b ++ String sep "" ++ c) = [a; b; c]).
  { intros sep a b c Hs A B C. apply split_three; now apply allDigits_lacks. }
  assert (M : JSInt.sub (Some (m + 1)%Z) 1 = Some m).
  { cbn. f_equal. lia. }
  unfold DatePickerDates.parseDate, formatFields.
  cbn [JSInt.add option_map].
  destruct (DatePickerDates.format p);
    rewrite append_nonempty by assumption;
    rewrite S by (assumption || reflexivity);
    cbn [List.length Nat.eqb negb DatePickerDates.item nth];
    rewrite Py, Pm, Pd, M; reflexivity.
Qed.

Lemma localDay_fields tz tv :
  Date.getFullYear tz (Date.Time tv) = Some (Date.YearFromDay (localDay tz tv))
  /\ Date.getMonth tz (Date.Time tv) = Some (Date.MonthFromDay (localDay tz tv))
  /\ Date.getDate tz (Date.Time tv) = Some (Date.DateFromDay (localDay tz tv)).
Proof. repeat split. Qed.

Lemma midnight_fields_of_day tz d :
  Date.getFullYear tz (midnight tz d) = Some (Date.YearFromDay d)
  /\ Date.getMonth tz (midnight tz d) = Some (Date.MonthFromDay d)
  /\ Date.getDate tz (midnight tz d) = Some (Date.DateFromDay d).
Proof.
  unfold Date.getFullYear, Date.getMonth, Date.getDate, Date.localField, midnight.
  rewrite Day_midnight. auto.
Qed.

Lemma localDay_le tz tv : (localDay tz tv * Date.msPerDay <= tv + tz)%Z.
Proof. unfold localDay, Date.Day, Date.LocalTime, Date.msPerDay. euclid. Qed.

Lemma sameDay_midnight tz tv :
  DatePickerDates.sameDay tz (midnight tz (localDay tz tv)) (Date.Time tv) = true.
Proof.
  unfold DatePickerDates.sameDay.
  destruct (midnight_fields_of_day tz (localDay tz tv)) as (-> & -> & ->).
  destruct (localDay_fields tz tv) as (-> & -> & ->).
  cbn. now rewrite !Z.eqb_refl.
Qed.

(** The text of a date of the year 100 or later parses to local midnight
    of the same day. *)
Lemma parseDate_formatDate p tz tv :
  validZone tz -> validTime tv ->
  (100 <= Date.YearFromDay (localDay tz tv))%Z ->
  DatePickerDates.parseDate p tz
    (DatePickerDates.formatDate tz (Date.Time tv) (DatePickerDates.format p))
  = Some (midnight tz (localDay tz tv)).
Proof.
  intros Hz Hv H100.
  rewrite formatDate_fields.
  destruct (localDay_fields tz tv) as (Ey & Em & Ed). rewrite Ey, Em, Ed.
  set (d := localDay tz tv) in *.
  destruct (day_fields d) as (Rm & Rd & Nd).
  rewrite parseDate_of_fields by lia.
  cbv zeta. unfold Date.make.
  replace ((0 <=? Date.YearFromDay d)%Z && (Date.YearFromDay d <=? 99)%Z) with false
    by (symmetry; apply andb_false_iff; right; apply Z.leb_gt; lia).
  rewrite MakeDay_month by exact Rm. rewrite Nd.
  assert (L : (Date.DayFromYear 100 <= d)%Z).
  { pose proof (YearFromDay_spec d) as S.
    pose proof (DayFromYear_mono 100 (Date.YearFromDay d) ltac:(lia)). lia. }
  change (Date.DayFromYear 100) with (-683003)%Z in L.
  pose proof (localDay_le tz tv) as U. fold d in U.
  unfold Date.TimeClip, Date.UTC, midnight.
  unfold validZone, validTime, Date.msPerDay in *.
  destruct (Z.leb_spec (Z.abs (d * 86400000 - tz)) 8640000000000000); [reflexivity|lia].
Qed.

(** X9. For a date of the year 100 or later, in each of the four formats,
    [parseDate] reads the text of [formatDate] back as local midnight of
    the same day. *)
Theorem X9_parseDate_reads_formatDate_back p tz tv y :
  validZone tz -> validTime tv ->
  Date.getFullYear tz (Date.Time tv) = Some y -> (100 <= y)%Z ->
  DatePickerDates.parseDate p tz
    (DatePickerDates.formatDate tz (Date.Time tv) (DatePickerDates.format p))
  = Some (midnight tz (localDay tz tv))
  /\ DatePickerDates.sameDay tz (midnight tz (localDay tz tv)) (Date.Time tv) = true.
Proof.
  intros Hz Hv Hy H100. split; [|apply sameDay_midnight].
  apply parseDate_formatDate; try assumption.
  destruct (localDay_fields tz tv) as (Ey & _). rewrite Ey in Hy.
  injection Hy as ->. exact H100.
Qed.

Lemma X9_parseDate_reads_formatDate_back_witness :
  DatePickerDates.parseDate DatePickerDates.defaultProps sampleZone
    (DatePickerDates.formatDate sampleZone (Date.Time leapDay) DatePickerDates.MM_DD_YYYY)
  = Some (midnight sampleZone (localDay sampleZone leapDay)).
Proof.
  refine (proj1 (X9_parseDate_reads_formatDate_back DatePickerDates.defaultProps
                   sampleZone leapDay 2024 _ _ _ _)).
  - vm_compute. discriminate.
  - vm_compute. discriminate.
  - reflexivity.
  - lia.
Defined.

(** X10. A date of the years 0 to 99 is not read back: the text of
    [formatDate] parses to a date 1900 years later, since [new Date] takes
    a year below 100 for one of the twentieth century. *)
Theorem X10_first_century_is_read_as_twentieth p tz tv y :
  validZone tz ->
  Date.getFullYear tz (Date.Time tv) = Some y -> (0 <= y <= 99)%Z ->
  exists date,
    DatePickerDates.parseDate p tz
      (DatePickerDates.formatDate tz (Date.Time tv) (DatePickerDates.format p))
    = Some date
    /\ Date.getFullYear tz date = Some (1900 + y)%Z.
Proof.
  intros Hz Hy Hc.
  rewrite formatDate_fields.
  destruct (localDay_fields tz tv) as (Ey & Em & Ed). rewrite Ey, Em, Ed.
  rewrite Ey in Hy. injection Hy as Hy.
  set (d := localDay tz tv) in *.
  destruct (day_fields d) as (Rm & Rd & _).
  rewrite Hy in Rd |- *. clear Ey Em Ed.
  generalize dependent (Date.DateFromDay d). generalize dependent (Date.MonthFromDay d).
  intros m Rm dt Rd.
  rewrite parseDate_of_fields by lia.
  cbv zeta. unfold Date.make.
  replace ((0 <=? y)%Z && (y <=? 99)%Z) with true
    by (symmetry; apply andb_true_iff; split; apply Z.leb_le; lia).
  rewrite MakeDay_month by exact Rm.
  pose proof (daysInMonth_range y _ Rm) as Rdim.
  rewrite midnight_valid by (try assumption; lia).
  cbn [Date.getTime JSInt.isNaN midnight].
  eexists. split; [reflexivity|].
  destruct (midnight_fields_of_day tz (dayNumber (1900 + y) m dt)) as (-> & _).
  f_equal. apply YearFromDay_unique. rewrite DayFromYear_succ.
  unfold dayNumber, Date.DaysInYear.
  unfold Date.daysInMonth in Rd.
  destruct (Date.InLeapYear (1900 + y)), (Date.InLeapYear y);
    by_month Rm; months; lia.
Qed.

Lemma X10_first_century_is_read_as_twentieth_witness :
  exists date,
    DatePickerDates.parseDate DatePickerDates.defaultProps 0
      (DatePickerDates.formatDate 0 (Date.Time ancientDay) DatePickerDates.MM_DD_YYYY)
    = Some date
    /\ Date.getFullYear 0 date = Some 1950%Z.
Proof.
  refine (X10_first_century_is_read_as_twentieth DatePickerDates.defaultProps 0
            ancientDay 50 _ _ _).
  - vm_compute. discriminate.
  - reflexivity.
  - lia.
Defined.

(** ** The calendar grid *)

Lemma WeekDay_range d : (0 <= Date.WeekDay d <= 6)%Z.
Proof. unfold Date.WeekDay. euclid. Qed.

Lemma make_last_day tz y m :
  validZone tz -> (100 <= y <= 275000)%Z -> (0 <= m <= 11)%Z ->
  Date.make tz (Some y) (JSInt.add (Some m) 1) (Some 0%Z)
  = midnight tz (dayNumber y m (Date.daysInMonth y m)).
Proof.
  intros Hz Hy Hm. unfold Date.make. cbn [JSInt.add option_map].
  replace ((0 <=? y)%Z && (y <=? 99)%Z) with false
    by (symmetry; apply andb_false_iff; right; apply Z.leb_gt; lia).
  rewrite MakeDay_last by exact Hm.
  pose proof (daysInMonth_range y m Hm).
  apply midnight_valid; (assumption || lia).
Qed.

(** The grid of a month: the empty cells, then one cell for each day. *)
Lemma getDaysInMonth_cells tz tv y m :
  validZone tz ->
  Date.getFullYear tz (Date.Time tv) = Some y ->
  Date.getMonth tz (Date.Time tv) = Some m ->
  (100 <= y <= 275000)%Z ->
  (0 <= m <= 11)%Z
  /\ DatePickerDates.getDaysInMonth tz (Date.Time tv)
     = repeat None (leadingCells y m) ++ dayCells tz y m.
Proof.
  intros Hz Ey Em Hy.
  assert (Hm : (0 <= m <= 11)%Z).
  { destruct (localDay_fields tz tv) as (_ & Em' & _). rewrite Em' in Em.
    injection Em as <-. apply day_fields. }
  split; [exact Hm|].
  pose proof (daysInMonth_range y m Hm) as Rdim.
  unfold DatePickerDates.getDaysInMonth. rewrite Ey, Em.
  rewrite make_last_day by assumption.
  rewrite (make_modern tz y m 1) by (assumption || lia).
  rewrite midnight_getDay.
  destruct (midnight_fields tz y m (Date.daysInMonth y m) Hm ltac:(lia)) as (_ & _ & ->).
  cbn [JSInt.iterations]. fold (leadingCells y m). f_equal.
  unfold dayCells. apply map_ext_in. intros i Hi. apply in_seq in Hi.
  rewrite make_modern by (assumption || lia). reflexivity.
Qed.

Lemma dayCells_nth tz y m k :
  (1 <= k <= Date.daysInMonth y m)%Z ->
  nth_error (dayCells tz y m) (Z.to_nat k - 1) = Some (Some (midnight tz (dayNumber y m k))).
Proof.
  intros Hk. unfold dayCells. rewrite nth_error_map, nth_error_seq.
  replace (Z.to_nat k - 1 <? Z.to_nat (Date.daysInMonth y m))%nat with true
    by (symmetry; apply Nat.ltb_lt; lia).
  cbn [option_map]. do 4 f_equal. lia.
Qed.

Lemma WeekDay_shift d k :
  (0 <= k)%Z ->
  Date.WeekDay (d + k) = Z.of_nat ((Z.to_nat (Date.WeekDay d) + Z.to_nat k) mod 7).
Proof.
  intros Hk. pose proof (WeekDay_range d) as R.
  rewrite Nat2Z.inj_mod, Nat2Z.inj_add, !Z2Nat.id by lia.
  unfold Date.WeekDay in *. change (Z.of_nat 7) with 7%Z.
  rewrite Zplus_mod_idemp_l. f_equal. lia.
Qed.

(** X11. The grid of the month on display, for the years 100 to 275000:
    as many empty cells as the day of the week of the first of the month,
    then one cell for each day of the month in order, each the local
    midnight of that day, and each in the column (cell index modulo 7) of
    its day of the week. *)
Theorem X11_calendar_grid tz tv y m :
  validZone tz ->
  Date.getFullYear tz (Date.Time tv) = Some y ->
  Date.getMonth tz (Date.Time tv) = Some m ->
  (100 <= y <= 275000)%Z ->
  let cells := DatePickerDates.getDaysInMonth tz (Date.Time tv) in
  let lead := leadingCells y m in
  List.length cells = (lead + Z.to_nat (Date.daysInMonth y m))%nat
  /\ (lead <= 6)%nat
  /\ (forall i, (i < lead)%nat -> nth_error cells i = Some None)
  /\ (forall k, (1 <= k <= Date.daysInMonth y m)%Z ->
        let i := (lead + (Z.to_nat k - 1))%nat in
        nth_error cells i = Some (Some (midnight tz (dayNumber y m k)))
        /\ Date.getFullYear tz (midnight tz (dayNumber y m k)) = Some y
        /\ Date.getMonth tz (midnight tz (dayNumber y m k)) = Some m
        /\ Date.getDate tz (midnight tz (dayNumber y m k)) = Some k
        /\ Date.getDay tz (midnight tz (dayNumber y m k)) = Some (Z.of_nat (i mod 7))).
Proof.
  intros Hz Ey Em Hy cells lead.
  destruct (getDaysInMonth_cells tz tv y m Hz Ey Em Hy) as (Hm & E).
  subst cells. rewrite E. clear E.
  pose proof (WeekDay_range (dayNumber y m 1)) as W.
  split.
  { rewrite length_app, repeat_length. unfold dayCells.
    now rewrite length_map, length_seq. }
  split; [unfold lead, leadingCells; lia|].
  split.
  { intros i Hi. rewrite nth_error_app1 by (rewrite repeat_length; exact Hi).
    now apply nth_error_repeat. }
  intros k Hk i.
  split.
  { unfold i. rewrite nth_error_app2 by (rewrite repeat_length; lia).
    rewrite repeat_length. fold lead.
    replace (lead + (Z.to_nat k - 1) - lead)%nat with (Z.to_nat k - 1)%nat by lia.
    now apply dayCells_nth. }
  destruct (midnight_fields tz y m k Hm Hk) as (-> & -> & ->).
  repeat split.
  rewrite midnight_getDay. f_equal.
  replace (dayNumber y m k) with (dayNumber y m 1 + (k - 1))%Z
    by (unfold dayNumber; lia).
  rewrite WeekDay_shift by lia. unfold i, lead, leadingCells.
  do 3 f_equal. lia.
Qed.

Lemma X11_calendar_grid_witness :
  List.length (DatePickerDates.getDaysInMonth sampleZone (Date.Time leapDay))
  = (leadingCells 2024 1 + Z.to_nat (Date.daysInMonth 2024 1))%nat.
Proof.
  refine (proj1 (X11_calendar_grid sampleZone leapDay 2024 1 _ _ _ _)).
  - vm_compute. discriminate.
  - reflexivity.
  - reflexivity.
  - lia.
Defined.

(** ** From month to month *)

Lemma make_next_month tz y m :
  validZone tz -> (100 <= y <= 274999)%Z -> (0 <= m <= 11)%Z ->
  Date.make tz (Some y) (JSInt.add (Some m) 1) (Some 1%Z) = midnight tz (nextMonth y m).
Proof.
  intros Hz Hy Hm. unfold Date.make, nextMonth. cbn [JSInt.add option_map].
  replace ((0 <=? y)%Z && (y <=? 99)%Z) with false
    by (symmetry; apply andb_false_iff; right; apply Z.leb_gt; lia).
  rewrite MakeDay_next by exact Hm.
  destruct (m =? 11)%Z eqn:E; apply midnight_valid; (assumption || lia).
Qed.

Lemma make_previous_month tz y m :
  validZone tz -> (101 <= y <= 275000)%Z -> (0 <= m <= 11)%Z ->
  Date.make tz (Some y) (JSInt.sub (Some m) 1) (Some 1%Z) = midnight tz (previousMonth y m).
Proof.
  intros Hz Hy Hm. unfold Date.make, previousMonth. cbn [JSInt.sub option_map].
  replace ((0 <=? y)%Z && (y <=? 99)%Z) with false
    by (symmetry; apply andb_false_iff; right; apply Z.leb_gt; lia).
  rewrite MakeDay_previous by exact Hm.
  destruct (m =? 0)%Z eqn:E; apply midnight_valid; (assumption || lia).
Qed.

Lemma first_day_fields tz y m :
  (0 <= m <= 11)%Z ->
  Date.getFullYear tz (midnight tz (dayNumber y m 1)) = Some y
  /\ Date.getMonth tz (midnight tz (dayNumber y m 1)) = Some m.
Proof.
  intros Hm. pose proof (daysInMonth_range y m Hm).
  destruct (midnight_fields tz y m 1 Hm ltac:(lia)) as (-> & -> & _). auto.
Qed.

Lemma previous_of_next y m :
  (0 <= m <= 11)%Z ->
  exists y' m', nextMonth y m = dayNumber y' m' 1 /\ (0 <= m' <= 11)%Z
                /\ (y <= y' <= y + 1)%Z /\ previousMonth y' m' = dayNumber y m 1.
Proof.
  intros Hm. unfold nextMonth. destruct (Z.eqb_spec m 11) as [->|N].
  - exists (y + 1)%Z, 0%Z. repeat split; try lia.
    unfold previousMonth. cbn. now replace (y + 1 - 1)%Z with y by lia.
  - exists y, (m + 1)%Z. repeat split; try lia.
    unfold previousMonth. destruct (Z.eqb_spec (m + 1) 0); [lia|].
    now replace (m + 1 - 1)%Z with m by lia.
Qed.

Lemma next_of_previous y m :
  (0 <= m <= 11)%Z ->
  exists y' m', previousMonth y m = dayNumber y' m' 1 /\ (0 <= m' <= 11)%Z
                /\ (y - 1 <= y' <= y)%Z /\ nextMonth y' m' = dayNumber y m 1.
Proof.
  intros Hm. unfold previousMonth. destruct (Z.eqb_spec m 0) as [->|N].
  - exists (y - 1)%Z, 11%Z. repeat split; try lia.
    unfold nextMonth. cbn. now replace (y - 1 + 1)%Z with y by lia.
  - exists y, (m - 1)%Z. repeat split; try lia.
    unfold nextMonth. destruct (Z.eqb_spec (m - 1) 11); [lia|].
    now replace (m - 1 + 1)%Z with m by lia.
Qed.

(** X12. For the years 101 to 274999, the arrows of the calendar show the
    first day of the next and of the previous month, December leading to
    January of the next year and January to December of the year before,
    and one arrow after the other comes back to the month on display. *)
Theorem X12_month_navigation tz s tv y m :
  validZone tz ->
  DatePickerDates.currentMonth s = Date.Time tv ->
  Date.getFullYear tz (Date.Time tv) = Some y ->
  Date.getMonth tz (Date.Time tv) = Some m ->
  (101 <= y <= 274999)%Z ->
  DatePickerDates.currentMonth (DatePickerDates.goToNextMonth tz s)
  = midnight tz (nextMonth y m)
  /\ DatePickerDates.currentMonth (DatePickerDates.goToPreviousMonth tz s)
     = midnight tz (previousMonth y m)
  /\ DatePickerDates.currentMonth
       (DatePickerDates.goToPreviousMonth tz (DatePickerDates.goToNextMonth tz s))
     = midnight tz (dayNumber y m 1)
  /\ DatePickerDates.currentMonth
       (DatePickerDates.goToNextMonth tz (DatePickerDates.goToPreviousMonth tz s))
     = midnight tz (dayNumber y m 1)
  /\ Date.getFullYear tz (midnight tz (nextMonth y m))
     = Some (if (m =? 11)%Z then y + 1 else y)%Z
  /\ Date.getMonth tz (midnight tz (nextMonth y m))
     = Some (if (m =? 11)%Z then 0 else m + 1)%Z
  /\ Date.getFullYear tz (midnight tz (previousMonth y m))
     = Some (if (m =? 0)%Z then y - 1 else y)%Z
  /\ Date.getMonth tz (midnight tz (previousMonth y m))
     = Some (if (m =? 0)%Z then 11 else m - 1)%Z.
Proof.
  intros Hz Hs Ey Em Hy.
  assert (Hm : (0 <= m <= 11)%Z).
  { destruct (localDay_fields tz tv) as (_ & Em' & _). rewrite Em' in Em.
    injection Em as <-. apply day_fields. }
  assert (N : DatePickerDates.currentMonth (DatePickerDates.goToNextMonth tz s)
              = midnight tz (nextMonth y m)).
  { unfold DatePickerDates.goToNextMonth. cbn [DatePickerDates.currentMonth
      DatePickerDates.setCurrentMonth]. rewrite Hs, Ey, Em.
    apply make_next_month; (assumption || lia). }
  assert (P : DatePickerDates.currentMonth (DatePickerDates.goToPreviousMonth tz s)
              = midnight tz (previousMonth y m)).
  { unfold DatePickerDates.goToPreviousMonth. cbn [DatePickerDates.currentMonth
      DatePickerDates.setCurrentMonth]. rewrite Hs, Ey, Em.
    apply make_previous_month; (assumption || lia). }
  split; [exact N|]. split; [exact P|]. split; [|split; [|split; [|split; [|split]]]].
  - destruct (previous_of_next y m Hm) as (y' & m' & E & Hm' & Hy' & B).
    unfold DatePickerDates.goToPreviousMonth at 1.
    cbn [DatePickerDates.currentMonth DatePickerDates.setCurrentMonth].
    fold (DatePickerDates.currentMonth (DatePickerDates.goToNextMonth tz s)).
    rewrite N, E.
    destruct (first_day_fields tz y' m' Hm') as (-> & ->).
    rewrite make_previous_month by (assumption || lia). now rewrite B.
  - destruct (next_of_previous y m Hm) as (y' & m' & E & Hm' & Hy' & B).
    unfold DatePickerDates.goToNextMonth at 1.
    cbn [DatePickerDates.currentMonth DatePickerDates.setCurrentMonth].
    fold (DatePickerDates.currentMonth (DatePickerDates.goToPreviousMonth tz s)).
    rewrite P, E.
    destruct (first_day_fields tz y' m' Hm') as (-> & ->).
    rewrite make_next_month by (assumption || lia). now rewrite B.
  - unfold nextMonth. destruct (Z.eqb_spec m 11).
    + apply (first_day_fields tz (y + 1) 0). lia.
    + apply (first_day_fields tz y (m + 1)). lia.
  - unfold nextMonth. destruct (Z.eqb_spec m 11).
    + apply (first_day_fields tz (y + 1) 0). lia.
    + apply (first_day_fields tz y (m + 1)). lia.
  - unfold previousMonth. destruct (Z.eqb_spec m 0).
    + apply (first_day_fields tz (y - 1) 11). lia.
    + apply (first_day_fields tz y (m - 1)). lia.
  - unfold previousMonth. destruct (Z.eqb_spec m 0).
    + apply (first_day_fields tz (y - 1) 11). lia.
    + apply (first_day_fields tz y (m - 1)). lia.
Qed.

Lemma X12_month_navigation_witness :
  DatePickerDates.currentMonth (DatePickerDates.goToNextMonth sampleZone openPicker)
  = midnight sampleZone (nextMonth 2024 1).
Proof.
  refine (proj1 (X12_month_navigation sampleZone openPicker leapDay 2024 1 _ eq_refl _ _ _)).
  - vm_compute. discriminate.
  - reflexivity.
  - reflexivity.
  - lia.
Defined.

(** ** DatePicker and TimeInput: opening and closing *)

Lemma DatePicker_disabled_closed p tz ev s :
  DatePickerDates.disabled p = true -> DatePickerDates.isOpen s = false ->
  DatePickerDates.dispatch p tz ev s = (s, []).
Proof.
  intros Hd Hc. destruct s as [[o] sel cur txt].
  unfold DatePickerDates.isOpen in Hc. cbn in Hc. subst o.
  destruct ev; cbn; rewrite ?Hd; reflexivity.
Qed.

Lemma TimeInput_disabled_closed p tz ev s :
  TimeInput.disabled p = true -> TimeInput.isOpen s = false ->
  TimeInput.dispatch p tz ev s = (s, []).
Proof.
  intros Hd Hc. destruct s as [o sel txt]. cbn in Hc. subst o.
  destruct ev as [| | | | | [] | [] | | |]; cbn; rewrite ?Hd; reflexivity.
Qed.

(** X13. A disabled [DatePicker] or [TimeInput] that is closed ignores
    every event: no run of events changes any of its state cells, and no
    event calls [onChange], [onDateChange] or [onTimeChange]. *)
Theorem X13_disabled_closed_picker_ignores_events p q tz evs evs' s s' :
  DatePickerDates.disabled p = true -> DatePickerDates.isOpen s = false ->
  TimeInput.disabled q = true -> TimeInput.isOpen s' = false ->
  DatePickerDates.run p tz evs s = s
  /\ Forall (fun ev => DatePickerDates.dispatch p tz ev s = (s, [])) evs
  /\ TimeInput.run q tz evs' s' = s'
  /\ Forall (fun ev => TimeInput.dispatch q tz ev s' = (s', [])) evs'.
Proof.
  intros Hd Hc Hd' Hc'. repeat split.
  - induction evs as [|ev evs IH]; [reflexivity|].
    cbn [DatePickerDates.run]. now rewrite DatePicker_disabled_closed.
  - apply Forall_forall. intros ev _. now apply DatePicker_disabled_closed.
  - induction evs' as [|ev evs' IH]; [reflexivity|].
    cbn [TimeInput.run]. now rewrite TimeInput_disabled_closed.
  - apply Forall_forall. intros ev _. now apply TimeInput_disabled_closed.
Qed.

Lemma X13_disabled_closed_picker_ignores_events_witness :
  DatePickerDates.run disabledPicker sampleZone
    [DatePickerDates.inputClick; DatePickerDates.change "02/29/2024";
     DatePickerDates.keydown "Enter"; DatePickerDates.todayClick leapDay]
    (DatePickerDates.init leapDay)
  = DatePickerDates.init leapDay.
Proof.
  exact (proj1 (X13_disabled_closed_picker_ignores_events disabledPicker disabledTimeInput
                  sampleZone
                  [DatePickerDates.inputClick; DatePickerDates.change "02/29/2024";
                   DatePickerDates.keydown "Enter"; DatePickerDates.todayClick leapDay]
                  [TimeInput.inputClick]
                  (DatePickerDates.init leapDay) TimeInput.init
                  eq_refl eq_refl eq_refl eq_refl)).
Defined.

(** X14. In a [DatePicker] or [TimeInput] that is not disabled, a click
    with the mouse on the input or on the button beside it always ends
    with the picker open: if it was open, the press closes it, as a press
    outside the floating element, and the click that follows opens it
    again. The Enter and the space key toggle it. *)
Theorem X14_mouse_click_on_input_ends_open p q tz s s' :
  DatePickerDates.disabled p = false -> TimeInput.disabled q = false ->
  DatePickerDates.isOpen
    (DatePickerDates.run p tz
       [DatePickerDates.mousedown in_trigger; DatePickerDates.inputClick] s) = true
  /\ DatePickerDates.isOpen
       (DatePickerDates.run p tz
          [DatePickerDates.mousedown in_trigger; DatePickerDates.buttonClick] s) = true
  /\ DatePickerDates.isOpen (DatePickerDates.run p tz [DatePickerDates.keydown "Enter"] s)
     = negb (DatePickerDates.isOpen s)
  /\ DatePickerDates.isOpen (DatePickerDates.run p tz [DatePickerDates.keydown " "] s)
     = negb (DatePickerDates.isOpen s)
  /\ TimeInput.isOpen
       (TimeInput.run q tz [TimeInput.mousedown in_trigger; TimeInput.inputClick] s') = true
  /\ TimeInput.isOpen
       (TimeInput.run q tz [TimeInput.mousedown in_trigger; TimeInput.buttonClick] s') = true
  /\ TimeInput.isOpen (TimeInput.run q tz [TimeInput.keydown "Enter"] s')
     = negb (TimeInput.isOpen s')
  /\ TimeInput.isOpen (TimeInput.run q tz [TimeInput.keydown " "] s')
     = negb (TimeInput.isOpen s').
Proof.
  intros Hp Hq.
  destruct s as [[o] sel cur txt], s' as [o' sel' txt'].
  unfold DatePickerDates.isOpen.
  cbn [DatePickerDates.run TimeInput.run DatePickerDates.dispatch TimeInput.dispatch fst].
  rewrite Hp, Hq.
  unfold DatePickerDates.handleInputKeyDown, TimeInput.handleInputKeyDown,
    DatePickerDates.handleInputClick, TimeInput.handleInputClick,
    DatePicker.handleInputClick, DatePickerDates.openProps.
  cbn. rewrite Hp, Hq.
  destruct o, o'; cbn; rewrite ?Hq; repeat split; reflexivity.
Qed.

Lemma X14_mouse_click_on_input_ends_open_witness :
  DatePickerDates.isOpen
    (DatePickerDates.run DatePickerDates.defaultProps sampleZone
       [DatePickerDates.mousedown in_trigger; DatePickerDates.inputClick] openPicker) = true.
Proof.
  exact (proj1 (X14_mouse_click_on_input_ends_open DatePickerDates.defaultProps
                  TimeInput.defaultProps sampleZone openPicker TimeInput.init
                  eq_refl eq_refl)).
Defined.

(** ** Picking a day *)

Lemma getDaysInMonth_day tz tv y m k :
  validZone tz ->
  Date.getFullYear tz (Date.Time tv) = Some y ->
  Date.getMonth tz (Date.Time tv) = Some m ->
  (100 <= y <= 275000)%Z ->
  (1 <= k <= Date.daysInMonth y m)%Z ->
  nth_error (DatePickerDates.getDaysInMonth tz (Date.Time tv))
    (leadingCells y m + (Z.to_nat k - 1))
  = Some (Some (midnight tz (dayNumber y m k))).
Proof.
  intros Hz Ey Em Hy Hk.
  destruct (getDaysInMonth_cells tz tv y m Hz Ey Em Hy) as (Hm & ->).
  rewrite nth_error_app2 by (rewrite repeat_length; lia).
  rewrite repeat_length.
  replace (leadingCells y m + (Z.to_nat k - 1) - leadingCells y m)%nat
    with (Z.to_nat k - 1)%nat by lia.
  now apply dayCells_nth.
Qed.

Lemma midnight_round_trip p tz y m k :
  validZone tz -> (100 <= y <= 275000)%Z -> (0 <= m <= 11)%Z ->
  (1 <= k <= Date.daysInMonth y m)%Z ->
  DatePickerDates.parseDate p tz
    (DatePickerDates.formatDate tz (midnight tz (dayNumber y m k)) (DatePickerDates.format p))
  = Some (midnight tz (dayNumber y m k)).
Proof.
  intros Hz Hy Hm Hk.
  pose proof (daysInMonth_range y m Hm) as Rdim.
  assert (D : localDay tz (dayNumber y m k * Date.msPerDay - tz) = dayNumber y m k)
    by apply Day_midnight.
  destruct (fields_of_day y m k Hm Hk) as (Y & _).
  unfold midnight at 1. rewrite parseDate_formatDate.
  - now rewrite D.
  - exact Hz.
  - pose proof (midnight_valid tz y m k Hz Hy Hm ltac:(lia)) as V.
    unfold Date.TimeClip, Date.UTC, midnight in V. unfold validTime.
    destruct (Z.leb_spec (Z.abs (dayNumber y m k * Date.msPerDay - tz)) 8640000000000000);
      [assumption|discriminate].
  - rewrite D, Y. lia.
Qed.

(** X15. A click on a day of the grid that is not disabled, for the years
    100 to 275000: the calendar closes, the day is the selected date and
    the month on display, the callbacks receive it, the text put in the
    input parses back to exactly the selected date, and of the cells of
    the month the one that was clicked is the only one marked as
    selected. *)
Theorem X15_day_click_selects_and_text_agrees p tz s tv y m k :
  validZone tz ->
  DatePickerDates.isOpen s = true ->
  DatePickerDates.currentMonth s = Date.Time tv ->
  Date.getFullYear tz (Date.Time tv) = Some y ->
  Date.getMonth tz (Date.Time tv) = Some m ->
  (100 <= y <= 275000)%Z ->
  (1 <= k <= Date.daysInMonth y m)%Z ->
  DatePickerDates.isDateDisabled p (midnight tz (dayNumber y m k)) = false ->
  let day := midnight tz (dayNumber y m k) in
  let r := DatePickerDates.dispatch p tz
             (DatePickerDates.dayClick (leadingCells y m + (Z.to_nat k - 1))) s in
  DatePickerDates.isOpen (fst r) = false
  /\ DatePickerDates.selectedDate (fst r) = Some day
  /\ DatePickerDates.currentMonth (fst r) = day
  /\ DatePickerDates.parseDate p tz (DatePickerDates.inputValue (fst r)) = Some day
  /\ snd r = DatePickerDates.report p day
  /\ (forall k', (1 <= k' <= Date.daysInMonth y m)%Z ->
        DatePickerDates.isDateSelected tz (fst r) (midnight tz (dayNumber y m k'))
        = (k' =? k)%Z).
Proof.
  intros Hz Ho Hs Ey Em Hy Hk Hen day r.
  destruct (getDaysInMonth_cells tz tv y m Hz Ey Em Hy) as (Hm & _).
  subst r day. cbn [DatePickerDates.dispatch]. rewrite Ho, Hs.
  rewrite (getDaysInMonth_day tz tv y m k Hz Ey Em Hy Hk). rewrite Hen.
  unfold DatePickerDates.handleDateSelect. cbn [fst snd].
  split; [reflexivity|]. split; [reflexivity|]. split; [reflexivity|].
  split; [|split; [reflexivity|]].
  - cbn [DatePickerDates.inputValue DatePickerDates.setOpenState
         DatePickerDates.setCurrentMonth DatePickerDates.setInputValue
         DatePickerDates.setSelectedDate].
    now apply midnight_round_trip.
  - intros k' Hk'. unfold DatePickerDates.isDateSelected, DatePickerDates.sameDay.
    cbn [DatePickerDates.selectedDate DatePickerDates.setOpenState
         DatePickerDates.setCurrentMonth DatePickerDates.setInputValue
         DatePickerDates.setSelectedDate].
    destruct (midnight_fields tz y m k Hm Hk) as (-> & -> & ->).
    destruct (midnight_fields tz y m k' Hm Hk') as (-> & -> & ->).
    cbn [JSInt.strictEq]. now rewrite !Z.eqb_refl, !andb_true_r.
Qed.

Lemma X15_day_click_selects_and_text_agrees_witness :
  DatePickerDates.isOpen
    (fst (DatePickerDates.dispatch DatePickerDates.defaultProps sampleZone
            (DatePickerDates.dayClick (leadingCells 2024 1 + (Z.to_nat 29 - 1))) openPicker))
  = false.
Proof.
  refine (proj1 (X15_day_click_selects_and_text_agrees DatePickerDates.defaultProps
                   sampleZone openPicker leapDay 2024 1 29 _ eq_refl eq_refl _ _ _ _ _)).
  - vm_compute. discriminate.
  - reflexivity.
  - reflexivity.
  - lia.
  - vm_compute. split; discriminate.
  - reflexivity.
Defined.

Lemma midnight_before tz tv :
  (Date.LocalTime tz tv mod Date.msPerDay <> 0)%Z ->
  Date.lt (midnight tz (localDay tz tv)) (Date.Time tv) = true.
Proof.
  intros H. unfold Date.lt, midnight. apply Z.ltb_lt.
  unfold localDay, Date.Day, Date.LocalTime, Date.msPerDay in *. euclid.
Qed.

(** X16. When [minDate] is not at local midnight, its own day cannot be
    picked from the grid: the cell of that day holds local midnight, which
    is before [minDate], so the button is disabled and a click on it does
    nothing. The Today button consults neither [minDate] nor [maxDate]: it
    selects the present time whatever they are. *)
Theorem X16_min_day_needs_midnight p tz s tv tmin y m dt :
  validZone tz ->
  DatePickerDates.minDate p = Some (Date.Time tmin) ->
  Date.getFullYear tz (Date.Time tmin) = Some y ->
  Date.getMonth tz (Date.Time tmin) = Some m ->
  Date.getDate tz (Date.Time tmin) = Some dt ->
  (100 <= y <= 275000)%Z ->
  (Date.LocalTime tz tmin mod Date.msPerDay <> 0)%Z ->
  DatePickerDates.isOpen s = true ->
  DatePickerDates.currentMonth s = Date.Time tv ->
  Date.getFullYear tz (Date.Time tv) = Some y ->
  Date.getMonth tz (Date.Time tv) = Some m ->
  let i := (leadingCells y m + (Z.to_nat dt - 1))%nat in
  let cell := midnight tz (localDay tz tmin) in
  nth_error (DatePickerDates.getDaysInMonth tz (DatePickerDates.currentMonth s)) i
  = Some (Some cell)
  /\ Date.getDate tz cell = Some dt
  /\ DatePickerDates.isDateDisabled p cell = true
  /\ DatePickerDates.dispatch p tz (DatePickerDates.dayClick i) s = (s, [])
  /\ forall now,
       DatePickerDates.selectedDate
         (fst (DatePickerDates.dispatch p tz (DatePickerDates.todayClick now) s))
       = Some (Date.Time now).
Proof.
  intros Hz Hmin Fy Fm Fd Hy Hmod Ho Hs Ey Em i cell.
  destruct (localDay_fields tz tmin) as (Fy' & Fm' & Fd').
  rewrite Fy' in Fy. rewrite Fm' in Fm. rewrite Fd' in Fd.
  injection Fy as Fy. injection Fm as Fm. injection Fd as Fd.
  destruct (day_fields (localDay tz tmin)) as (Rm & Rd & Nd).
  rewrite Fy, Fm, Fd in *.
  assert (C : nth_error (DatePickerDates.getDaysInMonth tz (DatePickerDates.currentMonth s)) i
              = Some (Some cell)).
  { rewrite Hs. unfold i, cell. rewrite <- Nd.
    now apply getDaysInMonth_day. }
  assert (D : DatePickerDates.isDateDisabled p cell = true).
  { unfold DatePickerDates.isDateDisabled. rewrite Hmin.
    unfold cell. now rewrite midnight_before. }
  split; [exact C|]. split.
  { unfold cell. destruct (midnight_fields_of_day tz (localDay tz tmin)) as (_ & _ & ->).
    now rewrite Fd. }
  split; [exact D|]. split.
  - cbn [DatePickerDates.dispatch]. now rewrite Ho, C, D.
  - intros now. cbn [DatePickerDates.dispatch]. now rewrite Ho.
Qed.

Lemma X16_min_day_needs_midnight_witness :
  DatePickerDates.isDateDisabled notBeforeLeapDay
    (midnight sampleZone (localDay sampleZone leapDay)) = true.
Proof.
  refine (proj1 (proj2 (proj2 (X16_min_day_needs_midnight notBeforeLeapDay sampleZone
                                 openPicker leapDay leapDay 2024 1 29
                                 _ eq_refl _ _ _ _ _ eq_refl eq_refl _ _)))).
  - vm_compute. discriminate.
  - reflexivity.
  - reflexivity.
  - reflexivity.
  - lia.
  - vm_compute. discriminate.
  - reflexivity.
  - reflexivity.
Defined.

(** ** Typing a date *)

Lemma nextMonth_day y m k :
  (0 <= m <= 11)%Z ->
  exists y' m', (0 <= m' <= 11)%Z /\ (y <= y' <= y + 1)%Z
    /\ m' = (if (m =? 11)%Z then 0 else m + 1)%Z
    /\ dayNumber y m (Date.daysInMonth y m + k) = dayNumber y' m' k.
Proof.
  intros Hm. pose proof (MakeDay_last y m Hm) as L.
  rewrite (MakeDay_next y m 0 Hm) in L.
  destruct (Z.eqb_spec m 11) as [->|N].
  - exists (y + 1)%Z, 0%Z. repeat split; try lia.
    unfold dayNumber in *. lia.
  - exists y, (m + 1)%Z. repeat split; try lia.
    unfold dayNumber in *. lia.
Qed.

(** X17. [parseDate] checks no field against the calendar. A text whose
    day is [k] days past the end of its month (k up to 28, years 100 to
    274999) is taken for day [k] of the next month: typing it selects that
    date and reports it, while the input keeps the text that was typed and
    the calendar the month it showed. *)
Theorem X17_typed_day_past_the_month_rolls_over p tz s y m k :
  validZone tz -> (100 <= y <= 274999)%Z -> (0 <= m <= 11)%Z -> (1 <= k <= 28)%Z ->
  let text := formatFields (DatePickerDates.format p) (Some y) (Some m)
                (Some (Date.daysInMonth y m + k)%Z) in
  let r := DatePickerDates.handleInputChange p tz text s in
  exists date,
    DatePickerDates.selectedDate (fst r) = Some date
    /\ snd r = DatePickerDates.report p date
    /\ Date.getMonth tz date = Some (if (m =? 11)%Z then 0 else m + 1)%Z
    /\ Date.getDate tz date = Some k
    /\ DatePickerDates.inputValue (fst r) = text
    /\ DatePickerDates.currentMonth (fst r) = DatePickerDates.currentMonth s.
Proof.
  intros Hz Hy Hm Hk text r.
  pose proof (daysInMonth_range y m Hm) as Rdim.
  destruct (nextMonth_day y m k Hm) as (y' & m' & Hm' & Hy' & Em' & E).
  pose proof (daysInMonth_range y' m' Hm') as Rdim'.
  assert (P : DatePickerDates.parseDate p tz text = Some (midnight tz (dayNumber y' m' k))).
  { unfold text. rewrite parseDate_of_fields by lia. cbv zeta.
    rewrite make_modern by (assumption || lia). now rewrite E. }
  exists (midnight tz (dayNumber y' m' k)).
  subst r. unfold DatePickerDates.handleInputChange. rewrite P. cbn [fst snd].
  destruct (midnight_fields tz y' m' k Hm' ltac:(lia)) as (_ & -> & ->).
  rewrite Em'. repeat split.
Qed.

Lemma X17_typed_day_past_the_month_rolls_over_witness :
  exists date,
    DatePickerDates.selectedDate
      (fst (DatePickerDates.handleInputChange DatePickerDates.defaultProps sampleZone
              "02/30/2024" openPicker)) = Some date
    /\ Date.getMonth sampleZone date = Some 2%Z
    /\ Date.getDate sampleZone date = Some 1%Z.
Proof.
  destruct (X17_typed_day_past_the_month_rolls_over DatePickerDates.defaultProps
              sampleZone openPicker 2024 1 1) as (date & S & _ & M & D & _).
  - vm_compute. discriminate.
  - lia.
  - lia.
  - lia.
  - exists date. split; [exact S|]. split; [exact M|exact D].
Defined.

(* ================================================================== *)
(** * TimeInput                                                        *)
(* ================================================================== *)

(** ** The text of a time *)

Lemma pad2_length n :
  (0 <= n <= 99)%Z -> String.length (JSString.pad2 (Some n)) = 2%nat.
Proof.
  intros H. rewrite <- (Z2Nat.id n) by lia.
  assert (L : (Z.to_nat n < 100)%nat) by lia.
  generalize dependent (Z.to_nat n). clear H. intros k L.
  do 100 (destruct k as [|k]; [reflexivity|]). lia.
Qed.

Lemma pad2_shape n :
  (0 <= n <= 99)%Z ->
  exists a b, JSString.pad2 (Some n) = String a (String b "")
              /\ JSString.isDigit a = true /\ JSString.isDigit b = true.
Proof.
  intros H. pose proof (pad2_length n H) as L.
  pose proof (pad2_digits n ltac:(lia)) as D.
  destruct (JSString.pad2 (Some n)) as [|a [|b [|c r]]]; try discriminate L.
  exists a, b. cbn in D. apply andb_prop in D as [Da D]. apply andb_prop in D as [Db _].
  auto.
Qed.

Lemma takeDigits_two a b rest :
  JSString.isDigit a = true -> JSString.isDigit b = true ->
  TimeInput.takeDigits 2 (String a (String b rest)) = (String a (String b ""), rest).
Proof.
  intros Ha Hb. cbn [TimeInput.takeDigits]. rewrite Ha, Hb. reflexivity.
Qed.

Lemma matchTail_suffix g1 g2 g3 x :
  TimeInput.matchTail g1 g2 g3 (suffix x)
  = Some {| TimeInput.group1 := g1; TimeInput.group2 := g2;
            TimeInput.group3 := g3; TimeInput.group4 := x |}.
Proof. destruct x as [[]|]; reflexivity. Qed.

Lemma timeRegex_minutes a b c d x :
  JSString.isDigit a = true -> JSString.isDigit b = true ->
  JSString.isDigit c = true -> JSString.isDigit d = true ->
  TimeInput.timeRegex
    (String a (String b "") ++ ":" ++ String c (String d "") ++ suffix x)
  = Some {| TimeInput.group1 := String a (String b "");
            TimeInput.group2 := String c (String d "");
            TimeInput.group3 := None; TimeInput.group4 := x |}.
Proof.
  intros Ha Hb Hc Hd. unfold TimeInput.timeRegex. cbn [append].
  rewrite (takeDigits_two a b _ Ha Hb). cbn [String.length Nat.eqb].
  change (Ascii.eqb ":" ":") with true. cbn [negb].
  rewrite (takeDigits_two c d _ Hc Hd). cbn [String.length Nat.eqb negb].
  destruct x as [[]|]; reflexivity.
Qed.

Lemma timeRegex_seconds a b c d e f x :
  JSString.isDigit a = true -> JSString.isDigit b = true ->
  JSString.isDigit c = true -> JSString.isDigit d = true ->
  JSString.isDigit e = true -> JSString.isDigit f = true ->
  TimeInput.timeRegex
    (String a (String b "") ++ ":" ++ String c (String d "") ++ ":"
     ++ String e (String f "") ++ suffix x)
  = Some {| TimeInput.group1 := String a (String b "");
            TimeInput.group2 := String c (String d "");
            TimeInput.group3 := Some (String e (String f ""));
            TimeInput.group4 := x |}.
Proof.
  intros Ha Hb Hc Hd He Hf. unfold TimeInput.timeRegex. cbn [append].
  rewrite (takeDigits_two a b _ Ha Hb). cbn [String.length Nat.eqb].
  change (Ascii.eqb ":" ":") with true. cbn [negb].
  rewrite (takeDigits_two c d _ Hc Hd). cbn [String.length Nat.eqb negb].
  rewrite (takeDigits_two e f _ He Hf). cbn [String.length Nat.eqb].
  apply matchTail_suffix.
Qed.

(** The groups of the text of three numbers below 100. *)
Lemma timeRegex_text h mi (sec : option Z) x :
  (0 <= h <= 99)%Z -> (0 <= mi <= 99)%Z ->
  match sec with Some sc => (0 <= sc <= 99)%Z | None => True end ->
  exists m,
    TimeInput.timeRegex
      (JSString.pad2 (Some h) ++ ":" ++ JSString.pad2 (Some mi)
       ++ match sec with
          | Some sc => ":" ++ JSString.pad2 (Some sc) ++ suffix x
          | None => suffix x
          end) = Some m
    /\ JSString.parseInt (TimeInput.group1 m) = Some h
    /\ JSString.parseInt (TimeInput.group2 m) = Some mi
    /\ match sec with
       | Some sc => exists g3, TimeInput.group3 m = Some g3
                               /\ JSString.parseInt g3 = Some sc
       | None => TimeInput.group3 m = None
       end
    /\ TimeInput.group4 m = x.
Proof.
  intros Hh Hm Hs.
  pose proof (parseInt_pad2 h ltac:(lia)) as Ph.
  pose proof (parseInt_pad2 mi ltac:(lia)) as Pm.
  destruct (pad2_shape h Hh) as (a & b & Eh & Ha & Hb).
  destruct (pad2_shape mi Hm) as (c & d & Em & Hc & Hd).
  rewrite Eh, Em in *.
  destruct sec as [sc|].
  - pose proof (parseInt_pad2 sc ltac:(lia)) as Ps.
    destruct (pad2_shape sc Hs) as (e & f & Es & He & Hf). rewrite Es in *.
    eexists. split; [apply timeRegex_seconds; assumption|].
    cbn [TimeInput.group1 TimeInput.group2 TimeInput.group3 TimeInput.group4].
    repeat split; try assumption. eexists. split; [reflexivity|assumption].
  - eexists. split; [apply timeRegex_minutes; assumption|].
    cbn [TimeInput.group1 TimeInput.group2 TimeInput.group3 TimeInput.group4].
    repeat split; assumption.
Qed.

Lemma string_app_assoc (a b c : string) : ((a ++ b) ++ c = a ++ (b ++ c))%string.
Proof. induction a as [|x a IH]; cbn; [reflexivity|]. now rewrite IH. Qed.

(** What [parseTimeString] reads in the text of three numbers below 100. *)
Lemma parseTimeString_text p h mi sec x :
  (0 <= h <= 99)%Z -> (0 <= mi <= 99)%Z ->
  match sec with Some sc => (0 <= sc <= 99)%Z | None => True end ->
  TimeInput.parseTimeString p (timeText h mi sec x)
  = Some {| TimeInput.hours := Some (markedHour (TimeInput.format p) x h);
            TimeInput.minutes := Some mi;
            TimeInput.seconds := Some (match sec with Some sc => Some sc | None => Some 0%Z end);
            TimeInput.ampm := x |}.
Proof.
  intros Hh Hm Hs.
  destruct (timeRegex_text h mi sec x Hh Hm Hs) as (m & R & G1 & G2 & G3 & G4).
  unfold TimeInput.parseTimeString, timeText. rewrite R, G1, G2, G4.
  assert (S : match TimeInput.group3 m with
              | Some g3 => JSString.parseInt g3
              | None => Some 0%Z
              end = match sec with Some sc => Some sc | None => Some 0%Z end).
  { destruct sec as [sc|].
    - destruct G3 as (g3 & -> & P). exact P.
    - now rewrite G3. }
  rewrite S. unfold markedHour.
  destruct (TimeInput.format p), x as [[]|]; cbn [JSInt.eqb JSInt.add option_map negb];
    try reflexivity; destruct (h =? 12)%Z; reflexivity.
Qed.

(** The text [formatTimeString] prints. *)
Lemma formatTimeString_text p t h mi :
  TimeInput.hours t = Some h -> TimeInput.minutes t = Some mi ->
  match TimeInput.seconds t with Some None => False | _ => True end ->
  TimeInput.formatTimeString p t
  = timeText
      (match TimeInput.format p with TimeInput.h12 => dial h | TimeInput.h24 => h end)
      mi
      (match TimeInput.seconds t with
       | Some (Some sc) => if TimeInput.showSeconds p then Some sc else None
       | _ => None
       end)
      (if TimeInput.showAmPm p
       then match TimeInput.format p with
            | TimeInput.h12 => Some (markerOf h)
            | TimeInput.h24 => TimeInput.ampm t
            end
       else None).
Proof.
  intros Eh Em Hs. destruct t as [hh mm sec x]. cbn in Eh, Em, Hs. subst hh mm.
  unfold TimeInput.formatTimeString, timeText, dial, markerOf.
  cbn [TimeInput.hours TimeInput.minutes TimeInput.seconds TimeInput.ampm].
  assert (A : forall (a b c : string), ((a ++ ":" ++ b) ++ c = a ++ ":" ++ b ++ c)%string).
  { intros a b c. now rewrite string_app_assoc. }
  destruct (TimeInput.format p).
  - cbn [JSInt.eqb].
    destruct (Z.eqb_spec h 0) as [->|N0].
    + cbn. destruct sec as [[sc|]|]; try contradiction;
        destruct (TimeInput.showSeconds p), (TimeInput.showAmPm p); cbn; reflexivity.
    + cbn [JSInt.gtb JSInt.eqb JSInt.sub option_map orb].
      destruct (Z.ltb_spec 12 h) as [G|G].
      * replace (12 <=? h)%Z with true by (symmetry; apply Z.leb_le; lia).
        destruct sec as [[sc|]|]; try contradiction;
          destruct (TimeInput.showSeconds p), (TimeInput.showAmPm p);
          cbn [suffix TimeInput.AmPm_text]; rewrite ?A; reflexivity.
      * destruct (Z.eqb_spec h 12) as [->|N12].
        -- change (12 <=? 12)%Z with true.
           destruct sec as [[sc|]|]; try contradiction;
             destruct (TimeInput.showSeconds p), (TimeInput.showAmPm p);
             cbn [suffix TimeInput.AmPm_text]; rewrite ?A; reflexivity.
        -- replace (12 <=? h)%Z with false by (symmetry; apply Z.leb_gt; lia).
           destruct sec as [[sc|]|]; try contradiction;
             destruct (TimeInput.showSeconds p), (TimeInput.showAmPm p);
             cbn [suffix TimeInput.AmPm_text]; rewrite ?A; reflexivity.
  - destruct sec as [[sc|]|]; try contradiction;
      destruct (TimeInput.showSeconds p), (TimeInput.showAmPm p), x as [x|];
      cbn [suffix]; rewrite ?A; reflexivity.
Qed.

Lemma fieldWithin_some hi x : fieldWithin hi x -> exists z, x = Some z /\ (0 <= z <= hi)%Z.
Proof. destruct x as [z|]; cbn; [eauto|contradiction]. Qed.

(** The text of a time whose fields are below 100, read in the format it
    was printed in. *)
Lemma parse_formatted p t h mi :
  TimeInput.hours t = Some h -> TimeInput.minutes t = Some mi ->
  (0 <= h <= 99)%Z -> (0 <= mi <= 99)%Z -> secondsWithin 99 (TimeInput.seconds t) ->
  TimeInput.parseTimeString p (TimeInput.formatTimeString p t)
  = Some {| TimeInput.hours :=
              Some (match TimeInput.format p with
                    | TimeInput.h12 =>
                        if TimeInput.showAmPm p
                        then markedHour TimeInput.h12 (Some (markerOf h)) (dial h)
                        else dial h
                    | TimeInput.h24 => h
                    end);
            TimeInput.minutes := Some mi;
            TimeInput.seconds := Some (printedSeconds p t);
            TimeInput.ampm :=
              if TimeInput.showAmPm p
              then match TimeInput.format p with
                   | TimeInput.h12 => Some (markerOf h)
                   | TimeInput.h24 => TimeInput.ampm t
                   end
              else None |}.
Proof.
  intros Eh Em Hh Hm Hs.
  assert (Hs' : match TimeInput.seconds t with Some None => False | _ => True end).
  { destruct (TimeInput.seconds t) as [[sc|]|]; cbn in Hs; auto. }
  rewrite (formatTimeString_text p t h mi Eh Em Hs').
  assert (Hd : (0 <= match TimeInput.format p with
                     | TimeInput.h12 => dial h
                     | TimeInput.h24 => h
                     end <= 99)%Z).
  { unfold dial. destruct (TimeInput.format p); [|lia].
    destruct (Z.eqb_spec h 0); [lia|]. destruct (Z.ltb_spec 12 h); lia. }
  rewrite parseTimeString_text.
  - f_equal. unfold printedSeconds.
    destruct (TimeInput.seconds t) as [[sc|]|]; cbn in Hs; try contradiction;
      destruct (TimeInput.format p), (TimeInput.showSeconds p), (TimeInput.showAmPm p);
      cbn [markedHour]; try reflexivity;
      destruct (TimeInput.ampm t) as [[]|]; reflexivity.
  - exact Hd.
  - exact Hm.
  - destruct (TimeInput.seconds t) as [[sc|]|]; cbn in Hs; try contradiction;
      destruct (TimeInput.showSeconds p); auto.
Qed.

(** X18. In 24-hour format [parseTimeString] reads the text of
    [formatTimeString] back to the same hours and minutes, for all fields
    from 0 to 99: the seconds come back if they are shown and are 0
    otherwise, the marker comes back if it is shown. *)
Theorem X18_time_text_read_back_24h p t :
  TimeInput.format p = TimeInput.h24 -> twoDigits t ->
  TimeInput.parseTimeString p (TimeInput.formatTimeString p t)
  = Some {| TimeInput.hours := TimeInput.hours t;
            TimeInput.minutes := TimeInput.minutes t;
            TimeInput.seconds := Some (printedSeconds p t);
            TimeInput.ampm := if TimeInput.showAmPm p then TimeInput.ampm t else None |}.
Proof.
  intros Hf (Hh & Hm & Hs).
  destruct (fieldWithin_some _ _ Hh) as (h & Eh & Rh).
  destruct (fieldWithin_some _ _ Hm) as (mi & Em & Rm).
  rewrite (parse_formatted p t h mi Eh Em Rh Rm Hs), Hf, Eh, Em. reflexivity.
Qed.

Lemma X18_time_text_read_back_24h_witness :
  TimeInput.parseTimeString withSeconds (TimeInput.formatTimeString withSeconds afterMidnight)
  = Some {| TimeInput.hours := Some 0%Z; TimeInput.minutes := Some 5%Z;
            TimeInput.seconds := Some (Some 9%Z); TimeInput.ampm := None |}.
Proof.
  refine (X18_time_text_read_back_24h withSeconds afterMidnight eq_refl _).
  unfold twoDigits. cbn. lia.
Defined.

Lemma markedHour_dial h :
  (0 <= h <= 23)%Z ->
  markedHour TimeInput.h12 (Some (markerOf h)) (dial h) = if (h =? 0)%Z then 12%Z else h.
Proof.
  intros H. unfold markedHour, markerOf, dial.
  destruct (Z.eqb_spec h 0) as [->|N0]; [reflexivity|]. cbn [orb].
  destruct (Z.leb_spec 12 h) as [G|G].
  - destruct (Z.ltb_spec 12 h) as [G'|G'].
    + destruct (Z.eqb_spec (h - 12) 12); lia.
    + assert (h = 12)%Z by lia. subst h. reflexivity.
  - destruct (Z.ltb_spec 12 h); [lia|]. destruct (Z.eqb_spec h 12); [lia|reflexivity].
Qed.

Lemma formatTimeString_ignores_ampm p t x :
  TimeInput.format p = TimeInput.h12 ->
  TimeInput.formatTimeString p (withAmPm x t) = TimeInput.formatTimeString p t.
Proof.
  intros Hf. unfold TimeInput.formatTimeString, withAmPm. rewrite Hf. reflexivity.
Qed.

(** X19. In 12-hour format the text is not read back to the time it was
    printed from. With the marker shown, the hours 1 to 23 come back but
    hour 0 is printed as 12 PM and read as 12: midnight becomes noon.
    With the marker hidden, the hour comes back as the hour on the dial, 1
    to 12. The text does not depend on the [ampm] field, which the AM and
    PM buttons set. *)
Theorem X19_time_text_read_back_12h p t h :
  TimeInput.format p = TimeInput.h12 ->
  TimeInput.hours t = Some h -> (0 <= h <= 23)%Z ->
  fieldWithin 99 (TimeInput.minutes t) -> secondsWithin 99 (TimeInput.seconds t) ->
  TimeInput.parseTimeString p (TimeInput.formatTimeString p t)
  = Some {| TimeInput.hours :=
              Some (if TimeInput.showAmPm p
                    then (if (h =? 0)%Z then 12%Z else h)
                    else dial h);
            TimeInput.minutes := TimeInput.minutes t;
            TimeInput.seconds := Some (printedSeconds p t);
            TimeInput.ampm :=
              if TimeInput.showAmPm p then Some (markerOf h) else None |}
  /\ forall x, TimeInput.formatTimeString p (withAmPm x t) = TimeInput.formatTimeString p t.
Proof.
  intros Hf Eh Rh Hm Hs. split.
  - destruct (fieldWithin_some _ _ Hm) as (mi & Em & Rm).
    rewrite (parse_formatted p t h mi Eh Em ltac:(lia) Rm Hs), Hf, Em.
    now rewrite (markedHour_dial h Rh).
  - intros x. now apply formatTimeString_ignores_ampm.
Qed.

Lemma X19_time_text_read_back_12h_witness :
  TimeInput.parseTimeString twelveHours (TimeInput.formatTimeString twelveHours afterMidnight)
  = Some {| TimeInput.hours := Some 12%Z; TimeInput.minutes := Some 5%Z;
            TimeInput.seconds := Some (Some 9%Z); TimeInput.ampm := Some TimeInput.PM |}.
Proof.
  refine (proj1 (X19_time_text_read_back_12h twelveHours afterMidnight 0 eq_refl eq_refl
                   _ _ _)).
  - lia.
  - cbn. lia.
  - cbn. lia.
Defined.

(** ** The spinner buttons *)

Lemma clamp_within lo hi top v :
  (0 <= lo <= hi)%Z -> (hi <= top)%Z ->
  (0 <= Z.max lo (Z.min hi v) <= top)%Z.
Proof. lia. Qed.

Lemma handleTimeChange_inRange p type v s :
  inRange (TimeInput.selectedTime s) ->
  inRange (TimeInput.selectedTime (fst (TimeInput.handleTimeChange p type (Some v) s))).
Proof.
  intros (Hh & Hm & Hs). unfold TimeInput.handleTimeChange.
  cbn [fst TimeInput.selectedTime TimeInput.setInputValue TimeInput.setSelectedTime].
  destruct type; unfold inRange;
    cbn [TimeInput.hours TimeInput.minutes TimeInput.seconds JSInt.max JSInt.min option_map
         fieldWithin secondsWithin];
    repeat split; try assumption; try lia.
  destruct (TimeInput.format p); cbn [JSInt.max JSInt.min option_map fieldWithin]; lia.
Qed.

Lemma shown_some type t : inRange t -> exists v, TimeInput.shown type t = Some v.
Proof.
  intros (Hh & Hm & Hs). destruct type; cbn [TimeInput.shown].
  - destruct (fieldWithin_some _ _ Hh) as (z & -> & _). eauto.
  - destruct (fieldWithin_some _ _ Hm) as (z & -> & _). eauto.
  - destruct (TimeInput.seconds t) as [[z|]|]; cbn; eauto.
Qed.

Lemma handleNow_inRange p tz now s :
  inRange (TimeInput.selectedTime (fst (TimeInput.handleNow p tz now s))).
Proof.
  unfold TimeInput.handleNow, inRange.
  cbn [fst TimeInput.selectedTime TimeInput.setInputValue TimeInput.setSelectedTime
       TimeInput.hours TimeInput.minutes TimeInput.seconds Date.getHours Date.getMinutes
       Date.getSeconds Date.localField fieldWithin secondsWithin].
  unfold Date.HourFromTime, Date.MinFromTime, Date.SecFromTime.
  repeat split; euclid.
Qed.

Lemma picker_step p tz ev s :
  isChange ev = false ->
  inRange (TimeInput.selectedTime s) ->
  inRange (TimeInput.selectedTime (fst (TimeInput.dispatch p tz ev s))).
Proof.
  intros Hev Hr.
  destruct ev as [| |key|value|target|f|f|x|now|]; try discriminate Hev;
    cbn [TimeInput.dispatch].
  - destruct (TimeInput.disabled p); [exact Hr|].
    unfold TimeInput.handleInputClick. destruct (negb (TimeInput.disabled p)); exact Hr.
  - destruct (TimeInput.disabled p); [exact Hr|].
    unfold TimeInput.handleInputClick. destruct (negb (TimeInput.disabled p)); exact Hr.
  - destruct (TimeInput.disabled p); [exact Hr|].
    unfold TimeInput.handleInputKeyDown, TimeInput.handleInputClick.
    destruct (_ || _)%bool; [|exact Hr]. destruct (negb (TimeInput.disabled p)); exact Hr.
  - destruct (TimeInput.isOpen s); [|exact Hr].
    unfold TimeInput.handleClickOutside. destruct (_ && _)%bool; exact Hr.
  - destruct (TimeInput.spinnerRendered p f s); [|exact Hr].
    destruct (shown_some f _ Hr) as (v & ->). now apply handleTimeChange_inRange.
  - destruct (TimeInput.spinnerRendered p f s); [|exact Hr].
    destruct (shown_some f _ Hr) as (v & ->). now apply handleTimeChange_inRange.
  - destruct (TimeInput.amPmRendered p s); exact Hr.
  - destruct (TimeInput.isOpen s); [|exact Hr]. apply handleNow_inRange.
  - destruct (TimeInput.isOpen s); exact Hr.
Qed.

Lemma up_at_top p tz f s :
  TimeInput.spinnerRendered p f s = true ->
  TimeInput.shown f (TimeInput.selectedTime s) = Some (topValue p f) ->
  TimeInput.selectedTime (fst (TimeInput.dispatch p tz (TimeInput.up f) s))
  = TimeInput.selectedTime s.
Proof.
  intros Hr Hs. cbn [TimeInput.dispatch]. rewrite Hr, Hs.
  unfold TimeInput.handleTimeChange.
  cbn [fst TimeInput.selectedTime TimeInput.setInputValue TimeInput.setSelectedTime].
  destruct (TimeInput.selectedTime s) as [hh mm sec x].
  destruct f; cbn [TimeInput.shown topValue TimeInput.hours TimeInput.minutes
                   TimeInput.seconds TimeInput.ampm] in *.
  - subst hh. destruct (TimeInput.format p); reflexivity.
  - subst mm. reflexivity.
  - destruct sec as [[z|]|]; cbn in Hs; try discriminate.
    injection Hs as ->. reflexivity.
Qed.

(** X20. The buttons of the time picker keep the selected time on the
    clock. Over every run of events in which nothing is typed, from a time
    with hours from 0 to 23, minutes from 0 to 59 and seconds absent or
    from 0 to 59 (as the initial one), the selected time stays so: Now
    reads such a time off the clock, and the arrows stop at the ends
    without wrapping around, an up arrow at the top value (23, or 12 in
    12-hour format, and 59) leaving the selected time as it is. *)
Theorem X20_picker_keeps_time_in_range p tz evs s :
  inRange (TimeInput.selectedTime s) ->
  existsb isChange evs = false ->
  inRange (TimeInput.selectedTime (TimeInput.run p tz evs s))
  /\ inRange (TimeInput.selectedTime TimeInput.init)
  /\ (forall f s',
        TimeInput.spinnerRendered p f s' = true ->
        TimeInput.shown f (TimeInput.selectedTime s') = Some (topValue p f) ->
        TimeInput.selectedTime (fst (TimeInput.dispatch p tz (TimeInput.up f) s'))
        = TimeInput.selectedTime s').
Proof.
  intros Hr Hev. split; [|split; [unfold inRange; cbn; repeat split; lia|]].
  - revert s Hr. induction evs as [|ev evs IH]; intros s Hr; [exact Hr|].
    cbn [existsb] in Hev. apply orb_false_iff in Hev as [Hev Hevs].
    cbn [TimeInput.run]. apply IH; [exact Hevs|]. now apply picker_step.
  - intros f s'. apply up_at_top.
Qed.

Lemma X20_picker_keeps_time_in_range_witness :
  inRange
    (TimeInput.selectedTime
       (TimeInput.run twelveHours sampleZone
          [TimeInput.up TimeInput.Hours; TimeInput.down TimeInput.Minutes;
           TimeInput.nowClick leapDay; TimeInput.amPmClick TimeInput.PM] openTimeInput)).
Proof.
  refine (proj1 (X20_picker_keeps_time_in_range twelveHours sampleZone
                   [TimeInput.up TimeInput.Hours; TimeInput.down TimeInput.Minutes;
                    TimeInput.nowClick leapDay; TimeInput.amPmClick TimeInput.PM]
                   openTimeInput _ eq_refl)).
  unfold inRange. cbn. lia.
Defined.

(** X21. In 24-hour format, after a click on an arrow of the picker or on
    Now, the text in the input is the text of the selected time and reads
    back to its hours and minutes, and the callbacks receive that text and
    that time. *)
Theorem X21_picker_text_agrees_24h p tz ev s :
  TimeInput.format p = TimeInput.h24 ->
  inRange (TimeInput.selectedTime s) ->
  setsTime p ev s = true ->
  let r := TimeInput.dispatch p tz ev s in
  let t := TimeInput.selectedTime (fst r) in
  TimeInput.inputValue (fst r) = TimeInput.formatTimeString p t
  /\ TimeInput.parseTimeString p (TimeInput.inputValue (fst r))
     = Some {| TimeInput.hours := TimeInput.hours t;
               TimeInput.minutes := TimeInput.minutes t;
               TimeInput.seconds := Some (printedSeconds p t);
               TimeInput.ampm := if TimeInput.showAmPm p then TimeInput.ampm t else None |}
  /\ snd r = TimeInput.report p (TimeInput.inputValue (fst r)) t.
Proof.
  intros Hf Hr Hev r t.
  assert (Hr' : inRange t).
  { apply picker_step; [|exact Hr]. destruct ev; try discriminate Hev; reflexivity. }
  assert (E : TimeInput.inputValue (fst r) = TimeInput.formatTimeString p t
              /\ snd r = TimeInput.report p (TimeInput.inputValue (fst r)) t).
  { subst t r. destruct ev; try discriminate Hev; cbn [setsTime] in Hev;
      cbn [TimeInput.dispatch]; rewrite Hev; split; reflexivity. }
  destruct E as (E1 & E2). split; [exact E1|]. split; [|exact E2].
  rewrite E1. destruct Hr' as (Hh & Hm & Hs).
  destruct (fieldWithin_some _ _ Hh) as (h & Eh & Rh).
  destruct (fieldWithin_some _ _ Hm) as (mi & Em & Rm).
  assert (Hs' : secondsWithin 99 (TimeInput.seconds t)).
  { destruct (TimeInput.seconds t) as [[sc|]|]; cbn in *; lia || auto. }
  rewrite (parse_formatted p t h mi Eh Em ltac:(lia) ltac:(lia) Hs'), Hf, Eh, Em.
  reflexivity.
Qed.

Lemma X21_picker_text_agrees_24h_witness :
  TimeInput.inputValue
    (fst (TimeInput.dispatch withSeconds sampleZone (TimeInput.up TimeInput.Minutes)
            openTimeInput))
  = "00:06:09"%string.
Proof.
  refine (proj1 (X21_picker_text_agrees_24h withSeconds sampleZone
                   (TimeInput.up TimeInput.Minutes) openTimeInput eq_refl _ eq_refl)).
  unfold inRange. cbn. lia.
Defined.

(* ================================================================== *)
(** * ThemeProvider                                                    *)
(* ================================================================== *)

Lemma getItem_setItem key value entries :
  ThemeProvider.getItem key (ThemeProvider.setItem key value entries) = Some value.
Proof.
  induction entries as [|[k v] rest IH]; cbn.
  - now rewrite String.eqb_refl.
  - destruct (String.eqb k key) eqn:E; cbn; rewrite E; auto.
Qed.

Lemma initialTheme_setTheme p t s page :
  ThemeProvider.initialTheme p (snd (ThemeProvider.setTheme p t s page)) = t.
Proof.
  unfold ThemeProvider.initialTheme, ThemeProvider.setTheme.
  cbn [snd ThemeProvider.localStorage]. rewrite getItem_setItem.
  destruct t; reflexivity.
Qed.

Lemma existsb_filter_false {A} (f g : A -> bool) (l : list A) :
  (forall a, g a = true -> f a = false) -> existsb f (filter g l) = false.
Proof.
  intros H. induction l as [|a rest IH]; [reflexivity|].
  cbn [filter]. destruct (g a) eqn:E; [|exact IH].
  cbn [existsb]. now rewrite (H a E), IH.
Qed.

Lemma theme_class_removed x classes :
  x = "light"%string \/ x = "dark"%string ->
  existsb (String.eqb x) (otherClasses classes) = false.
Proof.
  intros Hx. unfold otherClasses, ThemeProvider.classList_remove.
  apply existsb_filter_false. intros c E.
  apply negb_true_iff in E. cbn in E.
  apply orb_false_iff in E as [El Ed]. rewrite orb_false_r in Ed.
  destruct Hx as [->| ->]; rewrite String.eqb_sym; assumption.
Qed.

Lemma otherClasses_idem classes : otherClasses (otherClasses classes) = otherClasses classes.
Proof.
  unfold otherClasses, ThemeProvider.classList_remove.
  induction classes as [|c rest IH]; [reflexivity|].
  cbn [filter]. destruct (negb _) eqn:E; [|exact IH].
  cbn [filter]. rewrite E. now rewrite IH.
Qed.

Lemma otherClasses_themed classes r :
  otherClasses (otherClasses classes ++ [ThemeProvider.Resolved_text r])
  = otherClasses classes.
Proof.
  unfold otherClasses at 1. unfold ThemeProvider.classList_remove.
  rewrite filter_app. fold (ThemeProvider.classList_remove ["light"%string; "dark"%string]
                              (otherClasses classes)).
  fold (otherClasses (otherClasses classes)). rewrite otherClasses_idem.
  destruct r; cbn; apply app_nil_r.
Qed.

Lemma Resolved_text_class r :
  ThemeProvider.Resolved_text r = "light"%string
  \/ ThemeProvider.Resolved_text r = "dark"%string.
Proof. destruct r; auto. Qed.

(** What the root element holds after the applied theme is written. *)
Lemma writeRoot_classes r classes0 page :
  otherClasses (ThemeProvider.classList page) = otherClasses classes0 ->
  ThemeProvider.classList (ThemeProvider.writeRoot r page)
  = otherClasses classes0 ++ [ThemeProvider.Resolved_text r].
Proof.
  intros H. unfold ThemeProvider.writeRoot. cbn [ThemeProvider.classList].
  fold (otherClasses (ThemeProvider.classList page)). rewrite H.
  unfold ThemeProvider.classList_add.
  now rewrite (theme_class_removed _ classes0 (Resolved_text_class r)).
Qed.

Lemma fresh_not_in f base : Forall (fun g => g < f) base -> ~ In f base.
Proof.
  intros H Hin. rewrite Forall_forall in H. specialize (H f Hin). lia.
Qed.

Lemma not_in_existsb f base : ~ In f base -> existsb (Nat.eqb f) base = false.
Proof.
  intros H. induction base as [|g rest IH]; [reflexivity|].
  cbn. destruct (Nat.eqb_spec f g) as [->|N].
  - exfalso. apply H. now left.
  - apply IH. intros Hin. apply H. now right.
Qed.

Lemma addChangeListener_fresh f base :
  ~ In f base -> ThemeProvider.addChangeListener f base = base ++ [f].
Proof.
  intros H. unfold ThemeProvider.addChangeListener. now rewrite not_in_existsb.
Qed.

Lemma removeChangeListener_last f base :
  ~ In f base -> ThemeProvider.removeChangeListener f (base ++ [f]) = base.
Proof.
  intros H. induction base as [|g rest IH]; cbn.
  - now rewrite Nat.eqb_refl.
  - destruct (Nat.eqb_spec f g) as [->|N].
    + exfalso. apply H. now left.
    + f_equal. apply IH. intros Hin. apply H. now right.
Qed.

Lemma existsb_last f base : existsb (Nat.eqb f) (base ++ [f]) = true.
Proof.
  rewrite existsb_app. cbn. now rewrite Nat.eqb_refl, orb_true_r.
Qed.

(** The effects establish the invariant on a page where no listener of
    the provider is registered. *)
Lemma Theme_runEffects_inv p classes0 base s page :
  otherClasses (ThemeProvider.classList page) = otherClasses classes0 ->
  ThemeProvider.initialTheme p page = ThemeProvider.theme s ->
  ThemeProvider.changeListeners page = base ->
  Forall (fun f => f < ThemeProvider.nextFunction page) base ->
  ThemeInv p classes0 base (ThemeProvider.runEffects s page).
Proof.
  intros Hc Hi Hl Hf. unfold ThemeProvider.runEffects, ThemeProvider.applyTheme.
  unfold ThemeProvider.listen.
  cbn [ThemeProvider.theme ThemeProvider.setResolvedTheme].
  pose proof (fresh_not_in _ _ Hf) as Nin.
  destruct (ThemeProvider.theme s) eqn:Et; unfold ThemeInv;
    cbn [ThemeProvider.state ThemeProvider.deps ThemeProvider.listener
         ThemeProvider.theme ThemeProvider.resolvedTheme ThemeProvider.setResolvedTheme
         ThemeProvider.withListeners ThemeProvider.writeRoot ThemeProvider.dataTheme
         ThemeProvider.classList ThemeProvider.changeListeners ThemeProvider.nextFunction
         appliedTheme];
    rewrite ?Et; cbn [appliedTheme].
  - repeat split; try assumption; try congruence.
    apply (writeRoot_classes ThemeProvider.resolved_light classes0 page Hc).
  - repeat split; try assumption; try congruence.
    apply (writeRoot_classes ThemeProvider.resolved_dark classes0 page Hc).
  - split; [reflexivity|]. split; [reflexivity|]. split; [reflexivity|].
    split; [apply (writeRoot_classes _ classes0 page Hc)|].
    split; [exact Hi|].
    split; [eapply Forall_impl; [|exact Hf]; cbn; intros; lia|].
    split; [reflexivity|]. split; [reflexivity|]. split; [lia|]. split; [exact Nin|].
    rewrite Hl. now apply addChangeListener_fresh.
Qed.

Lemma Theme_eqb_spec a b : reflect (a = b) (ThemeProvider.Theme_eqb a b).
Proof. destruct a, b; constructor; congruence. Qed.

Lemma Theme_mount_inv p page :
  wfPage page ->
  ThemeInv p (ThemeProvider.classList page) (ThemeProvider.changeListeners page)
    (ThemeProvider.mount p page).
Proof.
  intros Hwf. unfold ThemeProvider.mount. now apply Theme_runEffects_inv.
Qed.

Lemma Theme_step_inv p classes0 base ev ip :
  ThemeInv p classes0 base ip -> ThemeInv p classes0 base (ThemeProvider.step p ev ip).
Proof.
  destruct ip as [i page]. intros Inv.
  destruct Inv as (Hd & Hr & Ha & Hc & Hi & Hf & Hl).
  destruct ev as [t|b]; cbn [ThemeProvider.step].
  - (* setTheme *)
    pose proof (initialTheme_setTheme p t (ThemeProvider.state i) page) as Hi1.
    unfold ThemeProvider.setTheme in *. cbn [snd] in Hi1. unfold ThemeProvider.commit.
    cbn [ThemeProvider.theme ThemeProvider.setThemeState].
    destruct (Theme_eqb_spec t (ThemeProvider.deps i)) as [E|N].
    + unfold ThemeInv.
      cbn [ThemeProvider.state ThemeProvider.deps ThemeProvider.listener
           ThemeProvider.theme ThemeProvider.resolvedTheme ThemeProvider.setThemeState
           ThemeProvider.dataTheme ThemeProvider.classList ThemeProvider.changeListeners
           ThemeProvider.nextFunction].
      rewrite Hd in E. subst t.
      repeat split; try assumption.
    + apply Theme_runEffects_inv.
      * destruct (ThemeProvider.listener i) as [[f ct]|];
          cbn [ThemeProvider.cleanup ThemeProvider.withListeners ThemeProvider.classList];
          rewrite Hc; apply otherClasses_themed.
      * destruct (ThemeProvider.listener i) as [[f ct]|]; exact Hi1.
      * destruct (ThemeProvider.listener i) as [[f ct]|];
          cbn [ThemeProvider.cleanup ThemeProvider.withListeners
               ThemeProvider.changeListeners].
        -- destruct Hl as (_ & _ & _ & Nin & ->). now apply removeChangeListener_last.
        -- now destruct Hl.
      * destruct (ThemeProvider.listener i) as [[f ct]|]; exact Hf.
  - (* the system preference *)
    destruct (Bool.eqb (ThemeProvider.matches page) b) eqn:Eb.
    { unfold ThemeInv. repeat split; assumption. }
    destruct (ThemeProvider.listener i) as [[f ct]|] eqn:El.
    + destruct Hl as (Ht & -> & Hlt & Nin & Hls).
      cbn [ThemeProvider.setMatches ThemeProvider.changeListeners].
      rewrite Hls, existsb_last.
      cbn [ThemeProvider.handleChange]. unfold ThemeProvider.commit.
      cbn [ThemeProvider.theme ThemeProvider.setResolvedTheme].
      rewrite <- Hd. destruct (Theme_eqb_spec (ThemeProvider.deps i) (ThemeProvider.deps i));
        [|congruence].
      unfold ThemeInv.
      cbn [ThemeProvider.state ThemeProvider.deps ThemeProvider.listener
           ThemeProvider.theme ThemeProvider.resolvedTheme ThemeProvider.setResolvedTheme
           ThemeProvider.writeRoot ThemeProvider.dataTheme ThemeProvider.changeListeners
           ThemeProvider.nextFunction ThemeProvider.setMatches].
      rewrite El, Ht. cbn [appliedTheme].
      split; [congruence|]. split; [reflexivity|]. split; [reflexivity|].
      split.
      { apply writeRoot_classes. cbn [ThemeProvider.setMatches ThemeProvider.classList].
        rewrite Hc. apply otherClasses_themed. }
      split; [rewrite <- Ht; exact Hi|].
      split; [exact Hf|]. repeat split; assumption.
    + destruct Hl as (Ht & Hls). unfold ThemeInv. rewrite El.
      cbn [ThemeProvider.setMatches ThemeProvider.dataTheme ThemeProvider.classList
           ThemeProvider.changeListeners ThemeProvider.nextFunction].
      repeat split; try assumption.
      rewrite Hr. destruct (ThemeProvider.theme (ThemeProvider.state i)); try reflexivity.
      congruence.
Qed.

Lemma Theme_run_inv p classes0 base evs ip :
  ThemeInv p classes0 base ip -> ThemeInv p classes0 base (ThemeProvider.run p evs ip).
Proof.
  revert ip. induction evs as [|ev evs IH]; intros ip Inv; [exact Inv|].
  cbn [ThemeProvider.run]. apply IH. now apply Theme_step_inv.
Qed.

(** ** What a reload finds *)

Lemma Theme_runEffects_keeps s page :
  ThemeProvider.theme (ThemeProvider.state (fst (ThemeProvider.runEffects s page)))
  = ThemeProvider.theme s
  /\ ThemeProvider.localStorage (snd (ThemeProvider.runEffects s page))
     = ThemeProvider.localStorage page.
Proof.
  unfold ThemeProvider.runEffects, ThemeProvider.applyTheme, ThemeProvider.listen.
  cbn [ThemeProvider.theme ThemeProvider.setResolvedTheme].
  destruct (ThemeProvider.theme s) eqn:E; cbn; rewrite ?E; split; reflexivity.
Qed.

Lemma Theme_cleanup_storage l page :
  ThemeProvider.localStorage (ThemeProvider.cleanup l page) = ThemeProvider.localStorage page.
Proof. destruct l as [[f ct]|]; reflexivity. Qed.

Lemma Theme_commit_keeps s i page :
  ThemeProvider.theme (ThemeProvider.state (fst (ThemeProvider.commit s i page)))
  = ThemeProvider.theme s
  /\ ThemeProvider.localStorage (snd (ThemeProvider.commit s i page))
     = ThemeProvider.localStorage page.
Proof.
  unfold ThemeProvider.commit. destruct (ThemeProvider.Theme_eqb _ _).
  - split; reflexivity.
  - destruct (Theme_runEffects_keeps s (ThemeProvider.cleanup (ThemeProvider.listener i) page))
      as (-> & ->).
    split; [reflexivity|apply Theme_cleanup_storage].
Qed.

Lemma Theme_step_choose p t ip : stored p (ThemeProvider.step p (ThemeProvider.choose t) ip).
Proof.
  destruct ip as [i page]. unfold stored. cbn [ThemeProvider.step].
  unfold ThemeProvider.setTheme.
  match goal with
  | |- context [ThemeProvider.commit ?s ?i ?pg] =>
      destruct (Theme_commit_keeps s i pg) as (-> & ->)
  end.
  cbn [ThemeProvider.localStorage ThemeProvider.theme ThemeProvider.setThemeState].
  apply getItem_setItem.
Qed.

Lemma Theme_step_prefers p b ip :
  ThemeProvider.theme (ThemeProvider.state (fst (ThemeProvider.step p (ThemeProvider.prefers b) ip)))
  = ThemeProvider.theme (ThemeProvider.state (fst ip))
  /\ ThemeProvider.localStorage (snd (ThemeProvider.step p (ThemeProvider.prefers b) ip))
     = ThemeProvider.localStorage (snd ip).
Proof.
  destruct ip as [i page]. cbn [ThemeProvider.step fst snd].
  destruct (Bool.eqb (ThemeProvider.matches page) b); [split; reflexivity|].
  destruct (ThemeProvider.listener i) as [[f ct]|]; [|split; reflexivity].
  destruct (existsb _ _); [|split; reflexivity].
  destruct ct; cbn [ThemeProvider.handleChange];
    match goal with
    | |- context [ThemeProvider.commit ?s ?i ?pg] =>
        destruct (Theme_commit_keeps s i pg) as (-> & ->)
    end; split; reflexivity.
Qed.

Lemma initialTheme_stored p p' ip :
  ThemeProvider.storageKey p' = ThemeProvider.storageKey p ->
  stored p ip ->
  ThemeProvider.initialTheme p' (snd ip) = ThemeProvider.theme (ThemeProvider.state (fst ip)).
Proof.
  intros Hk Hs. unfold stored in Hs. unfold ThemeProvider.initialTheme.
  rewrite Hk, Hs. destruct (ThemeProvider.theme _); reflexivity.
Qed.

Lemma Theme_step_stored p ev ip : stored p ip -> stored p (ThemeProvider.step p ev ip).
Proof.
  intros Hs. destruct ev as [t|b]; [apply Theme_step_choose|].
  unfold stored. destruct (Theme_step_prefers p b ip) as (-> & ->). exact Hs.
Qed.

Lemma Theme_run_stored p evs ip : stored p ip -> stored p (ThemeProvider.run p evs ip).
Proof.
  revert ip. induction evs as [|ev evs IH]; intros ip Hs; [exact Hs|].
  cbn [ThemeProvider.run]. apply IH. now apply Theme_step_stored.
Qed.

Lemma Theme_run_chosen p evs ip :
  existsb isChoose evs = true -> stored p (ThemeProvider.run p evs ip).
Proof.
  revert ip. induction evs as [|ev evs IH]; intros ip Hc; [discriminate|].
  cbn [ThemeProvider.run]. destruct ev as [t|b].
  - apply Theme_run_stored, Theme_step_choose.
  - apply IH. exact Hc.
Qed.

Lemma Theme_run_reload p evs ip :
  ThemeProvider.initialTheme p (snd ip) = ThemeProvider.theme (ThemeProvider.state (fst ip)) ->
  ThemeProvider.initialTheme p (snd (ThemeProvider.run p evs ip))
  = ThemeProvider.theme (ThemeProvider.state (fst (ThemeProvider.run p evs ip))).
Proof.
  revert ip. induction evs as [|ev evs IH]; intros ip H; [exact H|].
  cbn [ThemeProvider.run]. apply IH. destruct ev as [t|b].
  - apply (initialTheme_stored p p _ eq_refl), Theme_step_choose.
  - destruct (Theme_step_prefers p b ip) as (Et & Es). rewrite Et, <- H.
    unfold ThemeProvider.initialTheme. now rewrite Es.
Qed.

(** X22. A reload finds the theme in use. After the mount and any run of
    theme choices and changes of the system preference, the initializer
    of a new provider with the same props, on the page as it then is,
    gives the theme the provider has; and once a theme has been chosen,
    so does that of a provider with any [defaultTheme] and the same
    [storageKey]. *)
Theorem X22_reload_finds_the_theme :
  (forall p page evs,
      let ip := ThemeProvider.run p evs (ThemeProvider.mount p page) in
      ThemeProvider.initialTheme p (snd ip) = ThemeProvider.theme (ThemeProvider.state (fst ip)))
  /\ (forall p p' page evs,
        ThemeProvider.storageKey p' = ThemeProvider.storageKey p ->
        existsb isChoose evs = true ->
        let ip := ThemeProvider.run p evs (ThemeProvider.mount p page) in
        ThemeProvider.initialTheme p' (snd ip)
        = ThemeProvider.theme (ThemeProvider.state (fst ip))).
Proof.
  split.
  - intros p page evs ip. apply Theme_run_reload. unfold ThemeProvider.mount.
    destruct (Theme_runEffects_keeps (ThemeProvider.init p page) page) as (-> & Es).
    unfold ThemeProvider.initialTheme. now rewrite Es.
  - intros p p' page evs Hk Hc ip. apply (initialTheme_stored p p' _ Hk).
    now apply Theme_run_chosen.
Qed.

Lemma X22_reload_finds_the_theme_witness :
  ThemeProvider.initialTheme
    {| ThemeProvider.defaultTheme := ThemeProvider.light;
       ThemeProvider.storageKey := "ui-theme" |}
    (snd (ThemeProvider.run ThemeProvider.defaultProps
            [ThemeProvider.prefers false; ThemeProvider.choose ThemeProvider.dark]
            (ThemeProvider.mount ThemeProvider.defaultProps darkPage)))
  = ThemeProvider.dark.
Proof.
  exact (proj2 X22_reload_finds_the_theme ThemeProvider.defaultProps
           {| ThemeProvider.defaultTheme := ThemeProvider.light;
              ThemeProvider.storageKey := "ui-theme" |}
           darkPage [ThemeProvider.prefers false; ThemeProvider.choose ThemeProvider.dark]
           eq_refl eq_refl).
Defined.

(** ** The root element *)

(** X23. The root element shows the theme in use. On a page whose media
    query has only listeners allocated before, after the mount and any
    run of theme choices and changes of the system preference:
    [resolvedTheme] is the chosen theme, or what the system prefers now
    when the choice is [system]; [data-theme] is its name; the classes of
    the root are those it had apart from [light] and [dark], followed by
    that name alone; the media query has one more listener exactly while
    the choice is [system], and the unmount leaves it the listeners it
    had. *)
Theorem X23_root_shows_the_theme p page evs :
  wfPage page ->
  let ip := ThemeProvider.run p evs (ThemeProvider.mount p page) in
  let s := ThemeProvider.state (fst ip) in
  ThemeProvider.resolvedTheme s = appliedTheme (ThemeProvider.theme s) (snd ip)
  /\ ThemeProvider.dataTheme (snd ip)
     = Some (ThemeProvider.Resolved_text (ThemeProvider.resolvedTheme s))
  /\ ThemeProvider.classList (snd ip)
     = otherClasses (ThemeProvider.classList page)
       ++ [ThemeProvider.Resolved_text (ThemeProvider.resolvedTheme s)]
  /\ (ThemeProvider.theme s <> ThemeProvider.system ->
      ThemeProvider.changeListeners (snd ip) = ThemeProvider.changeListeners page)
  /\ (ThemeProvider.theme s = ThemeProvider.system ->
      exists f, ~ In f (ThemeProvider.changeListeners page)
                /\ ThemeProvider.changeListeners (snd ip)
                   = ThemeProvider.changeListeners page ++ [f])
  /\ ThemeProvider.changeListeners (ThemeProvider.unmount ip)
     = ThemeProvider.changeListeners page.
Proof.
  intros Hwf ip s.
  pose proof (Theme_run_inv p _ _ evs _ (Theme_mount_inv p page Hwf)) as Inv.
  fold ip in Inv. destruct ip as [i page']. subst s. cbn [fst snd].
  destruct Inv as (Hd & Hr & Ha & Hc & Hi & Hf & Hl).
  split; [exact Hr|]. split; [exact Ha|]. split; [exact Hc|].
  unfold ThemeProvider.unmount. cbn [fst snd].
  destruct (ThemeProvider.listener i) as [[f ct]|].
  - destruct Hl as (Ht & _ & _ & Nin & Hls).
    split; [congruence|]. split; [intros _; exists f; auto|].
    cbn [ThemeProvider.cleanup ThemeProvider.withListeners ThemeProvider.changeListeners].
    rewrite Hls. now apply removeChangeListener_last.
  - destruct Hl as (Ht & Hls).
    split; [auto|]. split; [congruence|]. exact Hls.
Qed.

Lemma X23_root_shows_the_theme_witness :
  ThemeProvider.classList
    (snd (ThemeProvider.run ThemeProvider.defaultProps
            [ThemeProvider.choose ThemeProvider.light; ThemeProvider.prefers false;
             ThemeProvider.choose ThemeProvider.system]
            (ThemeProvider.mount ThemeProvider.defaultProps darkPage)))
  = ["h-full"%string; "light"%string].
Proof.
  refine (proj1 (proj2 (proj2 (X23_root_shows_the_theme ThemeProvider.defaultProps darkPage
                                 [ThemeProvider.choose ThemeProvider.light;
                                  ThemeProvider.prefers false;
                                  ThemeProvider.choose ThemeProvider.system] _)))).
  unfold wfPage. cbn. repeat constructor.
Defined.
